(** * bq769x0: shallow embedding of the battery-management driver

    The development follows [bq769x0.cpp].  Conventions:

    - [int] and [long] are the 32-bit two's-complement integers of the ARM
      target; their values are carried as [Z].  Unsigned arithmetic
      ([uint8_t], [unsigned int]) has its wrap-around written out
      ([uint8], [uint32]).  Signed overflow is undefined in C: where a
      product of caller-supplied values can leave the range of a [long]
      the model stops ([Overflow], or [None] in the threshold
      configurator); arithmetic on ADC readings (14 bits) and calibration
      constants stays in [Z].
    - [char] is unsigned on the target, so a byte received from the bus is
      a number in [0, 256).
    - [float] and [double] expressions are carried out in exact rational
      arithmetic ([Q]); a conversion to an integer type truncates towards
      zero ([Qtrunc]).  A quotient by zero is 0 in [Q]; nothing below
      rests on it.
    - The headers [bq769x0.h] and [registers.h] are not part of the sources
      at hand.  Registers are therefore named symbolically, the lookup
      tables of [registers.h] are parameters, and the types of the fields
      are the ones the code implies: [coulombCounter] and
      [nominalCapacity] are integers (the code casts them to [double]),
      [secSinceErrorCounter] and [interruptTimestamp] are unsigned (the
      code casts their difference to [long]), [idleTimestamp] is signed
      (the code tests the difference for [< 0]), and
      [shuntResistorValue_mOhm] is a whole number of milliohms (the list
      of open points in the file has "Enable values like 1.5 mOhm"). *)

From Stdlib Require Import ZArith QArith Qround Lia Lqa Bool Ascii.
From stdpp Require Import base list.

Local Open Scope Z_scope.

(** ** Machine integers *)

Definition uint8 (x : Z) : Z := x mod 256.
Definition uint32 (x : Z) : Z := x mod 2 ^ 32.

(** Reinterpretation of a 32-bit pattern as a signed [long]. *)
Definition to_long (x : Z) : Z :=
  let u := uint32 x in if u <? 2 ^ 31 then u else u - 2 ^ 32.

Definition in_long (x : Z) : bool := (- 2 ^ 31 <=? x) && (x <? 2 ^ 31).

(** ** Register transport *)

Module Transport.

(** One shift/xor round of [_crc8_ccitt_update] on the [uint8_t] [data]. *)
Definition crc8_round (data : Z) : Z :=
  if negb (Z.land data 0x80 =? 0)
  then Z.lxor (uint8 (Z.shiftl data 1)) 0x07
  else uint8 (Z.shiftl data 1).

Fixpoint crc8_rounds (i : nat) (data : Z) : Z :=
  match i with
  | O => data
  | S i' => crc8_rounds i' (crc8_round data)
  end.

Definition _crc8_ccitt_update (inCrc inData : Z) : Z :=
  crc8_rounds 8 (Z.lxor (uint8 inCrc) (uint8 inData)).

(** CRC-8-CCITT of a byte sequence from initial value 0. *)
Definition crc8 (bytes : list Z) : Z :=
  fold_left _crc8_ccitt_update bytes 0.

(** The frame [writeRegister] hands to [_i2c.write]. *)
Definition writeRegister (crcEnabled : bool) (I2CAddress address data : Z)
  : list Z :=
  if crcEnabled then
    let crc := 0 in
    let crc := _crc8_ccitt_update crc (Z.lor (Z.shiftl I2CAddress 1) 0) in
    let crc := _crc8_ccitt_update crc address in
    let crc := _crc8_ccitt_update crc data in
    [uint8 address; uint8 data; uint8 crc]
  else [uint8 address; uint8 data].

(** A [do ... while] loop whose body consumes one bus answer per round.
    The body either asks for another round with a new loop state, or
    leaves the loop with a result.  [None]: the answers are used up and
    the loop is still running. *)
Fixpoint do_while {St In Out : Type} (body : St -> In -> St + Out)
    (st : St) (rx : list In) : option Out :=
  match rx with
  | [] => None
  | x :: rx' =>
      match body st x with
      | inl st' => do_while body st' rx'
      | inr out => Some out
      end
  end.

(** The body of the loop in [readRegister].  An answer is the two bytes
    [buf[0]] (data) and [buf[1]] (CRC) of one [_i2c.read]; the loop state
    is the local variable [crc], which the body updates and never
    clears. *)
Definition readRegister_body (I2CAddress : Z) (crc : Z) (buf : Z * Z)
  : Z + Z :=
  let data := fst buf in
  let crcSlave := snd buf in
  let crc := _crc8_ccitt_update crc (Z.lor (Z.shiftl I2CAddress 1) 1) in
  let crc := _crc8_ccitt_update crc data in
  if negb (crc =? crcSlave) then inl crc else inr data.

(** [readRegister] with [crcEnabled == true]: [crc] starts at 0. *)
Definition readRegister (I2CAddress : Z) (rx : list (Z * Z)) : option Z :=
  do_while (readRegister_body I2CAddress) 0 rx.

(** An answer whose CRC byte is the CRC-8 of the read address and of its
    data byte. *)
Definition frame_ok (I2CAddress : Z) (frame : Z * Z) : bool :=
  crc8 [Z.lor (Z.shiftl I2CAddress 1) 1; fst frame] =? snd frame.

End Transport.

(** ** The device object

    Registers the modelled methods touch.  [CELLBAL1_plus k] is the register
    at address [CELLBAL1 + k]. *)

Inductive register : Set :=
| SYS_STAT
| CELLBAL1_plus (k : Z)
| BAT_HI_BYTE
| BAT_LO_BYTE
| CC_HI_BYTE
| CC_LO_BYTE.

(** The bus as the driver sees it through [readRegister], [writeRegister]
    and the burst read of the cell registers: [chip r] is the data byte the
    chip answers when register [r] is read, [burst i] the bytes delivered by
    the [i]-th [_i2c.read] after the address pointer has been set to
    [VC1_HI_BYTE], and [written] the register writes issued so far, latest
    first. *)
Record I2C : Type := {
  chip : register -> Z;
  burst : Z -> list Z;
  written : list (register * Z)
}.

(** The fields of class [bq769x0] the modelled methods use.  [_timer] is the
    current value of [_timer.read_ms()]. *)
Record bq769x0 : Type := {
  _i2c : I2C;
  _timer : Z;
  crcEnabled : bool;
  numberOfCells : Z;
  adcGain : Z;
  adcOffset : Z;
  shuntResistorValue_mOhm : Z;
  idleCurrentThreshold : Z;
  cellVoltages : list Z;
  idCellMaxVoltage : Z;
  idCellMinVoltage : Z;
  batVoltage : Z;
  batCurrent : Z;
  temperatures : list Z;
  nominalCapacity : Z;
  coulombCounter : Z;
  OCV : list Z;
  minCellVoltage : Z;
  maxCellVoltage : Z;
  alertInterruptFlag : bool;
  errorStatus : Z;
  secSinceErrorCounter : Z;
  interruptTimestamp : Z;
  balancingStatus : Z;
  balancingMinIdleTime_s : Z;
  balancingMinCellVoltage_mV : Z;
  balancingMaxVoltageDifference_mV : Z;
  idleTimestamp : Z
}.

(** Assignment to a field. *)

Definition set_i2c (v : I2C) (s : bq769x0) : bq769x0 :=
  {| _i2c := v; _timer := _timer s; crcEnabled := crcEnabled s;
     numberOfCells := numberOfCells s; adcGain := adcGain s;
     adcOffset := adcOffset s;
     shuntResistorValue_mOhm := shuntResistorValue_mOhm s;
     idleCurrentThreshold := idleCurrentThreshold s;
     cellVoltages := cellVoltages s; idCellMaxVoltage := idCellMaxVoltage s;
     idCellMinVoltage := idCellMinVoltage s; batVoltage := batVoltage s;
     batCurrent := batCurrent s; temperatures := temperatures s;
     nominalCapacity := nominalCapacity s;
     coulombCounter := coulombCounter s; OCV := OCV s;
     minCellVoltage := minCellVoltage s; maxCellVoltage := maxCellVoltage s;
     alertInterruptFlag := alertInterruptFlag s;
     errorStatus := errorStatus s;
     secSinceErrorCounter := secSinceErrorCounter s;
     interruptTimestamp := interruptTimestamp s;
     balancingStatus := balancingStatus s;
     balancingMinIdleTime_s := balancingMinIdleTime_s s;
     balancingMinCellVoltage_mV := balancingMinCellVoltage_mV s;
     balancingMaxVoltageDifference_mV := balancingMaxVoltageDifference_mV s;
     idleTimestamp := idleTimestamp s |}.

Definition set_timer (v : Z) (s : bq769x0) : bq769x0 :=
  {| _i2c := _i2c s; _timer := v; crcEnabled := crcEnabled s;
     numberOfCells := numberOfCells s; adcGain := adcGain s;
     adcOffset := adcOffset s;
     shuntResistorValue_mOhm := shuntResistorValue_mOhm s;
     idleCurrentThreshold := idleCurrentThreshold s;
     cellVoltages := cellVoltages s; idCellMaxVoltage := idCellMaxVoltage s;
     idCellMinVoltage := idCellMinVoltage s; batVoltage := batVoltage s;
     batCurrent := batCurrent s; temperatures := temperatures s;
     nominalCapacity := nominalCapacity s;
     coulombCounter := coulombCounter s; OCV := OCV s;
     minCellVoltage := minCellVoltage s; maxCellVoltage := maxCellVoltage s;
     alertInterruptFlag := alertInterruptFlag s;
     errorStatus := errorStatus s;
     secSinceErrorCounter := secSinceErrorCounter s;
     interruptTimestamp := interruptTimestamp s;
     balancingStatus := balancingStatus s;
     balancingMinIdleTime_s := balancingMinIdleTime_s s;
     balancingMinCellVoltage_mV := balancingMinCellVoltage_mV s;
     balancingMaxVoltageDifference_mV := balancingMaxVoltageDifference_mV s;
     idleTimestamp := idleTimestamp s |}.

Definition set_cellVoltages (v : list Z) (s : bq769x0) : bq769x0 :=
  {| _i2c := _i2c s; _timer := _timer s; crcEnabled := crcEnabled s;
     numberOfCells := numberOfCells s; adcGain := adcGain s;
     adcOffset := adcOffset s;
     shuntResistorValue_mOhm := shuntResistorValue_mOhm s;
     idleCurrentThreshold := idleCurrentThreshold s; cellVoltages := v;
     idCellMaxVoltage := idCellMaxVoltage s;
     idCellMinVoltage := idCellMinVoltage s; batVoltage := batVoltage s;
     batCurrent := batCurrent s; temperatures := temperatures s;
     nominalCapacity := nominalCapacity s;
     coulombCounter := coulombCounter s; OCV := OCV s;
     minCellVoltage := minCellVoltage s; maxCellVoltage := maxCellVoltage s;
     alertInterruptFlag := alertInterruptFlag s;
     errorStatus := errorStatus s;
     secSinceErrorCounter := secSinceErrorCounter s;
     interruptTimestamp := interruptTimestamp s;
     balancingStatus := balancingStatus s;
     balancingMinIdleTime_s := balancingMinIdleTime_s s;
     balancingMinCellVoltage_mV := balancingMinCellVoltage_mV s;
     balancingMaxVoltageDifference_mV := balancingMaxVoltageDifference_mV s;
     idleTimestamp := idleTimestamp s |}.

Definition set_idCellMaxVoltage (v : Z) (s : bq769x0) : bq769x0 :=
  {| _i2c := _i2c s; _timer := _timer s; crcEnabled := crcEnabled s;
     numberOfCells := numberOfCells s; adcGain := adcGain s;
     adcOffset := adcOffset s;
     shuntResistorValue_mOhm := shuntResistorValue_mOhm s;
     idleCurrentThreshold := idleCurrentThreshold s;
     cellVoltages := cellVoltages s; idCellMaxVoltage := v;
     idCellMinVoltage := idCellMinVoltage s; batVoltage := batVoltage s;
     batCurrent := batCurrent s; temperatures := temperatures s;
     nominalCapacity := nominalCapacity s;
     coulombCounter := coulombCounter s; OCV := OCV s;
     minCellVoltage := minCellVoltage s; maxCellVoltage := maxCellVoltage s;
     alertInterruptFlag := alertInterruptFlag s;
     errorStatus := errorStatus s;
     secSinceErrorCounter := secSinceErrorCounter s;
     interruptTimestamp := interruptTimestamp s;
     balancingStatus := balancingStatus s;
     balancingMinIdleTime_s := balancingMinIdleTime_s s;
     balancingMinCellVoltage_mV := balancingMinCellVoltage_mV s;
     balancingMaxVoltageDifference_mV := balancingMaxVoltageDifference_mV s;
     idleTimestamp := idleTimestamp s |}.

Definition set_idCellMinVoltage (v : Z) (s : bq769x0) : bq769x0 :=
  {| _i2c := _i2c s; _timer := _timer s; crcEnabled := crcEnabled s;
     numberOfCells := numberOfCells s; adcGain := adcGain s;
     adcOffset := adcOffset s;
     shuntResistorValue_mOhm := shuntResistorValue_mOhm s;
     idleCurrentThreshold := idleCurrentThreshold s;
     cellVoltages := cellVoltages s; idCellMaxVoltage := idCellMaxVoltage s;
     idCellMinVoltage := v; batVoltage := batVoltage s;
     batCurrent := batCurrent s; temperatures := temperatures s;
     nominalCapacity := nominalCapacity s;
     coulombCounter := coulombCounter s; OCV := OCV s;
     minCellVoltage := minCellVoltage s; maxCellVoltage := maxCellVoltage s;
     alertInterruptFlag := alertInterruptFlag s;
     errorStatus := errorStatus s;
     secSinceErrorCounter := secSinceErrorCounter s;
     interruptTimestamp := interruptTimestamp s;
     balancingStatus := balancingStatus s;
     balancingMinIdleTime_s := balancingMinIdleTime_s s;
     balancingMinCellVoltage_mV := balancingMinCellVoltage_mV s;
     balancingMaxVoltageDifference_mV := balancingMaxVoltageDifference_mV s;
     idleTimestamp := idleTimestamp s |}.

Definition set_batVoltage (v : Z) (s : bq769x0) : bq769x0 :=
  {| _i2c := _i2c s; _timer := _timer s; crcEnabled := crcEnabled s;
     numberOfCells := numberOfCells s; adcGain := adcGain s;
     adcOffset := adcOffset s;
     shuntResistorValue_mOhm := shuntResistorValue_mOhm s;
     idleCurrentThreshold := idleCurrentThreshold s;
     cellVoltages := cellVoltages s; idCellMaxVoltage := idCellMaxVoltage s;
     idCellMinVoltage := idCellMinVoltage s; batVoltage := v;
     batCurrent := batCurrent s; temperatures := temperatures s;
     nominalCapacity := nominalCapacity s;
     coulombCounter := coulombCounter s; OCV := OCV s;
     minCellVoltage := minCellVoltage s; maxCellVoltage := maxCellVoltage s;
     alertInterruptFlag := alertInterruptFlag s;
     errorStatus := errorStatus s;
     secSinceErrorCounter := secSinceErrorCounter s;
     interruptTimestamp := interruptTimestamp s;
     balancingStatus := balancingStatus s;
     balancingMinIdleTime_s := balancingMinIdleTime_s s;
     balancingMinCellVoltage_mV := balancingMinCellVoltage_mV s;
     balancingMaxVoltageDifference_mV := balancingMaxVoltageDifference_mV s;
     idleTimestamp := idleTimestamp s |}.

Definition set_batCurrent (v : Z) (s : bq769x0) : bq769x0 :=
  {| _i2c := _i2c s; _timer := _timer s; crcEnabled := crcEnabled s;
     numberOfCells := numberOfCells s; adcGain := adcGain s;
     adcOffset := adcOffset s;
     shuntResistorValue_mOhm := shuntResistorValue_mOhm s;
     idleCurrentThreshold := idleCurrentThreshold s;
     cellVoltages := cellVoltages s; idCellMaxVoltage := idCellMaxVoltage s;
     idCellMinVoltage := idCellMinVoltage s; batVoltage := batVoltage s;
     batCurrent := v; temperatures := temperatures s;
     nominalCapacity := nominalCapacity s;
     coulombCounter := coulombCounter s; OCV := OCV s;
     minCellVoltage := minCellVoltage s; maxCellVoltage := maxCellVoltage s;
     alertInterruptFlag := alertInterruptFlag s;
     errorStatus := errorStatus s;
     secSinceErrorCounter := secSinceErrorCounter s;
     interruptTimestamp := interruptTimestamp s;
     balancingStatus := balancingStatus s;
     balancingMinIdleTime_s := balancingMinIdleTime_s s;
     balancingMinCellVoltage_mV := balancingMinCellVoltage_mV s;
     balancingMaxVoltageDifference_mV := balancingMaxVoltageDifference_mV s;
     idleTimestamp := idleTimestamp s |}.

Definition set_nominalCapacity (v : Z) (s : bq769x0) : bq769x0 :=
  {| _i2c := _i2c s; _timer := _timer s; crcEnabled := crcEnabled s;
     numberOfCells := numberOfCells s; adcGain := adcGain s;
     adcOffset := adcOffset s;
     shuntResistorValue_mOhm := shuntResistorValue_mOhm s;
     idleCurrentThreshold := idleCurrentThreshold s;
     cellVoltages := cellVoltages s; idCellMaxVoltage := idCellMaxVoltage s;
     idCellMinVoltage := idCellMinVoltage s; batVoltage := batVoltage s;
     batCurrent := batCurrent s; temperatures := temperatures s;
     nominalCapacity := v; coulombCounter := coulombCounter s; OCV := OCV s;
     minCellVoltage := minCellVoltage s; maxCellVoltage := maxCellVoltage s;
     alertInterruptFlag := alertInterruptFlag s;
     errorStatus := errorStatus s;
     secSinceErrorCounter := secSinceErrorCounter s;
     interruptTimestamp := interruptTimestamp s;
     balancingStatus := balancingStatus s;
     balancingMinIdleTime_s := balancingMinIdleTime_s s;
     balancingMinCellVoltage_mV := balancingMinCellVoltage_mV s;
     balancingMaxVoltageDifference_mV := balancingMaxVoltageDifference_mV s;
     idleTimestamp := idleTimestamp s |}.

Definition set_coulombCounter (v : Z) (s : bq769x0) : bq769x0 :=
  {| _i2c := _i2c s; _timer := _timer s; crcEnabled := crcEnabled s;
     numberOfCells := numberOfCells s; adcGain := adcGain s;
     adcOffset := adcOffset s;
     shuntResistorValue_mOhm := shuntResistorValue_mOhm s;
     idleCurrentThreshold := idleCurrentThreshold s;
     cellVoltages := cellVoltages s; idCellMaxVoltage := idCellMaxVoltage s;
     idCellMinVoltage := idCellMinVoltage s; batVoltage := batVoltage s;
     batCurrent := batCurrent s; temperatures := temperatures s;
     nominalCapacity := nominalCapacity s; coulombCounter := v; OCV := OCV s;
     minCellVoltage := minCellVoltage s; maxCellVoltage := maxCellVoltage s;
     alertInterruptFlag := alertInterruptFlag s;
     errorStatus := errorStatus s;
     secSinceErrorCounter := secSinceErrorCounter s;
     interruptTimestamp := interruptTimestamp s;
     balancingStatus := balancingStatus s;
     balancingMinIdleTime_s := balancingMinIdleTime_s s;
     balancingMinCellVoltage_mV := balancingMinCellVoltage_mV s;
     balancingMaxVoltageDifference_mV := balancingMaxVoltageDifference_mV s;
     idleTimestamp := idleTimestamp s |}.

Definition set_alertInterruptFlag (v : bool) (s : bq769x0) : bq769x0 :=
  {| _i2c := _i2c s; _timer := _timer s; crcEnabled := crcEnabled s;
     numberOfCells := numberOfCells s; adcGain := adcGain s;
     adcOffset := adcOffset s;
     shuntResistorValue_mOhm := shuntResistorValue_mOhm s;
     idleCurrentThreshold := idleCurrentThreshold s;
     cellVoltages := cellVoltages s; idCellMaxVoltage := idCellMaxVoltage s;
     idCellMinVoltage := idCellMinVoltage s; batVoltage := batVoltage s;
     batCurrent := batCurrent s; temperatures := temperatures s;
     nominalCapacity := nominalCapacity s;
     coulombCounter := coulombCounter s; OCV := OCV s;
     minCellVoltage := minCellVoltage s; maxCellVoltage := maxCellVoltage s;
     alertInterruptFlag := v; errorStatus := errorStatus s;
     secSinceErrorCounter := secSinceErrorCounter s;
     interruptTimestamp := interruptTimestamp s;
     balancingStatus := balancingStatus s;
     balancingMinIdleTime_s := balancingMinIdleTime_s s;
     balancingMinCellVoltage_mV := balancingMinCellVoltage_mV s;
     balancingMaxVoltageDifference_mV := balancingMaxVoltageDifference_mV s;
     idleTimestamp := idleTimestamp s |}.

Definition set_errorStatus (v : Z) (s : bq769x0) : bq769x0 :=
  {| _i2c := _i2c s; _timer := _timer s; crcEnabled := crcEnabled s;
     numberOfCells := numberOfCells s; adcGain := adcGain s;
     adcOffset := adcOffset s;
     shuntResistorValue_mOhm := shuntResistorValue_mOhm s;
     idleCurrentThreshold := idleCurrentThreshold s;
     cellVoltages := cellVoltages s; idCellMaxVoltage := idCellMaxVoltage s;
     idCellMinVoltage := idCellMinVoltage s; batVoltage := batVoltage s;
     batCurrent := batCurrent s; temperatures := temperatures s;
     nominalCapacity := nominalCapacity s;
     coulombCounter := coulombCounter s; OCV := OCV s;
     minCellVoltage := minCellVoltage s; maxCellVoltage := maxCellVoltage s;
     alertInterruptFlag := alertInterruptFlag s; errorStatus := v;
     secSinceErrorCounter := secSinceErrorCounter s;
     interruptTimestamp := interruptTimestamp s;
     balancingStatus := balancingStatus s;
     balancingMinIdleTime_s := balancingMinIdleTime_s s;
     balancingMinCellVoltage_mV := balancingMinCellVoltage_mV s;
     balancingMaxVoltageDifference_mV := balancingMaxVoltageDifference_mV s;
     idleTimestamp := idleTimestamp s |}.

Definition set_secSinceErrorCounter (v : Z) (s : bq769x0) : bq769x0 :=
  {| _i2c := _i2c s; _timer := _timer s; crcEnabled := crcEnabled s;
     numberOfCells := numberOfCells s; adcGain := adcGain s;
     adcOffset := adcOffset s;
     shuntResistorValue_mOhm := shuntResistorValue_mOhm s;
     idleCurrentThreshold := idleCurrentThreshold s;
     cellVoltages := cellVoltages s; idCellMaxVoltage := idCellMaxVoltage s;
     idCellMinVoltage := idCellMinVoltage s; batVoltage := batVoltage s;
     batCurrent := batCurrent s; temperatures := temperatures s;
     nominalCapacity := nominalCapacity s;
     coulombCounter := coulombCounter s; OCV := OCV s;
     minCellVoltage := minCellVoltage s; maxCellVoltage := maxCellVoltage s;
     alertInterruptFlag := alertInterruptFlag s;
     errorStatus := errorStatus s; secSinceErrorCounter := v;
     interruptTimestamp := interruptTimestamp s;
     balancingStatus := balancingStatus s;
     balancingMinIdleTime_s := balancingMinIdleTime_s s;
     balancingMinCellVoltage_mV := balancingMinCellVoltage_mV s;
     balancingMaxVoltageDifference_mV := balancingMaxVoltageDifference_mV s;
     idleTimestamp := idleTimestamp s |}.

Definition set_interruptTimestamp (v : Z) (s : bq769x0) : bq769x0 :=
  {| _i2c := _i2c s; _timer := _timer s; crcEnabled := crcEnabled s;
     numberOfCells := numberOfCells s; adcGain := adcGain s;
     adcOffset := adcOffset s;
     shuntResistorValue_mOhm := shuntResistorValue_mOhm s;
     idleCurrentThreshold := idleCurrentThreshold s;
     cellVoltages := cellVoltages s; idCellMaxVoltage := idCellMaxVoltage s;
     idCellMinVoltage := idCellMinVoltage s; batVoltage := batVoltage s;
     batCurrent := batCurrent s; temperatures := temperatures s;
     nominalCapacity := nominalCapacity s;
     coulombCounter := coulombCounter s; OCV := OCV s;
     minCellVoltage := minCellVoltage s; maxCellVoltage := maxCellVoltage s;
     alertInterruptFlag := alertInterruptFlag s;
     errorStatus := errorStatus s;
     secSinceErrorCounter := secSinceErrorCounter s; interruptTimestamp := v;
     balancingStatus := balancingStatus s;
     balancingMinIdleTime_s := balancingMinIdleTime_s s;
     balancingMinCellVoltage_mV := balancingMinCellVoltage_mV s;
     balancingMaxVoltageDifference_mV := balancingMaxVoltageDifference_mV s;
     idleTimestamp := idleTimestamp s |}.

Definition set_balancingStatus (v : Z) (s : bq769x0) : bq769x0 :=
  {| _i2c := _i2c s; _timer := _timer s; crcEnabled := crcEnabled s;
     numberOfCells := numberOfCells s; adcGain := adcGain s;
     adcOffset := adcOffset s;
     shuntResistorValue_mOhm := shuntResistorValue_mOhm s;
     idleCurrentThreshold := idleCurrentThreshold s;
     cellVoltages := cellVoltages s; idCellMaxVoltage := idCellMaxVoltage s;
     idCellMinVoltage := idCellMinVoltage s; batVoltage := batVoltage s;
     batCurrent := batCurrent s; temperatures := temperatures s;
     nominalCapacity := nominalCapacity s;
     coulombCounter := coulombCounter s; OCV := OCV s;
     minCellVoltage := minCellVoltage s; maxCellVoltage := maxCellVoltage s;
     alertInterruptFlag := alertInterruptFlag s;
     errorStatus := errorStatus s;
     secSinceErrorCounter := secSinceErrorCounter s;
     interruptTimestamp := interruptTimestamp s; balancingStatus := v;
     balancingMinIdleTime_s := balancingMinIdleTime_s s;
     balancingMinCellVoltage_mV := balancingMinCellVoltage_mV s;
     balancingMaxVoltageDifference_mV := balancingMaxVoltageDifference_mV s;
     idleTimestamp := idleTimestamp s |}.

Definition set_idleTimestamp (v : Z) (s : bq769x0) : bq769x0 :=
  {| _i2c := _i2c s; _timer := _timer s; crcEnabled := crcEnabled s;
     numberOfCells := numberOfCells s; adcGain := adcGain s;
     adcOffset := adcOffset s;
     shuntResistorValue_mOhm := shuntResistorValue_mOhm s;
     idleCurrentThreshold := idleCurrentThreshold s;
     cellVoltages := cellVoltages s; idCellMaxVoltage := idCellMaxVoltage s;
     idCellMinVoltage := idCellMinVoltage s; batVoltage := batVoltage s;
     batCurrent := batCurrent s; temperatures := temperatures s;
     nominalCapacity := nominalCapacity s;
     coulombCounter := coulombCounter s; OCV := OCV s;
     minCellVoltage := minCellVoltage s; maxCellVoltage := maxCellVoltage s;
     alertInterruptFlag := alertInterruptFlag s;
     errorStatus := errorStatus s;
     secSinceErrorCounter := secSinceErrorCounter s;
     interruptTimestamp := interruptTimestamp s;
     balancingStatus := balancingStatus s;
     balancingMinIdleTime_s := balancingMinIdleTime_s s;
     balancingMinCellVoltage_mV := balancingMinCellVoltage_mV s;
     balancingMaxVoltageDifference_mV := balancingMaxVoltageDifference_mV s;
     idleTimestamp := v |}.

(** ** Methods as state transformers

    A method either returns a value and the new object, or stops where C
    leaves its behaviour undefined: at an array access outside the array,
    or at a signed product that does not fit a [long]. *)

Inductive fault : Set :=
| OutOfBounds (index : Z)
| Overflow.

Inductive outcome (A : Type) : Type :=
| Ok (a : A) (s : bq769x0)
| Stop (f : fault).

Arguments Ok {A} a s.
Arguments Stop {A} f.

Definition M (A : Type) : Type := bq769x0 -> outcome A.

Definition ret {A : Type} (a : A) : M A := fun s => Ok a s.

Definition bind {A B : Type} (m : M A) (k : A -> M B) : M B :=
  fun s => match m s with
           | Ok a s' => k a s'
           | Stop f => Stop f
           end.

Notation "x <- m ;; k" := (bind m (fun x => k))
  (at level 100, m at next level, right associativity).
Notation "m ;; k" := (bind m (fun _ => k))
  (at level 100, right associativity).

Definition get {A : Type} (field : bq769x0 -> A) : M A := fun s => Ok (field s) s.
Definition modify (f : bq769x0 -> bq769x0) : M unit := fun s => Ok tt (f s).
Definition when (b : bool) (m : M unit) : M unit := if b then m else ret tt.

(** A product computed in [long]. *)
Definition long_mul (x y : Z) : M Z :=
  fun s => if in_long (x * y) then Ok (x * y) s else Stop Overflow.

(** [for (int i = from; ...; i++)] with [n] rounds and no loop-carried
    local, and the same with a local variable [acc] carried along. *)
Fixpoint for_ (n : nat) (from : Z) (body : Z -> M unit) : M unit :=
  match n with
  | O => ret tt
  | S n' => body from ;; for_ n' (from + 1) body
  end.

Fixpoint for_acc {A : Type} (n : nat) (from : Z) (body : Z -> A -> M A)
    (acc : A) : M A :=
  match n with
  | O => ret acc
  | S n' => acc' <- body from acc ;; for_acc n' (from + 1) body acc'
  end.

(** Register-level bus access: the data byte a read of a register yields,
    and the log of the register writes.  The frames that carry them are in
    [Transport]. *)
Definition readRegister (address : register) : M Z :=
  fun s => Ok (chip (_i2c s) address) s.

Definition writeRegister (address : register) (data : Z) : M unit :=
  modify (fun s =>
    set_i2c {| chip := chip (_i2c s); burst := burst (_i2c s);
               written := (address, data) :: written (_i2c s) |} s).

Definition read_ms : M Z := get _timer.

(** [cellVoltages[i]] as an rvalue and as the target of an assignment. *)
Definition cellVoltages_at (i : Z) : M Z :=
  fun s => match (if 0 <=? i then cellVoltages s !! Z.to_nat i else None) with
           | Some v => Ok v s
           | None => Stop (OutOfBounds i)
           end.

Definition cellVoltages_store (i : Z) (v : Z) : M unit :=
  fun s => if (0 <=? i) && (i <? Z.of_nat (length (cellVoltages s)))
           then Ok tt (set_cellVoltages (<[Z.to_nat i := v]> (cellVoltages s)) s)
           else Stop (OutOfBounds i).

(** Conversion of a [double] to an integer type. *)
Definition Qtrunc (q : Q) : Z :=
  if Qle_bool 0 q then Qfloor q else Qceiling q.

(** *** Construction *)

Inductive bqType : Set := bq76920 | bq76930 | bq76940.

Definition cells_of_type (type : bqType) : Z :=
  match type with
  | bq76920 => 5
  | bq76930 => 10
  | bq76940 => 15
  end.

(** Modelled from the spec: the declaration of [cellVoltages] is in
    [bq769x0.h]; the specification gives the store [numberOfCells - 1]
    entries. *)
Definition cellVoltages_declared (numberOfCells : Z) : nat :=
  Z.to_nat (numberOfCells - 1).

(** The loop "initialize variables" of the constructor. *)
Definition init_cellVoltages : M unit :=
  n <- get numberOfCells ;;
  for_ (Z.to_nat (n - 1)) 0 (fun i => cellVoltages_store i 0).

(** *** Measurement *)

Definition buf_at (buf : list Z) (k : nat) : Z := nth k buf 0.

(** One round of the cell loop of [updateVoltages]. *)
Definition updateVoltages_cell (i : Z) : M unit :=
  crc <- get crcEnabled ;;
  bus <- get _i2c ;;
  let buf := burst bus i in
  let adcVal :=
    if crc
    then Z.lor (Z.shiftl (Z.land (buf_at buf 0) 0x3F) 8) (buf_at buf 2)
    else Z.lor (Z.shiftl (Z.land (buf_at buf 0) 0x3F) 8) (buf_at buf 1) in
  gain <- get adcGain ;;
  offset <- get adcOffset ;;
  cellVoltages_store i (Z.quot (adcVal * gain) 1000 + offset) ;;
  vi <- cellVoltages_at i ;;
  idMax <- get idCellMaxVoltage ;;
  vmax <- cellVoltages_at idMax ;;
  when (vmax <? vi) (modify (set_idCellMaxVoltage i)) ;;
  vi <- cellVoltages_at i ;;
  idMin <- get idCellMinVoltage ;;
  vmin <- cellVoltages_at idMin ;;
  when ((vi <? vmin) && (500 <? vi)) (modify (set_idCellMinVoltage i)).

Definition updateVoltages : M unit :=
  hi <- readRegister BAT_HI_BYTE ;;
  lo <- readRegister BAT_LO_BYTE ;;
  let adcVal := Z.lor (Z.shiftl hi 8) lo in
  gain <- get adcGain ;;
  offset <- get adcOffset ;;
  modify (set_batVoltage
            (Qtrunc (4 * inject_Z gain * inject_Z adcVal / 1000
                     + inject_Z (4 * offset))%Q)) ;;
  modify (set_idCellMaxVoltage 0) ;;
  modify (set_idCellMinVoltage 0) ;;
  n <- get numberOfCells ;;
  for_ (Z.to_nat n) 0 updateVoltages_cell.

(** The [(int16_t)] cast applied to the raw coulomb-counter reading. *)
Definition int16 (x : Z) : Z :=
  let u := x mod 2 ^ 16 in if u <? 2 ^ 15 then u else u - 2 ^ 16.

Definition updateCurrent : M unit :=
  sys_stat <- readRegister SYS_STAT ;;
  when (Z.testbit sys_stat 7) (
    hi <- readRegister CC_HI_BYTE ;;
    lo <- readRegister CC_LO_BYTE ;;
    let adcVal := Z.lor (Z.shiftl hi 8) lo in
    shunt <- get shuntResistorValue_mOhm ;;
    modify (set_batCurrent
              (Qtrunc (inject_Z (int16 adcVal) * (844 # 100) / inject_Z shunt)%Q)) ;;
    cur <- get batCurrent ;;
    cc <- get coulombCounter ;;
    modify (set_coulombCounter (cc + Z.quot cur 4)) ;;
    cur <- get batCurrent ;;
    when ((-10 <? cur) && (cur <? 10)) (modify (set_batCurrent 0)) ;;
    cur <- get batCurrent ;;
    threshold <- get idleCurrentThreshold ;;
    now <- read_ms ;;
    when (threshold <? Z.abs cur) (modify (set_idleTimestamp now)) ;;
    when (Z.land sys_stat 0x3F =? 0) (modify (set_alertInterruptFlag false)) ;;
    writeRegister SYS_STAT 0x80).

(** *** Fault handling *)

(** The alert interrupt handler. *)
Definition setAlertInterruptFlag : M unit :=
  now <- read_ms ;;
  modify (set_interruptTimestamp now) ;;
  modify (set_alertInterruptFlag true).

(** [if (sys_stat.regByte & mask) { if (secSinceErrorCounter % period == 0)
    writeRegister(SYS_STAT, mask); }] *)
Definition clear_periodically (sys_stat mask period : Z) : M unit :=
  when (negb (Z.land sys_stat mask =? 0)) (
    counter <- get secSinceErrorCounter ;;
    when (counter mod period =? 0) (writeRegister SYS_STAT mask)).

Definition checkStatus : M Z :=
  flag <- get alertInterruptFlag ;;
  status <- get errorStatus ;;
  if negb flag && (status =? 0) then ret 0
  else
    sys_stat <- readRegister SYS_STAT ;;
    when (Z.testbit sys_stat 7) updateCurrent ;;
    (if negb (Z.land sys_stat 0x3F =? 0) then
       flag <- get alertInterruptFlag ;;
       when flag (modify (set_secSinceErrorCounter 0)) ;;
       modify (set_errorStatus sys_stat) ;;
       now <- read_ms ;;
       stamp <- get interruptTimestamp ;;
       let secSinceInterrupt := uint32 (now - stamp) / 1000 in
       counter <- get secSinceErrorCounter ;;
       when (2 <? Z.abs (to_long (secSinceInterrupt - counter)))
            (modify (set_secSinceErrorCounter secSinceInterrupt)) ;;
       counter <- get secSinceErrorCounter ;;
       when (counter <=? secSinceInterrupt) (
         clear_periodically sys_stat 0x20 3 ;;
         clear_periodically sys_stat 0x10 10 ;;
         when (negb (Z.land sys_stat 0x08 =? 0)) (
           updateVoltages ;;
           idMin <- get idCellMinVoltage ;;
           vmin <- cellVoltages_at idMin ;;
           limit <- get minCellVoltage ;;
           when (limit <? vmin) (writeRegister SYS_STAT 0x08)) ;;
         when (negb (Z.land sys_stat 0x04 =? 0)) (
           updateVoltages ;;
           idMax <- get idCellMaxVoltage ;;
           vmax <- cellVoltages_at idMax ;;
           limit <- get maxCellVoltage ;;
           when (vmax <? limit) (writeRegister SYS_STAT 0x04)) ;;
         clear_periodically sys_stat 0x02 60 ;;
         clear_periodically sys_stat 0x01 60 ;;
         counter <- get secSinceErrorCounter ;;
         modify (set_secSinceErrorCounter (uint32 (counter + 1))))
     else
       modify (set_errorStatus 0)) ;;
    get errorStatus.

(** *** Balancing *)

(** One round of the inner loop of [updateBalancingSwitches]: cell [i] of
    [section], with the local [balancingFlags] as the carried value. *)
Definition balancing_cell (section : Z) (i : Z) (balancingFlags : Z) : M Z :=
  v <- cellVoltages_at (section * 5 + i) ;;
  idMin <- get idCellMinVoltage ;;
  vmin <- cellVoltages_at idMin ;;
  difference <- get balancingMaxVoltageDifference_mV ;;
  if difference <? v - vmin then
    let balancingFlagsTarget := Z.lor balancingFlags (Z.shiftl 1 i) in
    let adjacentCellCollision :=
      negb (Z.land (Z.shiftl balancingFlagsTarget 1) balancingFlags =? 0)
      || negb (Z.land (Z.shiftl balancingFlags 1) balancingFlagsTarget =? 0) in
    if negb adjacentCellCollision
    then ret balancingFlagsTarget
    else ret balancingFlags
  else ret balancingFlags.

Definition balancing_section (section : Z) : M unit :=
  balancingFlags <- for_acc 5 0 (balancing_cell section) 0 ;;
  status <- get balancingStatus ;;
  modify (set_balancingStatus (Z.lor status (Z.shiftl balancingFlags section))) ;;
  writeRegister (CELLBAL1_plus section) balancingFlags.

(** The condition "balancing allowed", evaluated left to right and cut
    short at the first operand that fails. *)
Definition balancing_allowed (idleSeconds : Z) : M bool :=
  status <- checkStatus ;;
  if negb (status =? 0) then ret false else
  minIdle <- get balancingMinIdleTime_s ;;
  if negb (minIdle <=? idleSeconds) then ret false else
  idMax <- get idCellMaxVoltage ;;
  vmax <- cellVoltages_at idMax ;;
  minVoltage <- get balancingMinCellVoltage_mV ;;
  if negb (minVoltage <? vmax) then ret false else
  vmax <- cellVoltages_at idMax ;;
  idMin <- get idCellMinVoltage ;;
  vmin <- cellVoltages_at idMin ;;
  difference <- get balancingMaxVoltageDifference_mV ;;
  ret (difference <? vmax - vmin).

Definition updateBalancingSwitches : M unit :=
  now <- read_ms ;;
  stamp <- get idleTimestamp ;;
  let idleSeconds := Z.quot (now - stamp) 1000 in
  n <- get numberOfCells ;;
  let numberOfSections := Z.quot n 5 in
  idleSeconds <-
    (if idleSeconds <? 0
     then modify (set_idleTimestamp 0) ;; now <- read_ms ;; ret (Z.quot now 1000)
     else ret idleSeconds) ;;
  allowed <- balancing_allowed idleSeconds ;;
  if allowed then
    modify (set_balancingStatus 0) ;;
    for_ (Z.to_nat numberOfSections) 0 balancing_section
  else
    status <- get balancingStatus ;;
    when (0 <? status) (
      for_ (Z.to_nat numberOfSections) 0
           (fun section => writeRegister (CELLBAL1_plus section) 0x0) ;;
      modify (set_balancingStatus 0)).

(** *** State of charge *)

Definition setBatteryCapacity (capacity_mAh : Z) : M unit :=
  capacity_mAs <- long_mul capacity_mAh 3600 ;;
  modify (set_nominalCapacity capacity_mAs).

Definition getSOC : M Q :=
  cc <- get coulombCounter ;;
  nominal <- get nominalCapacity ;;
  ret (inject_Z cc / inject_Z nominal * 100)%Q.

Definition getMaxCellVoltage : M Z :=
  idMax <- get idCellMaxVoltage ;;
  cellVoltages_at idMax.

(** [NUM_OCV_POINTS] is the number of entries of the table [setOCV] was
    given; [OCV_at i] is [OCV[i]] for an index inside the table. *)
Definition NUM_OCV_POINTS (s : bq769x0) : Z := Z.of_nat (length (OCV s)).
Definition OCV_at (s : bq769x0) (i : Z) : Z := nth (Z.to_nat i) (OCV s) 0.

(** The value assigned to [coulombCounter] by the interpolation between
    [OCV[i]] and [OCV[i-1]]. *)
Definition interpolate (s : bq769x0) (i voltage : Z) : Q :=
  (inject_Z (nominalCapacity s) / (inject_Z (NUM_OCV_POINTS s) - 1)
   * (inject_Z (NUM_OCV_POINTS s) - 1 - inject_Z i
      + (inject_Z voltage - inject_Z (OCV_at s i))
        / inject_Z (OCV_at s (i - 1) - OCV_at s i)))%Q.

(** The scan over the OCV table in [resetSOC], from index [i], with at most
    [rounds] rounds to go; a hit ends the method. *)
Fixpoint resetSOC_scan (rounds : nat) (i : Z) (voltage : Z) : M unit :=
  match rounds with
  | O => ret tt
  | S rounds' =>
      ocv <- get (fun s => OCV_at s i) ;;
      if ocv <=? voltage then
        if i =? 0
        then nominal <- get nominalCapacity ;;
             modify (set_coulombCounter nominal)
        else cc <- get (fun s => Qtrunc (interpolate s i voltage)) ;;
             modify (set_coulombCounter cc)
      else resetSOC_scan rounds' (i + 1) voltage
  end.

Definition resetSOC (percent : Z) : M unit :=
  if (percent <=? 100) && (0 <=? percent) then
    nominal <- get nominalCapacity ;;
    product <- long_mul nominal percent ;;
    modify (set_coulombCounter (Qtrunc (inject_Z product / 100)%Q))
  else
    voltage <- getMaxCellVoltage ;;
    modify (set_coulombCounter 0) ;;
    n <- get NUM_OCV_POINTS ;;
    resetSOC_scan (Z.to_nat n) 0 voltage.

(** *** Temperature *)

Definition temperatures_at (i : Z) : M Z :=
  fun s => match (if 0 <=? i then temperatures s !! Z.to_nat i else None) with
           | Some v => Ok v s
           | None => Stop (OutOfBounds i)
           end.

Definition getTemperatureDegC (channel : Z) : M Q :=
  if (1 <=? channel) && (channel <=? 3) then
    t <- temperatures_at (channel - 1) ;;
    ret (inject_Z t / 10)%Q
  else
    ret (- (27315 # 100))%Q.

Definition getTemperatureDegF (channel : Z) : M Q :=
  degC <- getTemperatureDegC channel ;;
  ret (degC * (18 # 10) + 32)%Q.

(** ** Threshold configurator

    The setters of this part compute bit-field values and the achieved
    threshold; they are given here as functions of their arguments and of
    the fields they read.  The register traffic and the copy of the limit
    kept in [minCellVoltage] or [maxCellVoltage] are left out, and a
    bit-field is taken to hold every code of its table.  [None] stands for
    undefined behaviour (a read past a table, an overflowing product, a
    division by zero). *)

(** A lookup table of [registers.h]: its entries and the size in bytes of
    one entry, so that [sizeof] is what the C operator yields. *)
Record table : Type := {
  entries : list Z;
  entry_bytes : Z
}.

Definition sizeof (t : table) : Z := entry_bytes t * Z.of_nat (length (entries t)).

Definition table_at (t : table) (i : Z) : option Z :=
  if 0 <=? i then entries t !! Z.to_nat i else None.

Definition checked (x : Z) : option Z := if in_long x then Some x else None.

(** [for (int i = ...; i > 0; i--) { if (hit(i)) { field = i; break; } }]
    after [field = 0], with [rounds] rounds to go. *)
Fixpoint scan_down (rounds : nat) (i : Z) (hit : Z -> option bool) : option Z :=
  match rounds with
  | O => Some 0
  | S rounds' =>
      match hit i with
      | None => None
      | Some true => Some i
      | Some false => scan_down rounds' (i - 1) hit
      end
  end.

(** The loop over a delay table: [if (delay >= setting[i])]. *)
Definition select_delay (setting : table) (delay : Z) : option Z :=
  scan_down (Z.to_nat (sizeof setting - 1)) (sizeof setting - 1)
    (fun i => entry ← table_at setting i; Some (entry <=? delay)).

(** The loop over a current-threshold table:
    [if (current_mA * shuntResistorValue_mOhm / 1000 >= setting[i])]. *)
Definition select_threshold (setting : table) (current_mA shunt : Z) : option Z :=
  scan_down (Z.to_nat (sizeof setting - 1)) (sizeof setting - 1)
    (fun i => product ← checked (current_mA * shunt);
              entry ← table_at setting i;
              Some (entry <=? Z.quot product 1000)).

(** The value returned by the two current setters. *)
Definition achieved_current (setting : table) (code shunt : Z) : option Z :=
  entry ← table_at setting code;
  product ← checked (entry * 1000);
  if shunt =? 0 then None else Some (Z.quot product shunt).

(** What a setter leaves behind: the threshold and delay codes it puts into
    the protection register, and its return value. *)
Record setting : Type := {
  THRESH : Z;
  DELAY : Z;
  returned : Z
}.

Section Configurator.

(** The tables of [registers.h]. *)
Variables SCD_threshold_setting SCD_delay_setting : table.
Variables OCD_threshold_setting OCD_delay_setting : table.
Variables UV_delay_setting OV_delay_setting : table.

Definition setShortCircuitProtection (shuntResistorValue_mOhm : Z)
    (current_mA delay_us : Z) : option setting :=
  SCD_THRESH ← select_threshold SCD_threshold_setting current_mA
                 shuntResistorValue_mOhm;
  SCD_DELAY ← select_delay SCD_delay_setting delay_us;
  result ← achieved_current SCD_threshold_setting SCD_THRESH
             shuntResistorValue_mOhm;
  Some {| THRESH := SCD_THRESH; DELAY := SCD_DELAY; returned := result |}.

Definition setOvercurrentDischargeProtection (shuntResistorValue_mOhm : Z)
    (current_mA delay_ms : Z) : option setting :=
  OCD_THRESH ← select_threshold OCD_threshold_setting current_mA
                 shuntResistorValue_mOhm;
  OCD_DELAY ← select_delay OCD_delay_setting delay_ms;
  result ← achieved_current OCD_threshold_setting OCD_THRESH
             shuntResistorValue_mOhm;
  Some {| THRESH := OCD_THRESH; DELAY := OCD_DELAY; returned := result |}.

(** [((((long)voltage_mV - adcOffset) * 1000 / adcGain) >> 4) & 0x00FF] *)
Definition trip_code (adcGain adcOffset voltage_mV : Z) : option Z :=
  product ← checked ((voltage_mV - adcOffset) * 1000);
  if adcGain =? 0 then None
  else Some (Z.land (Z.shiftr (Z.quot product adcGain) 4) 0x00FF).

(** [((long)1 << bit | trip << 4) * adcGain / 1000 + adcOffset] *)
Definition trip_voltage (adcGain adcOffset bit trip : Z) : option Z :=
  product ← checked (Z.lor (Z.shiftl 1 bit) (Z.shiftl trip 4) * adcGain);
  Some (Z.quot product 1000 + adcOffset).

Definition setCellUndervoltageProtection (adcGain adcOffset : Z)
    (voltage_mV delay_s : Z) : option setting :=
  uv_trip ← trip_code adcGain adcOffset voltage_mV;
  let uv_trip := uv_trip + 1 in
  UV_DELAY ← select_delay UV_delay_setting delay_s;
  result ← trip_voltage adcGain adcOffset 12 uv_trip;
  Some {| THRESH := uv_trip; DELAY := UV_DELAY; returned := result |}.

Definition setCellOvervoltageProtection (adcGain adcOffset : Z)
    (voltage_mV delay_s : Z) : option setting :=
  ov_trip ← trip_code adcGain adcOffset voltage_mV;
  OV_DELAY ← select_delay OV_delay_setting delay_s;
  result ← trip_voltage adcGain adcOffset 13 ov_trip;
  Some {| THRESH := ov_trip; DELAY := OV_DELAY; returned := result |}.

End Configurator.

(** ** Further methods

    The rest of the class: construction, the remaining setters and
    getters, the switches of the charge and discharge FETs, and the debug
    helper.  [updateTemperatures] (the Beta equation takes a logarithm in
    floating point), [update], which calls it, and [boot] (pin timing)
    have no counterpart here; neither have the setters that are one plain
    assignment ([setShuntResistorValue], [setThermistorBetaValue],
    [setOCV], [enableAutoBalancing]) and [setOvercurrentChargeProtection],
    which returns 0 and does nothing else. *)

(** Assignment to the fields that only these methods write. *)

Definition set_crcEnabled (v : bool) (s : bq769x0) : bq769x0 :=
  {| _i2c := _i2c s; _timer := _timer s; crcEnabled := v;
     numberOfCells := numberOfCells s; adcGain := adcGain s;
     adcOffset := adcOffset s;
     shuntResistorValue_mOhm := shuntResistorValue_mOhm s;
     idleCurrentThreshold := idleCurrentThreshold s;
     cellVoltages := cellVoltages s; idCellMaxVoltage := idCellMaxVoltage s;
     idCellMinVoltage := idCellMinVoltage s; batVoltage := batVoltage s;
     batCurrent := batCurrent s; temperatures := temperatures s;
     nominalCapacity := nominalCapacity s;
     coulombCounter := coulombCounter s; OCV := OCV s;
     minCellVoltage := minCellVoltage s; maxCellVoltage := maxCellVoltage s;
     alertInterruptFlag := alertInterruptFlag s;
     errorStatus := errorStatus s;
     secSinceErrorCounter := secSinceErrorCounter s;
     interruptTimestamp := interruptTimestamp s;
     balancingStatus := balancingStatus s;
     balancingMinIdleTime_s := balancingMinIdleTime_s s;
     balancingMinCellVoltage_mV := balancingMinCellVoltage_mV s;
     balancingMaxVoltageDifference_mV := balancingMaxVoltageDifference_mV s;
     idleTimestamp := idleTimestamp s |}.

Definition set_numberOfCells (v : Z) (s : bq769x0) : bq769x0 :=
  {| _i2c := _i2c s; _timer := _timer s; crcEnabled := crcEnabled s;
     numberOfCells := v; adcGain := adcGain s; adcOffset := adcOffset s;
     shuntResistorValue_mOhm := shuntResistorValue_mOhm s;
     idleCurrentThreshold := idleCurrentThreshold s;
     cellVoltages := cellVoltages s; idCellMaxVoltage := idCellMaxVoltage s;
     idCellMinVoltage := idCellMinVoltage s; batVoltage := batVoltage s;
     batCurrent := batCurrent s; temperatures := temperatures s;
     nominalCapacity := nominalCapacity s;
     coulombCounter := coulombCounter s; OCV := OCV s;
     minCellVoltage := minCellVoltage s; maxCellVoltage := maxCellVoltage s;
     alertInterruptFlag := alertInterruptFlag s;
     errorStatus := errorStatus s;
     secSinceErrorCounter := secSinceErrorCounter s;
     interruptTimestamp := interruptTimestamp s;
     balancingStatus := balancingStatus s;
     balancingMinIdleTime_s := balancingMinIdleTime_s s;
     balancingMinCellVoltage_mV := balancingMinCellVoltage_mV s;
     balancingMaxVoltageDifference_mV := balancingMaxVoltageDifference_mV s;
     idleTimestamp := idleTimestamp s |}.

Definition set_adcGain (v : Z) (s : bq769x0) : bq769x0 :=
  {| _i2c := _i2c s; _timer := _timer s; crcEnabled := crcEnabled s;
     numberOfCells := numberOfCells s; adcGain := v;
     adcOffset := adcOffset s;
     shuntResistorValue_mOhm := shuntResistorValue_mOhm s;
     idleCurrentThreshold := idleCurrentThreshold s;
     cellVoltages := cellVoltages s; idCellMaxVoltage := idCellMaxVoltage s;
     idCellMinVoltage := idCellMinVoltage s; batVoltage := batVoltage s;
     batCurrent := batCurrent s; temperatures := temperatures s;
     nominalCapacity := nominalCapacity s;
     coulombCounter := coulombCounter s; OCV := OCV s;
     minCellVoltage := minCellVoltage s; maxCellVoltage := maxCellVoltage s;
     alertInterruptFlag := alertInterruptFlag s;
     errorStatus := errorStatus s;
     secSinceErrorCounter := secSinceErrorCounter s;
     interruptTimestamp := interruptTimestamp s;
     balancingStatus := balancingStatus s;
     balancingMinIdleTime_s := balancingMinIdleTime_s s;
     balancingMinCellVoltage_mV := balancingMinCellVoltage_mV s;
     balancingMaxVoltageDifference_mV := balancingMaxVoltageDifference_mV s;
     idleTimestamp := idleTimestamp s |}.

Definition set_adcOffset (v : Z) (s : bq769x0) : bq769x0 :=
  {| _i2c := _i2c s; _timer := _timer s; crcEnabled := crcEnabled s;
     numberOfCells := numberOfCells s; adcGain := adcGain s; adcOffset := v;
     shuntResistorValue_mOhm := shuntResistorValue_mOhm s;
     idleCurrentThreshold := idleCurrentThreshold s;
     cellVoltages := cellVoltages s; idCellMaxVoltage := idCellMaxVoltage s;
     idCellMinVoltage := idCellMinVoltage s; batVoltage := batVoltage s;
     batCurrent := batCurrent s; temperatures := temperatures s;
     nominalCapacity := nominalCapacity s;
     coulombCounter := coulombCounter s; OCV := OCV s;
     minCellVoltage := minCellVoltage s; maxCellVoltage := maxCellVoltage s;
     alertInterruptFlag := alertInterruptFlag s;
     errorStatus := errorStatus s;
     secSinceErrorCounter := secSinceErrorCounter s;
     interruptTimestamp := interruptTimestamp s;
     balancingStatus := balancingStatus s;
     balancingMinIdleTime_s := balancingMinIdleTime_s s;
     balancingMinCellVoltage_mV := balancingMinCellVoltage_mV s;
     balancingMaxVoltageDifference_mV := balancingMaxVoltageDifference_mV s;
     idleTimestamp := idleTimestamp s |}.

Definition set_idleCurrentThreshold (v : Z) (s : bq769x0) : bq769x0 :=
  {| _i2c := _i2c s; _timer := _timer s; crcEnabled := crcEnabled s;
     numberOfCells := numberOfCells s; adcGain := adcGain s;
     adcOffset := adcOffset s;
     shuntResistorValue_mOhm := shuntResistorValue_mOhm s;
     idleCurrentThreshold := v; cellVoltages := cellVoltages s;
     idCellMaxVoltage := idCellMaxVoltage s;
     idCellMinVoltage := idCellMinVoltage s; batVoltage := batVoltage s;
     batCurrent := batCurrent s; temperatures := temperatures s;
     nominalCapacity := nominalCapacity s;
     coulombCounter := coulombCounter s; OCV := OCV s;
     minCellVoltage := minCellVoltage s; maxCellVoltage := maxCellVoltage s;
     alertInterruptFlag := alertInterruptFlag s;
     errorStatus := errorStatus s;
     secSinceErrorCounter := secSinceErrorCounter s;
     interruptTimestamp := interruptTimestamp s;
     balancingStatus := balancingStatus s;
     balancingMinIdleTime_s := balancingMinIdleTime_s s;
     balancingMinCellVoltage_mV := balancingMinCellVoltage_mV s;
     balancingMaxVoltageDifference_mV := balancingMaxVoltageDifference_mV s;
     idleTimestamp := idleTimestamp s |}.

Definition set_balancingMinIdleTime_s (v : Z) (s : bq769x0) : bq769x0 :=
  {| _i2c := _i2c s; _timer := _timer s; crcEnabled := crcEnabled s;
     numberOfCells := numberOfCells s; adcGain := adcGain s;
     adcOffset := adcOffset s;
     shuntResistorValue_mOhm := shuntResistorValue_mOhm s;
     idleCurrentThreshold := idleCurrentThreshold s;
     cellVoltages := cellVoltages s; idCellMaxVoltage := idCellMaxVoltage s;
     idCellMinVoltage := idCellMinVoltage s; batVoltage := batVoltage s;
     batCurrent := batCurrent s; temperatures := temperatures s;
     nominalCapacity := nominalCapacity s;
     coulombCounter := coulombCounter s; OCV := OCV s;
     minCellVoltage := minCellVoltage s; maxCellVoltage := maxCellVoltage s;
     alertInterruptFlag := alertInterruptFlag s;
     errorStatus := errorStatus s;
     secSinceErrorCounter := secSinceErrorCounter s;
     interruptTimestamp := interruptTimestamp s;
     balancingStatus := balancingStatus s; balancingMinIdleTime_s := v;
     balancingMinCellVoltage_mV := balancingMinCellVoltage_mV s;
     balancingMaxVoltageDifference_mV := balancingMaxVoltageDifference_mV s;
     idleTimestamp := idleTimestamp s |}.

Definition set_balancingMinCellVoltage_mV (v : Z) (s : bq769x0) : bq769x0 :=
  {| _i2c := _i2c s; _timer := _timer s; crcEnabled := crcEnabled s;
     numberOfCells := numberOfCells s; adcGain := adcGain s;
     adcOffset := adcOffset s;
     shuntResistorValue_mOhm := shuntResistorValue_mOhm s;
     idleCurrentThreshold := idleCurrentThreshold s;
     cellVoltages := cellVoltages s; idCellMaxVoltage := idCellMaxVoltage s;
     idCellMinVoltage := idCellMinVoltage s; batVoltage := batVoltage s;
     batCurrent := batCurrent s; temperatures := temperatures s;
     nominalCapacity := nominalCapacity s;
     coulombCounter := coulombCounter s; OCV := OCV s;
     minCellVoltage := minCellVoltage s; maxCellVoltage := maxCellVoltage s;
     alertInterruptFlag := alertInterruptFlag s;
     errorStatus := errorStatus s;
     secSinceErrorCounter := secSinceErrorCounter s;
     interruptTimestamp := interruptTimestamp s;
     balancingStatus := balancingStatus s;
     balancingMinIdleTime_s := balancingMinIdleTime_s s;
     balancingMinCellVoltage_mV := v;
     balancingMaxVoltageDifference_mV := balancingMaxVoltageDifference_mV s;
     idleTimestamp := idleTimestamp s |}.

Definition set_balancingMaxVoltageDifference_mV (v : Z) (s : bq769x0) : bq769x0 :=
  {| _i2c := _i2c s; _timer := _timer s; crcEnabled := crcEnabled s;
     numberOfCells := numberOfCells s; adcGain := adcGain s;
     adcOffset := adcOffset s;
     shuntResistorValue_mOhm := shuntResistorValue_mOhm s;
     idleCurrentThreshold := idleCurrentThreshold s;
     cellVoltages := cellVoltages s; idCellMaxVoltage := idCellMaxVoltage s;
     idCellMinVoltage := idCellMinVoltage s; batVoltage := batVoltage s;
     batCurrent := batCurrent s; temperatures := temperatures s;
     nominalCapacity := nominalCapacity s;
     coulombCounter := coulombCounter s; OCV := OCV s;
     minCellVoltage := minCellVoltage s; maxCellVoltage := maxCellVoltage s;
     alertInterruptFlag := alertInterruptFlag s;
     errorStatus := errorStatus s;
     secSinceErrorCounter := secSinceErrorCounter s;
     interruptTimestamp := interruptTimestamp s;
     balancingStatus := balancingStatus s;
     balancingMinIdleTime_s := balancingMinIdleTime_s s;
     balancingMinCellVoltage_mV := balancingMinCellVoltage_mV s;
     balancingMaxVoltageDifference_mV := v;
     idleTimestamp := idleTimestamp s |}.

(** *** Balancing and idle thresholds *)

(** [idleTime_min * 60] is a product of [int]s. *)
Definition setBalancingThresholds
    (idleTime_min absVoltage_mV voltageDifference_mV : Z) : M unit :=
  idleTime_s <- long_mul idleTime_min 60 ;;
  modify (set_balancingMinIdleTime_s idleTime_s) ;;
  modify (set_balancingMinCellVoltage_mV absVoltage_mV) ;;
  modify (set_balancingMaxVoltageDifference_mV voltageDifference_mV).

Definition setIdleCurrentThreshold (current_mA : Z) : M unit :=
  modify (set_idleCurrentThreshold current_mA).

Definition getBalancingStatus : M Z := get balancingStatus.

(** *** Readings *)

Definition getBatteryCurrent : M Z := get batCurrent.

Definition getBatteryVoltage : M Z := get batVoltage.

Definition getMinCellVoltage : M Z :=
  idMin <- get idCellMinVoltage ;;
  cellVoltages_at idMin.

(** Cells are numbered from 1. *)
Definition getCellVoltage (idCell : Z) : M Z :=
  cellVoltages_at (idCell - 1).

(** *** Debug output *)

(** The loop of [byte2char], [for (z = 128; z > 0; z >>= 1)]: each round
    appends one character to the buffer [b]. *)
Fixpoint byte2char_loop (rounds : nat) (z x : Z) (b : list ascii) : list ascii :=
  match rounds with
  | O => b
  | S rounds' =>
      if 0 <? z
      then byte2char_loop rounds' (Z.shiftr z 1) x
             (b ++ [if Z.land x z =? z then "1"%char else "0"%char])
      else b
  end.

(** Nine rounds are one more than the loop takes. *)
Definition byte2char (x : Z) : list ascii := byte2char_loop 9 128 x [].

(** ** The device with its control registers

    The constructor, [shutdown], [setTemperatureLimits] and the two methods
    that switch the FETs use registers and fields the record [bq769x0]
    above does not carry.  A [board] puts them beside it: the data byte the
    chip answers when a control register is read, the writes to the control
    registers so far (latest first), and the four temperature limits. *)

Inductive control_register : Set :=
| CC_CFG
| SYS_CTRL1
| SYS_CTRL2
| ADCOFFSET
| ADCGAIN1
| ADCGAIN2.

Record board : Type := {
  bms : bq769x0;
  control : control_register -> Z;
  control_written : list (control_register * Z);
  minCellTempDischarge : Z;
  maxCellTempDischarge : Z;
  minCellTempCharge : Z;
  maxCellTempCharge : Z
}.

Definition set_bms (v : bq769x0) (b : board) : board :=
  {| bms := v; control := control b; control_written := control_written b;
     minCellTempDischarge := minCellTempDischarge b;
     maxCellTempDischarge := maxCellTempDischarge b;
     minCellTempCharge := minCellTempCharge b;
     maxCellTempCharge := maxCellTempCharge b |}.

Definition set_control_written (v : list (control_register * Z)) (b : board)
  : board :=
  {| bms := bms b; control := control b; control_written := v;
     minCellTempDischarge := minCellTempDischarge b;
     maxCellTempDischarge := maxCellTempDischarge b;
     minCellTempCharge := minCellTempCharge b;
     maxCellTempCharge := maxCellTempCharge b |}.

(** Methods on a [board], with the same two ways to end as in [M]. *)
Inductive outcome_on_board (A : Type) : Type :=
| Done (a : A) (b : board)
| Halt (f : fault).

Arguments Done {A} a b.
Arguments Halt {A} f.

Definition B (A : Type) : Type := board -> outcome_on_board A.

Definition ret_b {A : Type} (a : A) : B A := fun b => Done a b.

Definition bind_b {A C : Type} (m : B A) (k : A -> B C) : B C :=
  fun b => match m b with
           | Done a b' => k a b'
           | Halt f => Halt f
           end.

Notation "x <~ m ;~ k" := (bind_b m (fun x => k))
  (at level 100, m at next level, right associativity).
Notation "m ;~ k" := (bind_b m (fun _ => k))
  (at level 100, right associativity).

(** A method of the device object, run on the board. *)
Definition on_bms {A : Type} (m : M A) : B A :=
  fun b => match m (bms b) with
           | Ok a s => Done a (set_bms s b)
           | Stop f => Halt f
           end.

Definition get_b {A : Type} (field : board -> A) : B A :=
  fun b => Done (field b) b.

Definition read_control (address : control_register) : B Z :=
  get_b (fun b => control b address).

Definition write_control (address : control_register) (data : Z) : B unit :=
  fun b => Done tt (set_control_written ((address, data) :: control_written b) b).

(** *** Construction *)

(** [adcGain = 365 + (((ADCGAIN1 & 0b00001100) << 1) | ((ADCGAIN2 & 0b11100000) >> 5))] *)
Definition gain_of (ADCGAIN1_byte ADCGAIN2_byte : Z) : Z :=
  365 + Z.lor (Z.shiftl (Z.land ADCGAIN1_byte 0x0C) 1)
              (Z.shiftr (Z.land ADCGAIN2_byte 0xE0) 5).

(** The constructor, from the object as allocated: fields it does not
    assign keep what they held.  Its assignments to [I2CAddress], [type],
    [autoBalancingEnabled] and [thermistorBetaValue], which are no fields
    of the model, and the start of the timer are left out. *)
Definition construct (type : bqType) (crc : bool) : B unit :=
  on_bms (modify (set_crcEnabled crc)) ;~
  on_bms (modify (set_balancingMinIdleTime_s 1800)) ;~
  on_bms (modify (set_idleCurrentThreshold 30)) ;~
  on_bms (modify (set_numberOfCells (cells_of_type type))) ;~
  on_bms init_cellVoltages ;~
  write_control CC_CFG 0x19 ;~
  answer <~ read_control CC_CFG ;~
  if answer =? 0x19 then
    write_control SYS_CTRL1 0x18 ;~
    write_control SYS_CTRL2 0x40 ;~
    offset <~ read_control ADCOFFSET ;~
    on_bms (modify (set_adcOffset offset)) ;~
    gain1 <~ read_control ADCGAIN1 ;~
    gain2 <~ read_control ADCGAIN2 ;~
    on_bms (modify (set_adcGain (gain_of gain1 gain2)))
  else ret_b tt.

(** *** Ship mode and FET switches *)

Definition shutdown : B unit :=
  write_control SYS_CTRL1 0x0 ;~
  write_control SYS_CTRL1 0x1 ;~
  write_control SYS_CTRL1 0x2.

(** Each limit is a product of [int]s. *)
Definition setTemperatureLimits
    (minDischarge_degC maxDischarge_degC minCharge_degC maxCharge_degC : Z)
  : B unit :=
  minDischarge <~ on_bms (long_mul minDischarge_degC 10) ;~
  maxDischarge <~ on_bms (long_mul maxDischarge_degC 10) ;~
  minCharge <~ on_bms (long_mul minCharge_degC 10) ;~
  maxCharge <~ on_bms (long_mul maxCharge_degC 10) ;~
  fun b => Done tt
    {| bms := bms b; control := control b;
       control_written := control_written b;
       minCellTempDischarge := minDischarge;
       maxCellTempDischarge := maxDischarge;
       minCellTempCharge := minCharge;
       maxCellTempCharge := maxCharge |}.

(** The condition of [enableCharging], evaluated left to right and cut
    short at the first operand that fails. *)
Definition charging_allowed : B bool :=
  status <~ on_bms checkStatus ;~
  if negb (status =? 0) then ret_b false else
  idMax <~ on_bms (get idCellMaxVoltage) ;~
  vmax <~ on_bms (cellVoltages_at idMax) ;~
  limit <~ on_bms (get maxCellVoltage) ;~
  if negb (vmax <? limit) then ret_b false else
  t <~ on_bms (temperatures_at 0) ;~
  maxTemp <~ get_b maxCellTempCharge ;~
  if negb (t <? maxTemp) then ret_b false else
  t <~ on_bms (temperatures_at 0) ;~
  minTemp <~ get_b minCellTempCharge ;~
  ret_b (minTemp <? t).

Definition enableCharging : B bool :=
  allowed <~ charging_allowed ;~
  if allowed then
    sys_ctrl2 <~ read_control SYS_CTRL2 ;~
    write_control SYS_CTRL2 (Z.lor sys_ctrl2 0x01) ;~
    ret_b true
  else ret_b false.

(** The condition of [enableDischarging]. *)
Definition discharging_allowed : B bool :=
  status <~ on_bms checkStatus ;~
  if negb (status =? 0) then ret_b false else
  idMin <~ on_bms (get idCellMinVoltage) ;~
  vmin <~ on_bms (cellVoltages_at idMin) ;~
  limit <~ on_bms (get minCellVoltage) ;~
  if negb (limit <? vmin) then ret_b false else
  t <~ on_bms (temperatures_at 0) ;~
  maxTemp <~ get_b maxCellTempDischarge ;~
  if negb (t <? maxTemp) then ret_b false else
  t <~ on_bms (temperatures_at 0) ;~
  minTemp <~ get_b minCellTempDischarge ;~
  ret_b (minTemp <? t).

Definition enableDischarging : B bool :=
  allowed <~ discharging_allowed ;~
  if allowed then
    sys_ctrl2 <~ read_control SYS_CTRL2 ;~
    write_control SYS_CTRL2 (Z.lor sys_ctrl2 0x02) ;~
    ret_b true
  else ret_b false.

(** ** Scenarios and specification predicates *)

(** The bus address of the bq76920. *)
Definition bq76920_address : Z := 0x08.

(** The bytes [readRegister] has fed to [_crc8_ccitt_update] once it has
    taken the answers [rx]: the read address and the data byte of each. *)
Definition crc_input (I2CAddress : Z) (rx : list (Z * Z)) : list Z :=
  flat_map (fun buf => [Z.lor (Z.shiftl I2CAddress 1) 1; fst buf]) rx.

(** The millivolt reading [updateVoltages] stores for cell [i]: what the
    conversion makes of the [i]-th burst answer. *)
Definition cell_reading (s : bq769x0) (i : Z) : Z :=
  let buf := burst (_i2c s) i in
  let adcVal :=
    if crcEnabled s
    then Z.lor (Z.shiftl (Z.land (buf_at buf 0) 0x3F) 8) (buf_at buf 2)
    else Z.lor (Z.shiftl (Z.land (buf_at buf 0) 0x3F) 8) (buf_at buf 1) in
  Z.quot (adcVal * adcGain s) 1000 + adcOffset s.

(** The fields the cell loop of [updateVoltages] reads and does not write. *)
Definition same_inputs (s s' : bq769x0) : Prop :=
  _i2c s' = _i2c s /\ crcEnabled s' = crcEnabled s /\
  numberOfCells s' = numberOfCells s /\
  adcGain s' = adcGain s /\ adcOffset s' = adcOffset s.

(** [i] is a valid index of the cell-voltage store of [s]. *)
Definition in_store (s : bq769x0) (i : Z) : Prop :=
  0 <= i < Z.of_nat (length (cellVoltages s)).

(** A bus that answers cell [i] with the 14-bit reading [raw i] (high byte,
    low byte; with CRC bytes in between when [crc] is set), and every
    register read with [status]. *)
Definition test_bus (crc : bool) (status : Z) (raw : list Z) : I2C :=
  {| chip := fun _ => status;
     burst := fun i =>
       let r := nth (Z.to_nat i) raw 0 in
       if crc then [Z.shiftr r 8; 0; Z.land r 0xFF; 0]
       else [Z.shiftr r 8; Z.land r 0xFF];
     written := [] |}.

(** A bq76920 (five cells, gain 380 uV/LSB, offset 0) on [test_bus], with
    the cell-voltage store [store] and no fault recorded. *)
Definition test_device (status : Z) (raw store : list Z) : bq769x0 :=
  {| _i2c := test_bus false status raw; _timer := 0; crcEnabled := false;
     numberOfCells := cells_of_type bq76920;
     adcGain := 380; adcOffset := 0;
     shuntResistorValue_mOhm := 1; idleCurrentThreshold := 30;
     cellVoltages := store; idCellMaxVoltage := 0; idCellMinVoltage := 0;
     batVoltage := 0; batCurrent := 0; temperatures := [215; 0; 0];
     nominalCapacity := 0; coulombCounter := 0; OCV := [];
     minCellVoltage := 2800; maxCellVoltage := 4200;
     alertInterruptFlag := false; errorStatus := 0;
     secSinceErrorCounter := 0; interruptTimestamp := 0;
     balancingStatus := 0; balancingMinIdleTime_s := 1800;
     balancingMinCellVoltage_mV := 3300;
     balancingMaxVoltageDifference_mV := 20; idleTimestamp := 0 |}.

(** [k] is the first index below [n] at which [v] is largest. *)
Definition first_max (v : Z -> Z) (n k : Z) : Prop :=
  0 <= k < n /\
  (forall j, 0 <= j < n -> v j <= v k) /\
  (forall j, 0 <= j < k -> v j < v k).

(** [k] is the first index below [n] at which [v] is smallest among the
    values above [limit]. *)
Definition first_min_above (limit : Z) (v : Z -> Z) (n k : Z) : Prop :=
  0 <= k < n /\ limit < v k /\
  (forall j, 0 <= j < n -> limit < v j -> v k <= v j) /\
  (forall j, 0 <= j < k -> limit < v j -> v k < v j).

(** What the cell loop of [updateVoltages] has established after [i] rounds
    from a state with inputs [s0] and both indices at 0. *)
Definition cells_read (s0 : bq769x0) (i : Z) (s : bq769x0) : Prop :=
  same_inputs s0 s /\
  length (cellVoltages s) = length (cellVoltages s0) /\
  (forall j, 0 <= j < i ->
     cellVoltages s !! Z.to_nat j = Some (cell_reading s0 j)) /\
  (i = 0 /\ idCellMaxVoltage s = 0 /\ idCellMinVoltage s = 0 \/
   0 < i /\
   first_max (cell_reading s0) i (idCellMaxVoltage s) /\
   (500 < cell_reading s0 0 ->
    first_min_above 500 (cell_reading s0) i (idCellMinVoltage s)) /\
   (cell_reading s0 0 <= 500 -> idCellMinVoltage s = 0)).

(** Five readings with the first cell at 0 V: raw ADC values and the
    device that is about to read them. *)
Definition dead_first_cell : bq769x0 :=
  test_device 0 [0; 8208; 8191; 8208; 8448] [0; 0; 0; 0; 0].

(** A device at rest: no fault on the chip, none recorded. *)
Definition idle_device : bq769x0 := test_device 0 [] [0; 0; 0; 0; 0].

(** *** A polled fault

    The chip reports a short circuit in discharge and nothing else: every
    read of [SYS_STAT] yields 0x02, whatever is written to it. *)
Definition scd_chip : bq769x0 := test_device 0x02 [] [0; 0; 0; 0; 0].

(** The number of writes of [mask] to [SYS_STAT] so far. *)
Definition clear_attempts (mask : Z) (s : bq769x0) : Z :=
  Z.of_nat (length (List.filter (fun w => match w with
                                          | (SYS_STAT, data) => data =? mask
                                          | _ => false
                                          end)
                                (written (_i2c s)))).

(** One call of [checkStatus] with the clock at [t] ms; the result tells
    whether the call wrote [mask] to [SYS_STAT]. *)
Definition poll (mask : Z) (t : Z) : M bool :=
  modify (set_timer t) ;;
  before <- get (clear_attempts mask) ;;
  checkStatus ;;
  after <- get (clear_attempts mask) ;;
  ret (before <? after).

(** Calls of [checkStatus] at the given times; the result lists the times
    of the calls that wrote [mask] to [SYS_STAT]. *)
Fixpoint polls (mask : Z) (times : list Z) : M (list Z) :=
  match times with
  | [] => ret []
  | t :: times' =>
      wrote <- poll mask t ;;
      rest <- polls mask times' ;;
      ret (if wrote then t :: rest else rest)
  end.

(** The clock values of a run of [seconds] seconds polled every
    [period] ms. *)
Definition every (period seconds : Z) : list Z :=
  map (fun k => period * Z.of_nat k) (seq 0 (Z.to_nat (seconds * 1000 / period))).

(** The alert pin rises at time 0, then [checkStatus] is polled. *)
Definition alert_then_polls (mask : Z) (times : list Z) : M (list Z) :=
  modify (set_timer 0) ;;
  setAlertInterruptFlag ;;
  polls mask times.

Definition result {A : Type} (o : outcome A) : option A :=
  match o with
  | Ok a _ => Some a
  | Stop _ => None
  end.

(** *** Balancing *)

(** No two neighbouring bits of [flags] are set. *)
Definition no_adjacent (flags : Z) : Prop :=
  forall i, 0 <= i ->
    ~ (Z.testbit flags i = true /\ Z.testbit flags (i + 1) = true).

(** Cell [i] of [section] is more than the balancing difference above the
    lowest cell. *)
Definition cell_over (s : bq769x0) (section i : Z) : Prop :=
  exists v vmin,
    cellVoltages s !! Z.to_nat (section * 5 + i) = Some v /\
    cellVoltages s !! Z.to_nat (idCellMinVoltage s) = Some vmin /\
    balancingMaxVoltageDifference_mV s < v - vmin.

(** A flag set a section may be given: no neighbours, and every flagged
    cell is one of the five of the section and is over the difference. *)
Definition section_flags_ok (s : bq769x0) (section flags : Z) : Prop :=
  no_adjacent flags /\
  forall i, Z.testbit flags i = true -> 0 <= i < 5 /\ cell_over s section i.

(** The fields the balancing loops read. *)
Definition same_cells (s s' : bq769x0) : Prop :=
  cellVoltages s' = cellVoltages s /\
  idCellMinVoltage s' = idCellMinVoltage s /\
  balancingMaxVoltageDifference_mV s' = balancingMaxVoltageDifference_mV s.

(** The condition "balancing allowed" as [updateBalancingSwitches] comes
    to evaluate it: the idle time first, then [balancing_allowed]. *)
Definition balancing_gate : M bool :=
  now <- read_ms ;;
  stamp <- get idleTimestamp ;;
  let idleSeconds := Z.quot (now - stamp) 1000 in
  idleSeconds <-
    (if idleSeconds <? 0
     then modify (set_idleTimestamp 0) ;; now <- read_ms ;; ret (Z.quot now 1000)
     else ret idleSeconds) ;;
  balancing_allowed idleSeconds.

(** Cells 1 and 3 are over the difference and not neighbours; cell 2 is
    over it too but sits between them; the pack has been idle for 2000 s. *)
Definition balancing_example : bq769x0 :=
  set_timer 2000000
    (set_idCellMaxVoltage 1 (test_device 0 [] [3300; 3400; 3400; 3400; 3310])).

(** The register writes that give section [k], counted from [from], the
    [k]-th entry of [flags]; latest first. *)
Fixpoint section_writes (from : Z) (flags : list Z) : list (register * Z) :=
  match flags with
  | [] => []
  | f :: flags' => section_writes (from + 1) flags' ++ [(CELLBAL1_plus from, f)]
  end.

(** *** Threshold tables *)

(** The entries of a table do not decrease with the index. *)
Definition ascending (t : list Z) : Prop :=
  forall i j ei ej, (i <= j)%nat -> t !! i = Some ei -> t !! j = Some ej -> ei <= ej.

(** The same as a test on neighbouring entries. *)
Fixpoint ascending_b (t : list Z) : bool :=
  match t with
  | a :: t' =>
      match t' with
      | b :: _ => (a <=? b) && ascending_b t'
      | [] => true
      end
  | [] => true
  end.

(** A table the scan loops can be run on: [sizeof] counts its entries, it
    has at least one, and they ascend. *)
Definition well_formed (t : table) : Prop :=
  entry_bytes t = 1 /\ entries t <> [] /\ ascending (entries t).

(** A thousand times an entry of the table fits a [long]. *)
Definition denormalizable (t : table) : Prop :=
  forall e, e ∈ entries t -> in_long (e * 1000) = true.

(** [code] is where a scan from the highest index downward stops for
    [request]: every entry above it exceeds the request, and it is either
    an entry that does not, or index 0. *)
Definition first_from_top (t : list Z) (request code : Z) : Prop :=
  0 <= code < Z.of_nat (length t) /\
  (forall j e, code < Z.of_nat j -> t !! j = Some e -> request < e) /\
  (0 < code -> exists e, t !! Z.to_nat code = Some e /\ e <= request).

(** The entry at [code] is the largest entry not exceeding [request]. *)
Definition largest_not_exceeding (t : list Z) (request code : Z) : Prop :=
  exists e, t !! Z.to_nat code = Some e /\ e <= request /\
    forall e', e' ∈ t -> e' <= request -> e' <= e.

(** A code selected for a request: found by the scan from the top, the
    largest entry not exceeding the request if there is one, index 0 if
    every entry exceeds it. *)
Definition selected (t : list Z) (request code : Z) : Prop :=
  first_from_top t request code /\
  ((exists e, e ∈ t /\ e <= request) -> largest_not_exceeding t request code) /\
  ((forall e, e ∈ t -> request < e) -> code = 0).

(** What a current setter is to leave behind for a request normalised
    through the shunt and a delay: both codes selected from their tables,
    and the selected threshold entry, denormalised, as the return value. *)
Definition current_setting_ok (thresholds delays : table)
    (shunt current_mA delay : Z) (r : setting) : Prop :=
  selected (entries thresholds) (Z.quot (current_mA * shunt) 1000) (THRESH r) /\
  selected (entries delays) delay (DELAY r) /\
  exists e, entries thresholds !! Z.to_nat (THRESH r) = Some e /\
            returned r = Z.quot (e * 1000) shunt.

(** The loop over a current-threshold table read with a fractional shunt
    resistance, should the field be a [float]: the test
    [current_mA * shuntResistorValue_mOhm / 1000 >= setting[i]] is then
    taken in rational arithmetic. *)
Definition select_threshold_fractional (setting : table) (current_mA : Z)
    (shunt : Q) : option Z :=
  scan_down (Z.to_nat (sizeof setting - 1)) (sizeof setting - 1)
    (fun i => entry ← table_at setting i;
              Some (Qle_bool (inject_Z entry)
                             (inject_Z current_mA * shunt / 1000))).

(** Tables with one-byte entries for the examples: current thresholds
    in mV, and delays. *)
Definition example_thresholds : table :=
  {| entries := [44; 67; 89; 111; 133; 155; 178; 200]; entry_bytes := 1 |}.
Definition example_delays : table :=
  {| entries := [7; 10; 20; 40]; entry_bytes := 1 |}.

(** Delay tables for the cell-voltage protections, in seconds. *)
Definition example_uv_delays : table :=
  {| entries := [1; 4; 8; 16]; entry_bytes := 1 |}.
Definition example_ov_delays : table :=
  {| entries := [1; 2; 4; 8]; entry_bytes := 1 |}.

(** The ADC value a cell-voltage limit corresponds to:
    [((long)voltage_mV - adcOffset) * 1000 / adcGain]. *)
Definition limit_adc (adcGain adcOffset voltage_mV : Z) : Z :=
  Z.quot ((voltage_mV - adcOffset) * 1000) adcGain.

(** *** Open-circuit voltage table *)







(** A pack of 2500 mAh with a table of five breakpoints, whose highest
    cell reads [voltage]. *)
Definition ocv_example (voltage : Z) : bq769x0 :=
  {| _i2c := test_bus false 0 []; _timer := 0; crcEnabled := false;
     numberOfCells := cells_of_type bq76920;
     adcGain := 380; adcOffset := 0;
     shuntResistorValue_mOhm := 1; idleCurrentThreshold := 30;
     cellVoltages := [3300; voltage; 3300; 3300; 3300];
     idCellMaxVoltage := 1; idCellMinVoltage := 0;
     batVoltage := 0; batCurrent := 0; temperatures := [215; 0; 0];
     nominalCapacity := 2500 * 3600; coulombCounter := 0;
     OCV := [4200; 3900; 3700; 3500; 3000];
     minCellVoltage := 2800; maxCellVoltage := 4200;
     alertInterruptFlag := false; errorStatus := 0;
     secSinceErrorCounter := 0; interruptTimestamp := 0;
     balancingStatus := 0; balancingMinIdleTime_s := 1800;
     balancingMinCellVoltage_mV := 3300;
     balancingMaxVoltageDifference_mV := 20; idleTimestamp := 0 |}.


(** ** Predicates for the transport and the debug helper *)

(** A value that fits a byte. *)
Definition is_byte (x : Z) : Prop := 0 <= x < 256.

(** Every byte value, in order. *)
Definition all_bytes : list Z := map Z.of_nat (seq 0 256).

(** The number a string of binary digits stands for, most significant
    digit first. *)
Definition binary (digits : list ascii) : Z :=
  fold_left (fun acc c => 2 * acc + (if Ascii.eqb c "1" then 1 else 0)) digits 0.

(** The answer [f], received after the answers [seen], carries the CRC
    byte the loop of [readRegister] compares it with: the CRC-8 of all the
    bytes fed in since the call began. *)
Definition chained_match (I2CAddress : Z) (seen : list (Z * Z)) (f : Z * Z)
  : Prop :=
  snd f = Transport.crc8 (crc_input I2CAddress (seen ++ [f])).

(** No answer among [rx] is a chained match where it stands. *)
Definition no_chained_match (I2CAddress : Z) (rx : list (Z * Z)) : Prop :=
  forall p g q, rx = p ++ g :: q -> ~ chained_match I2CAddress p g.

(** ** Frames of the methods *)

(** Every run of [m] that returns relates the object before and after
    by [R]. *)
Definition keeps (R : bq769x0 -> bq769x0 -> Prop) {A : Type} (m : M A) : Prop :=
  forall s a s', m s = Ok a s' -> R s s'.

(** The register writes issued between [s] and [s'] all satisfy [P]. *)
Definition writes_only (P : register * Z -> Prop) (s s' : bq769x0) : Prop :=
  exists l, written (_i2c s') = l ++ written (_i2c s) /\ Forall P l.

(** What [updateVoltages] leaves alone: everything but the pack voltage,
    the cell voltages (whose number stays) and the two cell indices. *)
Definition same_but_voltages (s s' : bq769x0) : Prop :=
  _i2c s' = _i2c s /\ _timer s' = _timer s /\ crcEnabled s' = crcEnabled s /\
  numberOfCells s' = numberOfCells s /\ adcGain s' = adcGain s /\
  adcOffset s' = adcOffset s /\
  shuntResistorValue_mOhm s' = shuntResistorValue_mOhm s /\
  idleCurrentThreshold s' = idleCurrentThreshold s /\
  length (cellVoltages s') = length (cellVoltages s) /\
  batCurrent s' = batCurrent s /\ temperatures s' = temperatures s /\
  nominalCapacity s' = nominalCapacity s /\
  coulombCounter s' = coulombCounter s /\ OCV s' = OCV s /\
  minCellVoltage s' = minCellVoltage s /\ maxCellVoltage s' = maxCellVoltage s /\
  alertInterruptFlag s' = alertInterruptFlag s /\
  errorStatus s' = errorStatus s /\
  secSinceErrorCounter s' = secSinceErrorCounter s /\
  interruptTimestamp s' = interruptTimestamp s /\
  balancingStatus s' = balancingStatus s /\
  balancingMinIdleTime_s s' = balancingMinIdleTime_s s /\
  balancingMinCellVoltage_mV s' = balancingMinCellVoltage_mV s /\
  balancingMaxVoltageDifference_mV s' = balancingMaxVoltageDifference_mV s /\
  idleTimestamp s' = idleTimestamp s.

(** The masks [checkStatus] and [updateCurrent] write to [SYS_STAT]. *)
Definition status_masks : list Z := [0x80; 0x20; 0x10; 0x08; 0x04; 0x02; 0x01].

(** A write that clears a flag the status byte [sys_stat] shows: to
    [SYS_STAT], of a single flag, and that flag is up in [sys_stat]. *)
Definition clears_shown_flag (sys_stat : Z) (w : register * Z) : Prop :=
  fst w = SYS_STAT /\ snd w ∈ status_masks /\ Z.land sys_stat (snd w) <> 0.

(** The milliampere value [updateCurrent] makes of the coulomb-counter
    registers. *)
Definition current_reading (s : bq769x0) : Z :=
  let adcVal := Z.lor (Z.shiftl (chip (_i2c s) CC_HI_BYTE) 8)
                      (chip (_i2c s) CC_LO_BYTE) in
  Qtrunc (inject_Z (int16 adcVal) * (844 # 100)
          / inject_Z (shuntResistorValue_mOhm s))%Q.

(** A device whose chip has a new coulomb-counter value of 1000 LSB ready
    and shows no fault, after the alert pin has risen. *)
Definition current_ready : bq769x0 :=
  set_alertInterruptFlag true
    (set_i2c {| chip := fun r => match r with
                                 | SYS_STAT => 0x80
                                 | CC_HI_BYTE => 0x03
                                 | CC_LO_BYTE => 0xE8
                                 | _ => 0
                                 end;
                burst := fun _ => []; written := [] |}
       idle_device).

(** ** Balancing *)

(** A register write [updateBalancingSwitches] may issue: one to
    [SYS_STAT] (by way of [checkStatus]), or a flag set for a balancing
    register that fits the five cells of a section and has no two
    neighbouring bits set. *)
Definition safe_balancing_write (w : register * Z) : Prop :=
  match fst w with
  | SYS_STAT => True
  | CELLBAL1_plus _ => no_adjacent (snd w) /\ 0 <= snd w < 32
  | _ => False
  end.

(** What the inner loop of [updateBalancingSwitches] has established
    before cell [i]: the flags set so far are below bit [i], and no two of
    them are neighbours. *)
Definition flags_below (i flags : Z) : Prop :=
  0 <= flags < 2 ^ i /\ Z.land flags (Z.shiftl flags 1) = 0.

(** Every cell of [section] that is over the difference is flagged, unless
    the cell below it in the section is. *)
Definition flags_complete (s : bq769x0) (section flags : Z) : Prop :=
  forall i, 0 <= i < 5 -> cell_over s section i ->
    Z.testbit flags i = true \/ (0 < i /\ Z.testbit flags (i - 1) = true).

(** ** Achieved thresholds *)

(** The current threshold a setter returns, against the request: not above
    it when some table entry is within the normalised request, and
    otherwise the threshold of code 0, which is not below it. *)
Definition current_setting_sound (thresholds : table) (shunt current_mA : Z)
    (r : setting) : Prop :=
  ((exists e, e ∈ entries thresholds /\ e <= Z.quot (current_mA * shunt) 1000) ->
   returned r <= current_mA) /\
  ((forall e, e ∈ entries thresholds -> Z.quot (current_mA * shunt) 1000 < e) ->
   THRESH r = 0 /\ current_mA <= returned r).


(** ** Boards for the examples *)

(** The device of [balancing_example] (cells at 3300 to 3400 mV, 21.5
    degrees C) on a board that answers 0x19 for [CC_CFG] and 0x40 for
    [SYS_CTRL2], with the temperature limits -20..45 degrees C for
    discharging and 0..45 degrees C for charging. *)
Definition example_board : board :=
  {| bms := balancing_example;
     control := fun r => match r with
                         | CC_CFG => 0x19
                         | SYS_CTRL2 => 0x40
                         | _ => 0
                         end;
     control_written := [];
     minCellTempDischarge := -200;
     maxCellTempDischarge := 450;
     minCellTempCharge := 0;
     maxCellTempCharge := 450 |}.

(** What has to hold, after the call, for a FET to have been switched on:
    no fault recorded, the cell [idCell] points to on the right side of
    [limit], and the first thermistor strictly between [minTemp] and
    [maxTemp]. *)
Definition switch_on_conditions (s : bq769x0) (idCell : Z)
    (in_limit : Z -> bool) (minTemp maxTemp : Z) : Prop :=
  errorStatus s = 0 /\
  exists v t,
    cellVoltages s !! Z.to_nat idCell = Some v /\ in_limit v = true /\
    temperatures s !! 0%nat = Some t /\ minTemp < t < maxTemp.

(** The value [updateBalancingSwitches] leaves in [balancingStatus] once
    it has written the flag sets [flags] to the sections from [from] on:
    each flag set shifted left by the number of its section, and these
    or-ed together. *)
Fixpoint status_of_flags (from : Z) (flags : list Z) : Z :=
  match flags with
  | [] => 0
  | f :: flags' => Z.lor (Z.shiftl f from) (status_of_flags (from + 1) flags')
  end.

(** ** Proof support *)

(** Unfolds the plumbing of the state monad. *)
Ltac run :=
  unfold bind, get, readRegister, read_ms; cbn beta iota.

(** * Properties *)

(** ** Register transport *)

Lemma crc8_snoc (bytes : list Z) (b : Z) :
  Transport.crc8 (bytes ++ [b]) = Transport._crc8_ccitt_update (Transport.crc8 bytes) b.
Proof. unfold Transport.crc8. now rewrite fold_left_app. Qed.

(** An answer whose CRC byte is right is taken at once. *)
Lemma readRegister_first_answer (I2CAddress data crcSlave : Z) rx :
  Transport.frame_ok I2CAddress (data, crcSlave) = true ->
  Transport.readRegister I2CAddress ((data, crcSlave) :: rx) = Some data.
Proof.
  unfold Transport.frame_ok, Transport.readRegister, Transport.crc8.
  cbn [fst snd fold_left Transport.do_while].
  intros H. unfold Transport.readRegister_body. cbn [fst snd]. now rewrite H.
Qed.

(** What the loop compares the received CRC byte with: the CRC of all
    the bytes fed in since the loop was entered, not of the last answer
    alone. *)
Lemma do_while_chained (I2CAddress : Z) rx : forall seen data,
  Transport.do_while (Transport.readRegister_body I2CAddress)
    (Transport.crc8 (crc_input I2CAddress seen)) rx = Some data ->
  exists before crcSlave after,
    rx = before ++ (data, crcSlave) :: after /\
    crcSlave = Transport.crc8
                 (crc_input I2CAddress (seen ++ before ++ [(data, crcSlave)])).
Proof.
  induction rx as [|[d c] rx IH]; intros seen data; [discriminate|].
  cbn [Transport.do_while]. unfold Transport.readRegister_body at 1. cbn [fst snd].
  rewrite <- !crc8_snoc.
  replace ((crc_input I2CAddress seen ++ [Z.lor (Z.shiftl I2CAddress 1) 1]) ++ [d])
    with (crc_input I2CAddress (seen ++ [(d, c)])).
  2:{ unfold crc_input. rewrite flat_map_app. cbn. now rewrite <- app_assoc. }
  destruct (Z.eqb_spec (Transport.crc8 (crc_input I2CAddress (seen ++ [(d, c)]))) c)
    as [E|E]; cbn [negb].
  - intros [= <-]. exists [], c, rx. split; [reflexivity|]. cbn [app]. now rewrite E.
  - intros H. apply IH in H as (before & c' & after & -> & Hc).
    exists ((d, c) :: before), c', after. split; [reflexivity|].
    now rewrite <- app_assoc in Hc.
Qed.

Lemma readRegister_chained (I2CAddress : Z) rx data :
  Transport.readRegister I2CAddress rx = Some data ->
  exists before crcSlave after,
    rx = before ++ (data, crcSlave) :: after /\
    crcSlave = Transport.crc8 (crc_input I2CAddress (before ++ [(data, crcSlave)])).
Proof. apply (do_while_chained I2CAddress rx []). Qed.

(** C2 (fails on the code).  After one answer with a wrong CRC byte the
    loop goes on from the CRC it has computed so far: it then returns the
    data byte 0x19 of an answer whose CRC byte 0xE4 is not the CRC-8 of
    {0x11, 0x19}, and it leaves a correct answer (CRC byte 0x0D)
    unaccepted. *)
Theorem readRegister_stale_crc :
  Transport.readRegister bq76920_address [(0x19, 0x00); (0x19, 0xE4)] = Some 0x19 /\
  Transport.frame_ok bq76920_address (0x19, 0xE4) = false /\
  Transport.frame_ok bq76920_address (0x19, 0x0D) = true /\
  Transport.readRegister bq76920_address [(0x19, 0x00); (0x19, 0x0D)] = None.
Proof. repeat split; vm_compute; reflexivity. Qed.


(** ** The state monad *)

Lemma when_modify (b : bool) (f : bq769x0 -> bq769x0) (s : bq769x0) :
  when b (modify f) s = Ok tt (if b then f s else s).
Proof. now destruct b. Qed.

Lemma cellVoltages_at_in (s : bq769x0) (i : Z) :
  in_store s i ->
  exists v, cellVoltages s !! Z.to_nat i = Some v /\ cellVoltages_at i s = Ok v s.
Proof.
  intros [H0 H1]. unfold cellVoltages_at.
  destruct (Z.leb_spec 0 i); [|lia].
  destruct (lookup_lt_is_Some_2 (cellVoltages s) (Z.to_nat i)) as [v Hv]; [lia|].
  exists v. now rewrite Hv.
Qed.

Lemma cellVoltages_at_out (s : bq769x0) (i : Z) :
  ~ in_store s i -> cellVoltages_at i s = Stop (OutOfBounds i).
Proof.
  intros H. unfold cellVoltages_at, in_store in *.
  destruct (Z.leb_spec 0 i); [|reflexivity].
  rewrite (lookup_ge_None_2 (cellVoltages s) (Z.to_nat i)); [reflexivity|lia].
Qed.

Lemma cellVoltages_store_in (s : bq769x0) (i v : Z) :
  in_store s i ->
  cellVoltages_store i v s
  = Ok tt (set_cellVoltages (<[Z.to_nat i := v]> (cellVoltages s)) s).
Proof.
  intros [H0 H1]. unfold cellVoltages_store.
  destruct (Z.leb_spec 0 i); [|lia].
  destruct (Z.ltb_spec i (Z.of_nat (length (cellVoltages s)))); [reflexivity|lia].
Qed.

Lemma cellVoltages_store_out (s : bq769x0) (i v : Z) :
  ~ in_store s i -> cellVoltages_store i v s = Stop (OutOfBounds i).
Proof.
  intros H. unfold cellVoltages_store, in_store in *.
  destruct (Z.leb_spec 0 i); [|reflexivity].
  destruct (Z.ltb_spec i (Z.of_nat (length (cellVoltages s)))); [lia|reflexivity].
Qed.

(** ** Cell voltages *)

Lemma in_store_length (s s' : bq769x0) (i : Z) :
  length (cellVoltages s') = length (cellVoltages s) ->
  in_store s i -> in_store s' i.
Proof. unfold in_store. intros ->. trivial. Qed.

(** One round of the cell loop on a store that holds index [i]. *)
Lemma updateVoltages_cell_in (s : bq769x0) (i : Z) :
  in_store s i -> in_store s (idCellMaxVoltage s) -> in_store s (idCellMinVoltage s) ->
  exists s',
    updateVoltages_cell i s = Ok tt s' /\
    same_inputs s s' /\
    cellVoltages s' = <[Z.to_nat i := cell_reading s i]> (cellVoltages s) /\
    (forall vmax, cellVoltages s' !! Z.to_nat (idCellMaxVoltage s) = Some vmax ->
       idCellMaxVoltage s' = if vmax <? cell_reading s i then i else idCellMaxVoltage s) /\
    (forall vmin, cellVoltages s' !! Z.to_nat (idCellMinVoltage s) = Some vmin ->
       idCellMinVoltage s' =
       if (cell_reading s i <? vmin) && (500 <? cell_reading s i)
       then i else idCellMinVoltage s).
Proof.
  intros Hi Hmax Hmin.
  unfold updateVoltages_cell. run.
  fold (cell_reading s i).
  rewrite (cellVoltages_store_in s i _ Hi).
  set (v := cell_reading s i).
  set (s1 := set_cellVoltages _ s).
  assert (L1 : length (cellVoltages s1) = length (cellVoltages s))
    by (cbn; apply length_insert).
  assert (Hv : cellVoltages s1 !! Z.to_nat i = Some v).
  { cbn. apply list_lookup_insert_eq. destruct Hi. lia. }
  destruct (cellVoltages_at_in s1 i) as (v' & Hv' & ->);
    [now apply (in_store_length s)|].
  rewrite Hv in Hv'. injection Hv' as <-. cbn beta iota.
  change (idCellMaxVoltage s1) with (idCellMaxVoltage s).
  destruct (cellVoltages_at_in s1 (idCellMaxVoltage s)) as (vmax & Hvmax & ->);
    [now apply (in_store_length s)|].
  cbn beta iota.
  rewrite when_modify. cbn beta iota.
  set (s2 := if vmax <? v then set_idCellMaxVoltage i s1 else s1).
  assert (C2 : cellVoltages s2 = cellVoltages s1)
    by (unfold s2; now destruct (vmax <? v)).
  assert (N2 : idCellMinVoltage s2 = idCellMinVoltage s)
    by (unfold s2; now destruct (vmax <? v)).
  destruct (cellVoltages_at_in s2 i) as (v' & Hv' & ->);
    [apply (in_store_length s); [congruence|assumption]|].
  rewrite C2, Hv in Hv'. injection Hv' as <-. cbn beta iota.
  rewrite N2.
  destruct (cellVoltages_at_in s2 (idCellMinVoltage s)) as (vmin & Hvmin & ->);
    [apply (in_store_length s); [congruence|assumption]|].
  rewrite C2 in Hvmin. cbn beta iota.
  rewrite when_modify.
  set (s3 := if (v <? vmin) && (500 <? v) then set_idCellMinVoltage i s2 else s2).
  exists s3. split; [reflexivity|].
  assert (C3 : cellVoltages s3 = cellVoltages s1).
  { unfold s3. now destruct ((v <? vmin) && (500 <? v)). }
  split; [|split; [exact C3|split]].
  - unfold same_inputs, s3, s2.
    destruct ((v <? vmin) && (500 <? v)), (vmax <? v); now repeat split.
  - intros vmax'. rewrite C3, Hvmax. intros [= <-].
    unfold s3, s2. destruct ((v <? vmin) && (500 <? v)), (vmax <? v); reflexivity.
  - intros vmin'. rewrite C3, Hvmin. intros [= <-].
    unfold s3, s2. destruct ((v <? vmin) && (500 <? v)), (vmax <? v); reflexivity.
Qed.

(** One round on a store that does not hold index [i]. *)
Lemma updateVoltages_cell_out (s : bq769x0) (i : Z) :
  ~ in_store s i -> updateVoltages_cell i s = Stop (OutOfBounds i).
Proof.
  intros H. unfold updateVoltages_cell. run.
  now rewrite (cellVoltages_store_out s i _ H).
Qed.

Lemma updateVoltages_cell_keeps (s : bq769x0) (i : Z) :
  in_store s i -> in_store s (idCellMaxVoltage s) -> in_store s (idCellMinVoltage s) ->
  exists s',
    updateVoltages_cell i s = Ok tt s' /\
    length (cellVoltages s') = length (cellVoltages s) /\
    in_store s' (idCellMaxVoltage s') /\ in_store s' (idCellMinVoltage s').
Proof.
  intros Hi Hmax Hmin.
  destruct (updateVoltages_cell_in s i Hi Hmax Hmin)
    as (s' & E & _ & C & Imax & Imin).
  assert (L : length (cellVoltages s') = length (cellVoltages s))
    by (rewrite C; apply length_insert).
  exists s'. split; [exact E|]. split; [exact L|].
  destruct (lookup_lt_is_Some_2 (cellVoltages s') (Z.to_nat (idCellMaxVoltage s)))
    as [vmax Hvmax]; [rewrite L; destruct Hmax; lia|].
  destruct (lookup_lt_is_Some_2 (cellVoltages s') (Z.to_nat (idCellMinVoltage s)))
    as [vmin Hvmin]; [rewrite L; destruct Hmin; lia|].
  rewrite (Imax _ Hvmax), (Imin _ Hvmin).
  split.
  - destruct (vmax <? _); now apply (in_store_length s).
  - destruct (_ && _); now apply (in_store_length s).
Qed.

(** A cell loop that is to run past the end of the store stops at the first
    index the store does not hold. *)
Lemma updateVoltages_loop_overrun (n : nat) : forall (i : Z) (s : bq769x0),
  0 <= i <= Z.of_nat (length (cellVoltages s)) ->
  Z.of_nat (length (cellVoltages s)) < i + Z.of_nat n ->
  (i < Z.of_nat (length (cellVoltages s)) ->
   in_store s (idCellMaxVoltage s) /\ in_store s (idCellMinVoltage s)) ->
  for_ n i updateVoltages_cell s
  = Stop (OutOfBounds (Z.of_nat (length (cellVoltages s)))).
Proof.
  induction n as [|n IH]; intros i s Hi Hn Hid; [lia|].
  cbn [for_]. unfold bind.
  destruct (Z.eq_dec i (Z.of_nat (length (cellVoltages s)))) as [->|Hne].
  - rewrite updateVoltages_cell_out; [reflexivity|]. unfold in_store. lia.
  - destruct Hid as [Hmax Hmin]; [lia|].
    destruct (updateVoltages_cell_keeps s i) as (s' & -> & L & Hmax' & Hmin');
      [unfold in_store; lia|assumption..|].
    rewrite <- L. apply IH; rewrite ?L; [lia|lia|auto].
Qed.

(** The initialisation loop of the constructor stays inside a store of
    [numberOfCells - 1] entries and clears all of it. *)
Lemma init_loop_clears (n : nat) : forall (i : Z) (s : bq769x0),
  0 <= i -> i + Z.of_nat n <= Z.of_nat (length (cellVoltages s)) ->
  exists s',
    for_ n i (fun i => cellVoltages_store i 0) s = Ok tt s' /\
    cellVoltages s'
    = take (Z.to_nat i) (cellVoltages s) ++ replicate n 0
      ++ drop (Z.to_nat i + n) (cellVoltages s).
Proof.
  induction n as [|n IH]; intros i s Hi Hn.
  - exists s. split; [reflexivity|]. cbn [replicate app].
    now rewrite Nat.add_0_r, take_drop.
  - cbn [for_]. unfold bind.
    rewrite cellVoltages_store_in by (unfold in_store; lia).
    set (s1 := set_cellVoltages _ s).
    destruct (IH (i + 1) s1) as (s' & -> & C); [lia| |].
    { unfold s1. cbn. rewrite length_insert. lia. }
    exists s'. split; [reflexivity|]. rewrite C. unfold s1. cbn [cellVoltages set_cellVoltages].
    replace (Z.to_nat (i + 1)) with (S (Z.to_nat i)) by lia.
    rewrite drop_insert_lt by lia.
    rewrite (take_S_r _ _ 0) by (apply list_lookup_insert_eq; lia).
    rewrite take_insert_ge by lia.
    rewrite <- app_assoc. cbn [replicate app].
    now replace (S (Z.to_nat i) + n)%nat with (Z.to_nat i + S n)%nat by lia.
Qed.

(** C7.  With the store of [numberOfCells - 1] entries the specification
    declares, the initialisation loop of the constructor stays inside the
    store and clears all of it, while the cell loop of [updateVoltages],
    which runs [numberOfCells] times, stops at index [numberOfCells - 1]:
    the store of its last round is past the end.  This holds for each of
    the three chip types. *)
Theorem updateVoltages_overruns_declared_store (type : bqType) (s : bq769x0) :
  numberOfCells s = cells_of_type type ->
  length (cellVoltages s) = cellVoltages_declared (numberOfCells s) ->
  (exists s',
     init_cellVoltages s = Ok tt s' /\
     cellVoltages s' = replicate (cellVoltages_declared (numberOfCells s)) 0) /\
  updateVoltages s = Stop (OutOfBounds (numberOfCells s - 1)).
Proof.
  intros Htype Hlen.
  assert (Hn : 5 <= numberOfCells s) by (rewrite Htype; destruct type; cbn; lia).
  unfold cellVoltages_declared in *.
  split.
  - unfold init_cellVoltages. run.
    destruct (init_loop_clears (Z.to_nat (numberOfCells s - 1)) 0 s)
      as (s' & E & C); [lia|lia|].
    exists s'. split; [exact E|]. rewrite C. cbn [Z.to_nat take app].
    rewrite drop_ge by (cbn; lia). now rewrite app_nil_r.
  - unfold updateVoltages. run. unfold modify. cbn beta iota.
    set (s0 := set_idCellMinVoltage 0 _).
    change (numberOfCells s0) with (numberOfCells s).
    rewrite updateVoltages_loop_overrun.
    + change (cellVoltages s0) with (cellVoltages s). rewrite Hlen.
      f_equal. f_equal. lia.
    + change (cellVoltages s0) with (cellVoltages s). lia.
    + change (cellVoltages s0) with (cellVoltages s). lia.
    + change (cellVoltages s0) with (cellVoltages s). unfold in_store.
      change (cellVoltages s0) with (cellVoltages s). cbn. lia.
Qed.

Lemma updateVoltages_overruns_declared_store_witness :
  let s := test_device 0 [] [0; 0; 0; 0] in
  (exists s',
     init_cellVoltages s = Ok tt s' /\
     cellVoltages s' = replicate (cellVoltages_declared (numberOfCells s)) 0) /\
  updateVoltages s = Stop (OutOfBounds (numberOfCells s - 1)).
Proof.
  apply (updateVoltages_overruns_declared_store bq76920); reflexivity.
Defined.

(** A counted loop keeps an invariant its body keeps. *)
Lemma for_invariant (P : Z -> bq769x0 -> Prop) (body : Z -> M unit) (n : nat) :
  forall (i : Z) (s : bq769x0),
  P i s ->
  (forall j t, i <= j < i + Z.of_nat n -> P j t ->
     exists t', body j t = Ok tt t' /\ P (j + 1) t') ->
  exists s', for_ n i body s = Ok tt s' /\ P (i + Z.of_nat n) s'.
Proof.
  induction n as [|n IH]; intros i s HP Hbody.
  - exists s. split; [reflexivity|]. now rewrite Z.add_0_r.
  - cbn [for_]. unfold bind.
    destruct (Hbody i s) as (t & -> & HP'); [lia|exact HP|].
    destruct (IH (i + 1) t HP') as (s' & E & HP'').
    { intros j u Hj. apply Hbody. lia. }
    exists s'. split; [exact E|].
    now replace (i + Z.of_nat (S n)) with (i + 1 + Z.of_nat n) by lia.
Qed.

Lemma cell_reading_same (s0 s : bq769x0) (i : Z) :
  same_inputs s0 s -> cell_reading s i = cell_reading s0 i.
Proof.
  intros (Hbus & Hcrc & _ & Hgain & Hoff). unfold cell_reading.
  now rewrite Hbus, Hcrc, Hgain, Hoff.
Qed.

(** One round of the cell loop takes [cells_read] from [i] to [i + 1]. *)
Lemma updateVoltages_cell_reads (s0 s : bq769x0) (i : Z) :
  0 <= i < Z.of_nat (length (cellVoltages s0)) ->
  cells_read s0 i s ->
  exists s', updateVoltages_cell i s = Ok tt s' /\ cells_read s0 (i + 1) s'.
Proof.
  intros Hi (Hsame & Hlen & Hcells & Hids).
  assert (Hin : in_store s i) by (unfold in_store; rewrite Hlen; exact Hi).
  assert (Hmax : in_store s (idCellMaxVoltage s)).
  { unfold in_store. rewrite Hlen.
    destruct Hids as [(_ & -> & _)|(_ & (? & _) & _)]; lia. }
  assert (Hmin : in_store s (idCellMinVoltage s)).
  { unfold in_store. rewrite Hlen.
    destruct Hids as [(_ & _ & ->)|(Hpos & _ & Habove & Hbelow)]; [lia|].
    destruct (Z_lt_le_dec 500 (cell_reading s0 0)) as [H|H].
    - destruct (Habove H) as (? & _). lia.
    - rewrite (Hbelow H). lia. }
  destruct (updateVoltages_cell_in s i Hin Hmax Hmin)
    as (s' & E & Hsame' & C & Imax & Imin).
  rewrite (cell_reading_same s0 s i Hsame) in C, Imax, Imin.
  exists s'. split; [exact E|]. unfold cells_read.
  remember (cell_reading s0) as r eqn:Er in *.
  assert (Hcells' : forall j, 0 <= j < i + 1 ->
            cellVoltages s' !! Z.to_nat j = Some (r j)).
  { intros j Hj. rewrite C. destruct (Z.eq_dec j i) as [->|Hne].
    - apply list_lookup_insert_eq. destruct Hin. lia.
    - rewrite list_lookup_insert_ne by lia. apply Hcells. lia. }
  split; [|split; [|split; [exact Hcells'|]]].
  - destruct Hsame as (? & ? & ? & ? & ?), Hsame' as (? & ? & ? & ? & ?).
    repeat split; congruence.
  - rewrite C, length_insert. exact Hlen.
  - right. split; [lia|].
    destruct Hids as [(-> & Emax & Emin)|(Hpos & Fmax & Habove & Hbelow)].
    + (* the first round compares the new reading with itself *)
      rewrite Emax in Imax. rewrite Emin in Imin.
      specialize (Imax (r 0) (Hcells' 0 ltac:(lia))).
      specialize (Imin (r 0) (Hcells' 0 ltac:(lia))).
      rewrite Z.ltb_irrefl in Imax, Imin. cbn [andb] in Imin.
      rewrite Imax, Imin. unfold first_max, first_min_above.
      split; [|split].
      * repeat split; try lia; intros j Hj; replace j with 0 by lia; lia.
      * intros H0. split; [lia|]. split; [lia|].
        split; intros j Hj Hj'; [replace j with 0 by lia; lia|lia].
      * reflexivity.
    + destruct Fmax as (Rmax & Umax & Lmax).
      specialize (Imax (r (idCellMaxVoltage s))
                       (Hcells' (idCellMaxVoltage s) ltac:(lia))).
      split; [|split].
      * rewrite Imax. destruct (Z.ltb_spec (r (idCellMaxVoltage s)) (r i)).
        -- split; [lia|]. split; intros j Hj.
           ++ destruct (Z.eq_dec j i) as [->|]; [lia|].
              specialize (Umax j ltac:(lia)). lia.
           ++ specialize (Umax j ltac:(lia)). lia.
        -- split; [lia|]. split; [|exact Lmax]. intros j Hj.
           destruct (Z.eq_dec j i) as [->|]; [lia|]. apply Umax. lia.
      * intros H0. destruct (Habove H0) as (Rmin & Amin & Umin & Lmin).
        specialize (Imin (r (idCellMinVoltage s))
                         (Hcells' (idCellMinVoltage s) ltac:(lia))).
        rewrite Imin.
        destruct (Z.ltb_spec (r i) (r (idCellMinVoltage s)));
          destruct (Z.ltb_spec 500 (r i)); cbn [andb].
        -- split; [lia|]. split; [lia|]. split; intros j Hj Hj'.
           ++ destruct (Z.eq_dec j i) as [->|]; [lia|].
              specialize (Umin j ltac:(lia) Hj'). lia.
           ++ specialize (Umin j ltac:(lia) Hj'). lia.
        -- split; [lia|]. split; [lia|]. split; [|exact Lmin]. intros j Hj Hj'.
           destruct (Z.eq_dec j i) as [->|]; [lia|]. apply Umin; [lia|exact Hj'].
        -- split; [lia|]. split; [lia|]. split; [|exact Lmin]. intros j Hj Hj'.
           destruct (Z.eq_dec j i) as [->|]; [lia|]. apply Umin; [lia|exact Hj'].
        -- split; [lia|]. split; [lia|]. split; [|exact Lmin]. intros j Hj Hj'.
           destruct (Z.eq_dec j i) as [->|]; [lia|]. apply Umin; [lia|exact Hj'].
      * intros H0. specialize (Hbelow H0). rewrite Hbelow in Imin.
        specialize (Imin (r 0) (Hcells' 0 ltac:(lia))). rewrite Imin.
        destruct (Z.ltb_spec (r i) (r 0)); destruct (Z.ltb_spec 500 (r i));
          cbn [andb]; lia.
Qed.

(** [updateVoltages] on a store that holds all [numberOfCells] cells: the
    readings are stored, [idCellMaxVoltage] is the first index of the
    largest reading whatever the two indices were before, and
    [idCellMinVoltage] is the first index of the smallest reading above
    500 mV provided cell 0 itself reads above 500 mV; otherwise it stays
    at 0. *)
Lemma updateVoltages_reads (s : bq769x0) :
  0 < numberOfCells s <= Z.of_nat (length (cellVoltages s)) ->
  exists s',
    updateVoltages s = Ok tt s' /\
    (forall j, 0 <= j < numberOfCells s ->
       cellVoltages s' !! Z.to_nat j = Some (cell_reading s j)) /\
    first_max (cell_reading s) (numberOfCells s) (idCellMaxVoltage s') /\
    (500 < cell_reading s 0 ->
     first_min_above 500 (cell_reading s) (numberOfCells s) (idCellMinVoltage s')) /\
    (cell_reading s 0 <= 500 -> idCellMinVoltage s' = 0).
Proof.
  intros Hn. unfold updateVoltages. run. unfold modify. cbn beta iota.
  set (s0 := set_idCellMinVoltage 0 _).
  change (numberOfCells s0) with (numberOfCells s).
  destruct (for_invariant (cells_read s0) updateVoltages_cell
              (Z.to_nat (numberOfCells s)) 0 s0) as (s' & E & Hs').
  - repeat split. intros j Hj. lia. left. repeat split.
  - intros j t Hj. apply updateVoltages_cell_reads.
    change (cellVoltages s0) with (cellVoltages s). lia.
  - exists s'. split; [exact E|].
    replace (0 + Z.of_nat (Z.to_nat (numberOfCells s))) with (numberOfCells s)
      in Hs' by lia.
    destruct Hs' as (_ & _ & Hcells & [(? & _)|(_ & Hmax & Habove & Hbelow)]);
      [lia|].
    assert (Er : forall j, cell_reading s0 j = cell_reading s j)
      by (intros j; apply cell_reading_same; now repeat split).
    split; [intros j Hj; rewrite <- Er; now apply Hcells|].
    unfold first_max, first_min_above in *.
    setoid_rewrite Er in Hmax. setoid_rewrite Er in Habove.
    setoid_rewrite Er in Hbelow. auto.
Qed.

(** C6 (fails on the code).  Cell 0 reads 0 mV and cells 1 to 4 read
    3119, 3112, 3119 and 3210 mV.  [updateVoltages] leaves
    [idCellMaxVoltage] at 4, the first largest reading, and
    [idCellMinVoltage] at 0, a cell that does not read above 500 mV,
    whereas the first smallest reading above 500 mV is at index 2. *)
Theorem updateVoltages_min_stuck_at_cell_0 :
  exists s',
    updateVoltages dead_first_cell = Ok tt s' /\
    cellVoltages s' = [0; 3119; 3112; 3119; 3210] /\
    idCellMaxVoltage s' = 4 /\
    idCellMinVoltage s' = 0 /\
    first_min_above 500 (cell_reading dead_first_cell) 5 2.
Proof.
  eexists. split; [vm_compute; reflexivity|].
  repeat split; try (intros j [? ?]); try lia.
  - intros Hj.
    assert (C : j = 0 \/ j = 1 \/ j = 2 \/ j = 3 \/ j = 4) by lia.
    destruct C as [->|[->|[->|[->| ->]]]]; revert Hj; vm_compute; congruence.
  - assert (C : j = 0 \/ j = 1) by lia.
    destruct C as [->| ->]; vm_compute; congruence.
Qed.

(** ** Fault handling *)

(** C5 (fails on the code).  The alert pin rises at time 0 and the status
    byte has only the SCD bit set from then on.  Polled once a second for
    180 s, [checkStatus] writes the SCD bit to [SYS_STAT] five times, in
    the calls at 0, 1, 2, 60 and 120 s; polled every 250 ms it does so
    twenty times, in every call of the seconds 0, 1, 2, 60 and 120. *)
Theorem checkStatus_scd_clear_attempts :
  result (alert_then_polls 0x02 (every 1000 180) scd_chip)
  = Some [0; 1000; 2000; 60000; 120000] /\
  result (alert_then_polls 0x02 (every 250 180) scd_chip)
  = Some [0; 250; 500; 750; 1000; 1250; 1500; 1750; 2000; 2250; 2500; 2750;
          60000; 60250; 60500; 60750; 120000; 120250; 120500; 120750].
Proof. split; vm_compute; reflexivity. Qed.

(** Why: as long as the flag of the interrupt handler is set, a call of
    [checkStatus] puts the seconds counter back to 0, and within the first
    three seconds after the interrupt the counter is not brought up again;
    so every such call finds the counter at a multiple of 60 and writes
    the SCD bit. *)
Lemma checkStatus_scd_early_call (s : bq769x0) :
  alertInterruptFlag s = true ->
  chip (_i2c s) SYS_STAT = 0x02 ->
  0 <= _timer s - interruptTimestamp s < 3000 ->
  exists s',
    checkStatus s = Ok 0x02 s' /\
    written (_i2c s') = (SYS_STAT, 0x02) :: written (_i2c s) /\
    secSinceErrorCounter s' = 1 /\ alertInterruptFlag s' = true.
Proof.
  intros Hflag Hchip Htime.
  assert (Hsec : exists sec, uint32 (_timer s - interruptTimestamp s) / 1000 = sec /\
                             (sec = 0 \/ sec = 1 \/ sec = 2)).
  { eexists. split; [reflexivity|]. unfold uint32. rewrite Z.mod_small by lia.
    assert (H : 0 <= (_timer s - interruptTimestamp s) / 1000 < 3)
      by (split; [apply Z.div_pos; lia|apply Z.div_lt_upper_bound; lia]).
    lia. }
  destruct Hsec as (sec & Esec & Hsec).
  unfold checkStatus. run. rewrite Hflag. cbn [negb andb]. rewrite !Hchip.
  change (Z.testbit 2 7) with false. change (negb (Z.land 2 63 =? 0)) with true.
  unfold when at 1, ret at 1. cbn beta iota.
  rewrite Hflag. unfold when at 1, modify at 1 2. cbn beta iota.
  unfold get. cbn beta iota.
  cbn [_timer interruptTimestamp secSinceErrorCounter set_secSinceErrorCounter
       set_errorStatus].
  rewrite Esec.
  destruct Hsec as [->|[->| ->]];
    (eexists; split; [vm_compute; reflexivity|]; cbn; auto).
Qed.

(** With the flag of the interrupt handler clear, the gate "once per
    second" of [checkStatus] works: a device that has the fault recorded
    writes the SCD bit in the first call of the seconds 0, 60 and 120
    only. *)
Lemma checkStatus_scd_flag_clear :
  result (polls 0x02 (every 250 180) (set_errorStatus 0x02 scd_chip))
  = Some [0; 60000; 120000].
Proof. vm_compute; reflexivity. Qed.

(** ** Balancing *)

Lemma testbit_1 (k : Z) : Z.testbit 1 k = (k =? 0).
Proof. destruct k as [|p|p]; [reflexivity| |reflexivity]. now destruct p. Qed.

(** Bit [n + 1] of [x << 1] is bit [n] of [x]. *)
Lemma testbit_shiftl_1 (x n : Z) :
  0 <= n -> Z.testbit (Z.shiftl x 1) (n + 1) = Z.testbit x n.
Proof.
  intros Hn. rewrite Z.shiftl_spec by lia. f_equal. lia.
Qed.

(** The collision test of [updateBalancingSwitches] lets a target flag set
    through only if it has no two neighbouring bits. *)
Lemma no_collision_no_adjacent (flags i : Z) :
  0 <= i ->
  Z.land (Z.shiftl (Z.lor flags (Z.shiftl 1 i)) 1) flags = 0 ->
  Z.land (Z.shiftl flags 1) (Z.lor flags (Z.shiftl 1 i)) = 0 ->
  no_adjacent (Z.lor flags (Z.shiftl 1 i)).
Proof.
  intros Hi H1 H2 j Hj [A B].
  assert (B1 : Z.testbit (Z.land (Z.shiftl (Z.lor flags (Z.shiftl 1 i)) 1) flags)
                 (j + 1) = false) by (rewrite H1; apply Z.bits_0).
  assert (B2 : Z.testbit (Z.land (Z.shiftl flags 1) (Z.lor flags (Z.shiftl 1 i)))
                 (j + 1) = false) by (rewrite H2; apply Z.bits_0).
  rewrite Z.land_spec, testbit_shiftl_1 in B1, B2 by lia.
  rewrite A in B1. rewrite B in B2. cbn [andb] in B1.
  rewrite andb_true_r in B2.
  rewrite Z.lor_spec, Z.shiftl_spec, testbit_1 in A, B by lia.
  rewrite B1 in B. rewrite B2 in A. cbn [orb] in A, B.
  apply Z.eqb_eq in A, B. lia.
Qed.

(** The bits of a target flag set are those of the flag set and bit [i]. *)
Lemma testbit_target (flags i j : Z) :
  0 <= i -> Z.testbit (Z.lor flags (Z.shiftl 1 i)) j = true ->
  Z.testbit flags j = true \/ j = i.
Proof.
  intros Hi. rewrite Z.lor_spec. destruct (Z.testbit flags j); [now left|].
  cbn [orb]. destruct (Z_lt_le_dec j 0) as [Hj|Hj].
  - now rewrite Z.testbit_neg_r.
  - rewrite Z.shiftl_spec, testbit_1 by lia. intros H%Z.eqb_eq. right. lia.
Qed.

Lemma no_adjacent_0 : no_adjacent 0.
Proof. intros i _ [A _]. now rewrite Z.bits_0 in A. Qed.

(** One round of the inner loop: the state is only read, and the flag set
    stays admissible. *)
Lemma balancing_cell_step (s : bq769x0) (section i flags : Z) :
  in_store s (section * 5 + i) -> in_store s (idCellMinVoltage s) -> 0 <= i ->
  no_adjacent flags ->
  (forall j, Z.testbit flags j = true -> 0 <= j < i /\ cell_over s section j) ->
  exists flags',
    balancing_cell section i flags s = Ok flags' s /\
    no_adjacent flags' /\
    (forall j, Z.testbit flags' j = true -> 0 <= j < i + 1 /\ cell_over s section j).
Proof.
  intros Hcell Hmin Hi Hadj Hbits.
  assert (Hkeep : forall j, Z.testbit flags j = true ->
                    0 <= j < i + 1 /\ cell_over s section j).
  { intros j Hj. destruct (Hbits j Hj). split; [lia|assumption]. }
  unfold balancing_cell. run.
  destruct (cellVoltages_at_in s _ Hcell) as (v & Hv & ->). cbn beta iota.
  destruct (cellVoltages_at_in s _ Hmin) as (vmin & Hvmin & ->). cbn beta iota.
  destruct (Z.ltb_spec (balancingMaxVoltageDifference_mV s) (v - vmin)) as [Hover|_];
    [|exists flags; auto].
  destruct (Z.eqb_spec (Z.land (Z.shiftl (Z.lor flags (Z.shiftl 1 i)) 1) flags) 0)
    as [H1|_]; cbn [negb orb]; [|exists flags; auto].
  destruct (Z.eqb_spec (Z.land (Z.shiftl flags 1) (Z.lor flags (Z.shiftl 1 i))) 0)
    as [H2|_]; cbn [negb]; [|exists flags; auto].
  exists (Z.lor flags (Z.shiftl 1 i)). split; [reflexivity|]. split.
  - now apply no_collision_no_adjacent.
  - intros j Hj. destruct (testbit_target flags i j Hi Hj) as [Hold| ->]; [auto|].
    split; [lia|]. now exists v, vmin.
Qed.

(** A counted loop with a carried local, on a body that only reads the
    state. *)
Lemma for_acc_invariant {A : Type} (P : Z -> A -> Prop) (body : Z -> A -> M A)
    (s : bq769x0) (n : nat) :
  forall (i : Z) (acc : A),
  P i acc ->
  (forall j a, i <= j < i + Z.of_nat n -> P j a ->
     exists a', body j a s = Ok a' s /\ P (j + 1) a') ->
  exists acc', for_acc n i body acc s = Ok acc' s /\ P (i + Z.of_nat n) acc'.
Proof.
  induction n as [|n IH]; intros i acc HP Hbody.
  - exists acc. split; [reflexivity|]. now rewrite Z.add_0_r.
  - cbn [for_acc]. unfold bind.
    destruct (Hbody i acc) as (a & -> & HP'); [lia|exact HP|].
    destruct (IH (i + 1) a HP') as (acc' & E & HP'').
    { intros j u Hj. apply Hbody. lia. }
    exists acc'. split; [exact E|].
    now replace (i + Z.of_nat (S n)) with (i + 1 + Z.of_nat n) by lia.
Qed.

Lemma cellVoltages_at_Ok (s s' : bq769x0) (i v : Z) :
  cellVoltages_at i s = Ok v s' -> s' = s /\ in_store s i.
Proof.
  unfold cellVoltages_at, in_store. destruct (Z.leb_spec 0 i); [|discriminate].
  destruct (cellVoltages s !! Z.to_nat i) eqn:E; [|discriminate].
  intros [= _ <-]. split; [reflexivity|]. apply lookup_lt_Some in E. lia.
Qed.

Lemma section_flags_ok_same (s s' : bq769x0) (section flags : Z) :
  same_cells s s' -> section_flags_ok s' section flags ->
  section_flags_ok s section flags.
Proof.
  intros (C & I & D) [Hadj Hbits]. split; [exact Hadj|].
  intros i Hi. destruct (Hbits i Hi) as [Hr (v & vmin & H)].
  split; [exact Hr|]. exists v, vmin. now rewrite C, I, D in H.
Qed.

(** One section: the register gets an admissible flag set. *)
Lemma balancing_section_step (s : bq769x0) (section : Z) :
  (forall i, 0 <= i < 5 -> in_store s (section * 5 + i)) ->
  in_store s (idCellMinVoltage s) ->
  exists flags s',
    balancing_section section s = Ok tt s' /\
    section_flags_ok s section flags /\
    written (_i2c s') = (CELLBAL1_plus section, flags) :: written (_i2c s) /\
    same_cells s s'.
Proof.
  intros Hcells Hmin. unfold balancing_section. unfold bind at 1.
  destruct (for_acc_invariant
              (fun i flags => no_adjacent flags /\
                 forall j, Z.testbit flags j = true ->
                   0 <= j < i /\ cell_over s section j)
              (balancing_cell section) s 5 0 0) as (flags & -> & Hadj & Hbits).
  - split; [apply no_adjacent_0|]. intros j Hj. now rewrite Z.bits_0 in Hj.
  - intros j a Hj [Hadj Hbits].
    apply balancing_cell_step; [apply Hcells; lia|assumption|lia|assumption..].
  - exists flags. eexists. split; [reflexivity|]. split; [now split|].
    split; [reflexivity|]. now repeat split.
Qed.

Lemma section_writes_snoc (flags : list Z) (f : Z) : forall from,
  section_writes from (flags ++ [f])
  = (CELLBAL1_plus (from + Z.of_nat (length flags)), f) :: section_writes from flags.
Proof.
  induction flags as [|g flags IH]; intros from; cbn [section_writes app length].
  - now rewrite Z.add_0_r.
  - rewrite IH. cbn [app]. do 3 f_equal. lia.
Qed.

(** What it takes for "balancing allowed" to come out true. *)
Lemma balancing_allowed_true (idleSeconds : Z) (s s1 : bq769x0) :
  balancing_allowed idleSeconds s = Ok true s1 ->
  checkStatus s = Ok 0 s1 /\ in_store s1 (idCellMinVoltage s1).
Proof.
  unfold balancing_allowed. unfold bind at 1.
  destruct (checkStatus s) as [status t|]; [|discriminate].
  destruct (Z.eqb_spec status 0) as [->|]; cbn [negb]; [|discriminate].
  run. destruct (negb _); [discriminate|].
  destruct (cellVoltages_at (idCellMaxVoltage t) t) as [vmax t1|] eqn:E1;
    [|discriminate].
  apply cellVoltages_at_Ok in E1 as [-> _].
  destruct (negb _); [discriminate|].
  destruct (cellVoltages_at (idCellMaxVoltage t) t) as [vmax' t1|] eqn:E1;
    [|discriminate].
  apply cellVoltages_at_Ok in E1 as [-> _].
  destruct (cellVoltages_at (idCellMinVoltage t) t) as [vmin t1|] eqn:E1;
    [|discriminate].
  apply cellVoltages_at_Ok in E1 as [-> Hmin].
  unfold ret. intros [= _ <-]. now split.
Qed.

(** C1.  Whenever [updateBalancingSwitches] finds balancing allowed, it
    writes one flag set to the balancing register of each section, and
    none of these flag sets has two neighbouring bits set; every flagged
    cell is one of the five cells of its section and reads more than the
    differential threshold above the cell [idCellMinVoltage] points to.
    [s1] is the device as the evaluation of the condition leaves it; the
    store is to hold the cells of all sections. *)
Theorem updateBalancingSwitches_no_adjacent (s s1 : bq769x0) :
  balancing_gate s = Ok true s1 ->
  5 * Z.quot (numberOfCells s) 5 <= Z.of_nat (length (cellVoltages s1)) ->
  exists s' flags,
    updateBalancingSwitches s = Ok tt s' /\
    Z.of_nat (length flags) = Z.max 0 (Z.quot (numberOfCells s) 5) /\
    written (_i2c s') = section_writes 0 flags ++ written (_i2c s1) /\
    forall k f, flags !! k = Some f ->
      no_adjacent f /\ section_flags_ok s1 (Z.of_nat k) f.
Proof.
  intros Hgate Hstore.
  unfold updateBalancingSwitches. unfold balancing_gate in Hgate.
  unfold bind at 1 2 3. unfold bind at 1 2 in Hgate.
  unfold read_ms at 1, get at 1 2 3. unfold read_ms at 1, get at 1 2 in Hgate.
  cbn beta iota in *.
  set (idle := if Z.quot (_timer s - idleTimestamp s) 1000 <? 0 then _ else _) in *.
  unfold bind at 1. unfold bind at 1 in Hgate.
  destruct (idle s) as [idleSeconds s0|]; [|discriminate].
  unfold bind at 1. rewrite Hgate. cbn beta iota.
  apply balancing_allowed_true in Hgate as [_ Hmin].
  unfold bind at 1. unfold modify at 1. cbn beta iota.
  set (t0 := set_balancingStatus 0 s1).
  set (n := Z.quot (numberOfCells s) 5) in *.
  destruct (for_invariant
    (fun k t => same_cells s1 t /\
       exists flags, Z.of_nat (length flags) = k /\
         written (_i2c t) = section_writes 0 flags ++ written (_i2c s1) /\
         forall j f, flags !! j = Some f -> section_flags_ok s1 (Z.of_nat j) f)
    balancing_section (Z.to_nat n) 0 t0) as (s' & E & _ & flags & Hlen & Hw & Hok).
  - split; [now repeat split|]. exists []. split; [reflexivity|].
    split; [reflexivity|]. intros j f Hj. now rewrite lookup_nil in Hj.
  - intros k t Hk ((C & I & D) & flags & Hlen & Hw & Hok).
    destruct (balancing_section_step t k) as (f & t' & E & Hf & Hw' & (C' & I' & D')).
    { intros i Hi. unfold in_store. rewrite C. lia. }
    { unfold in_store in *. now rewrite C, I. }
    exists t'. split; [exact E|]. split; [repeat split; congruence|].
    exists (flags ++ [f]). split; [rewrite length_app; cbn; lia|]. split.
    + rewrite Hw', Hw, section_writes_snoc. cbn [app]. do 3 f_equal. lia.
    + intros j g Hj. apply lookup_app_Some in Hj as [Hj|[Hge Hj]]; [now apply Hok|].
      apply list_lookup_singleton_Some in Hj as [Hj <-].
      replace (Z.of_nat j) with k by lia.
      now apply (section_flags_ok_same s1 t).
  - exists s', flags. split; [exact E|]. split; [lia|]. split; [exact Hw|].
    intros k f Hk. split; [apply (Hok k f Hk)|now apply Hok].
Qed.

Lemma updateBalancingSwitches_no_adjacent_witness :
  exists s' flags,
    updateBalancingSwitches balancing_example = Ok tt s' /\
    Z.of_nat (length flags) = Z.max 0 (Z.quot (numberOfCells balancing_example) 5) /\
    written (_i2c s') = section_writes 0 flags ++ written (_i2c balancing_example) /\
    forall k f, flags !! k = Some f ->
      no_adjacent f /\ section_flags_ok balancing_example (Z.of_nat k) f.
Proof.
  apply (updateBalancingSwitches_no_adjacent balancing_example balancing_example).
  - vm_compute. reflexivity.
  - vm_compute. discriminate.
Defined.

(** On [balancing_example] the register of the one section gets the flags
    of cells 1 and 3. *)
Example updateBalancingSwitches_example :
  exists s', updateBalancingSwitches balancing_example = Ok tt s' /\
             written (_i2c s') = [(CELLBAL1_plus 0, 10)].
Proof. eexists. split; vm_compute; reflexivity. Qed.

(** ** Threshold configurator *)

Lemma scan_down_spec (hit : Z -> option bool) (n : nat) : forall i,
  i = Z.of_nat n ->
  (forall j, 1 <= j <= i -> is_Some (hit j)) ->
  exists code,
    scan_down n i hit = Some code /\
    0 <= code <= i /\
    (forall j, code < j <= i -> hit j = Some false) /\
    (0 < code -> hit code = Some true).
Proof.
  induction n as [|n IH]; intros i Hi Hhit.
  - exists 0. cbn. repeat split; lia.
  - cbn [scan_down]. destruct (Hhit i) as [b Hb]; [lia|]. rewrite Hb.
    destruct b.
    + exists i. repeat split; try lia. now intros _.
    + destruct (IH (i - 1)) as (code & E & Hr & Habove & Hcode); [lia| |].
      { intros j Hj. apply Hhit. lia. }
      exists code. split; [exact E|]. split; [lia|]. split; [|exact Hcode].
      intros j Hj. destruct (Z.eq_dec j i) as [->|]; [exact Hb|].
      apply Habove. lia.
Qed.

Lemma table_at_lookup (t : table) (i : Z) :
  0 <= i -> table_at t i = entries t !! Z.to_nat i.
Proof. intros Hi. unfold table_at. now destruct (Z.leb_spec 0 i); [|lia]. Qed.

(** A scan whose test compares a table entry with [request]. *)
Lemma scan_table (t : table) (request : Z) (hit : Z -> option bool) :
  well_formed t ->
  (forall j e, 0 <= j -> entries t !! Z.to_nat j = Some e ->
     hit j = Some (e <=? request)) ->
  exists code,
    scan_down (Z.to_nat (sizeof t - 1)) (sizeof t - 1) hit = Some code /\
    selected (entries t) request code.
Proof.
  intros (Hbytes & Hne & Hasc) Hhit.
  assert (Hsize : sizeof t = Z.of_nat (length (entries t)))
    by (unfold sizeof; rewrite Hbytes; lia).
  assert (Hlen : (0 < length (entries t))%nat)
    by (destruct (entries t); [congruence|cbn; lia]).
  destruct (scan_down_spec hit (Z.to_nat (sizeof t - 1)) (sizeof t - 1))
    as (code & E & Hr & Habove & Hcode); [lia| |].
  { intros j Hj.
    destruct (lookup_lt_is_Some_2 (entries t) (Z.to_nat j)) as [e He]; [lia|].
    rewrite (Hhit j e) by (lia || assumption). eauto. }
  exists code. split; [exact E|].
  assert (Hfirst : first_from_top (entries t) request code).
  { split; [lia|]. split.
    - intros j e Hj He. pose proof (lookup_lt_Some _ _ _ He) as Hlt.
      specialize (Habove (Z.of_nat j) ltac:(lia)).
      rewrite (Hhit (Z.of_nat j) e) in Habove by (rewrite ?Nat2Z.id; lia || assumption).
      injection Habove as Hle. apply Z.leb_gt in Hle. exact Hle.
    - intros Hpos. specialize (Hcode Hpos).
      destruct (lookup_lt_is_Some_2 (entries t) (Z.to_nat code)) as [e He]; [lia|].
      rewrite (Hhit code e) in Hcode by (lia || assumption).
      injection Hcode as Hle. apply Z.leb_le in Hle. eauto. }
  split; [exact Hfirst|]. destruct Hfirst as (_ & Hgt & Hle). split.
  - intros (e0 & Hin & He0).
    apply list_elem_of_lookup in Hin as [j0 Hj0].
    assert (Hj0' : Z.of_nat j0 <= code).
    { destruct (Z_lt_le_dec code (Z.of_nat j0)) as [H|H]; [|exact H].
      specialize (Hgt j0 e0 H Hj0). lia. }
    destruct (lookup_lt_is_Some_2 (entries t) (Z.to_nat code)) as [e He]; [lia|].
    exists e. split; [exact He|].
    assert (Hee : e <= request).
    { destruct (Z.eq_dec code 0) as [->|Hnz].
      - replace j0 with 0%nat in Hj0 by lia. change (Z.to_nat 0) with 0%nat in He.
        assert (e = e0) by congruence. lia.
      - destruct Hle as (e' & He' & ?); [lia|]. congruence. }
    split; [exact Hee|].
    intros e' Hin' He'. apply list_elem_of_lookup in Hin' as [j' Hj'].
    apply (Hasc j' (Z.to_nat code) e' e); [|assumption..].
    destruct (le_lt_dec j' (Z.to_nat code)) as [H|H]; [exact H|].
    specialize (Hgt j' e' ltac:(lia) Hj'). lia.
  - intros Hall. destruct (Z.eq_dec code 0) as [|Hnz]; [assumption|].
    destruct Hle as (e & He & Hle); [lia|].
    specialize (Hall e ltac:(apply list_elem_of_lookup; eauto)). lia.
Qed.

Lemma select_delay_selected (t : table) (delay : Z) :
  well_formed t ->
  exists code, select_delay t delay = Some code /\ selected (entries t) delay code.
Proof.
  intros Ht. apply scan_table; [exact Ht|].
  intros j e Hj He. now rewrite table_at_lookup, He.
Qed.

Lemma select_threshold_selected (t : table) (current_mA shunt : Z) :
  well_formed t -> in_long (current_mA * shunt) = true ->
  exists code,
    select_threshold t current_mA shunt = Some code /\
    selected (entries t) (Z.quot (current_mA * shunt) 1000) code.
Proof.
  intros Ht Hfit. apply scan_table; [exact Ht|].
  intros j e Hj He. unfold checked. now rewrite Hfit, table_at_lookup, He.
Qed.

Lemma achieved_current_selected (t : table) (request code shunt : Z) :
  denormalizable t -> shunt <> 0 -> selected (entries t) request code ->
  exists e, entries t !! Z.to_nat code = Some e /\
            achieved_current t code shunt = Some (Z.quot (e * 1000) shunt).
Proof.
  intros Hfit Hshunt ((Hr & _) & _).
  destruct (lookup_lt_is_Some_2 (entries t) (Z.to_nat code)) as [e He]; [lia|].
  exists e. split; [exact He|].
  unfold achieved_current, checked. rewrite table_at_lookup, He by lia. cbn.
  rewrite (Hfit e) by (apply list_elem_of_lookup; eauto). cbn.
  now destruct (Z.eqb_spec shunt 0).
Qed.

Lemma current_setter_ok (thresholds delays : table) (shunt current_mA delay : Z) :
  well_formed thresholds -> denormalizable thresholds -> well_formed delays ->
  shunt <> 0 -> in_long (current_mA * shunt) = true ->
  exists thresh code e,
    select_threshold thresholds current_mA shunt = Some thresh /\
    select_delay delays delay = Some code /\
    achieved_current thresholds thresh shunt = Some (Z.quot (e * 1000) shunt) /\
    current_setting_ok thresholds delays shunt current_mA delay
      {| THRESH := thresh; DELAY := code; returned := Z.quot (e * 1000) shunt |}.
Proof.
  intros Ht Hd Hdel Hshunt Hfit.
  destruct (select_threshold_selected thresholds current_mA shunt Ht Hfit)
    as (thresh & E1 & S1).
  destruct (select_delay_selected delays delay Hdel) as (code & E2 & S2).
  destruct (achieved_current_selected thresholds _ thresh shunt Hd Hshunt S1)
    as (e & He & E3).
  exists thresh, code, e. split; [exact E1|]. split; [exact E2|].
  split; [exact E3|]. unfold current_setting_ok. cbn [THRESH DELAY returned].
  split; [exact S1|]. split; [exact S2|]. now exists e.
Qed.

(** An integer entry is at most a rational request exactly when it is at
    most its integer part. *)
Lemma Qle_bool_floor (e : Z) (q : Q) : Qle_bool (inject_Z e) q = (e <=? Qfloor q).
Proof.
  destruct (Z.leb_spec e (Qfloor q)) as [H|H].
  - apply Qle_bool_iff. apply Qle_trans with (inject_Z (Qfloor q)).
    + now rewrite <- Zle_Qle.
    + apply Qfloor_le.
  - destruct (Qle_bool (inject_Z e) q) eqn:E; [|reflexivity].
    apply Qle_bool_iff in E. apply Qfloor_resp_le in E.
    rewrite Qfloor_Z in E. lia.
Qed.

(** With a fractional shunt resistance the scan selects in the same way,
    for the integer part of the normalised request. *)
Lemma select_threshold_fractional_selected (t : table) (current_mA : Z) (shunt : Q) :
  well_formed t ->
  exists code,
    select_threshold_fractional t current_mA shunt = Some code /\
    selected (entries t) (Qfloor (inject_Z current_mA * shunt / 1000)) code.
Proof.
  intros Ht. apply scan_table; [exact Ht|].
  intros j e Hj He. now rewrite table_at_lookup, He, <- Qle_bool_floor.
Qed.


Lemma ascending_b_correct (t : list Z) : ascending_b t = true -> ascending t.
Proof.
  induction t as [|a t IH]; intros Hb i j ei ej Hij Hi Hj.
  - now rewrite lookup_nil in Hi.
  - assert (Ht : ascending t).
    { apply IH. destruct t as [|b t]; [reflexivity|].
      cbn [ascending_b] in Hb. now apply andb_true_iff in Hb as [_ Hb]. }
    destruct i as [|i], j as [|j]; cbn in Hi, Hj; try lia.
    + assert (ei = ej) by congruence. lia.
    + injection Hi as <-. destruct t as [|b t]; [cbn in Hj; discriminate Hj|].
      cbn [ascending_b] in Hb. apply andb_true_iff in Hb as [Hab _].
      apply Z.leb_le in Hab.
      specialize (Ht 0%nat j b ej ltac:(lia) eq_refl Hj). lia.
    + apply (Ht i j); [lia|assumption..].
Qed.

Lemma denormalizable_check (t : table) :
  forallb (fun e => in_long (e * 1000)) (entries t) = true -> denormalizable t.
Proof.
  intros H e He. rewrite forallb_forall in H. apply H. now apply list_elem_of_In.
Qed.

Lemma well_formed_check (t : table) :
  entry_bytes t = 1 -> entries t <> [] -> ascending_b (entries t) = true ->
  well_formed t.
Proof. intros ? ? ?. repeat split; auto using ascending_b_correct. Qed.

(** Where an entry takes more than one byte, [sizeof] is not the number of
    entries, and the first probe of a scan is past the table. *)
Lemma select_delay_wide_entries (t : table) (delay : Z) :
  1 < entry_bytes t -> entries t <> [] -> select_delay t delay = None.
Proof.
  intros Hbytes Hne. unfold select_delay.
  assert (Hlen : (0 < length (entries t))%nat)
    by (destruct (entries t); [congruence|cbn; lia]).
  assert (Hsize : Z.of_nat (length (entries t)) <= sizeof t - 1)
    by (unfold sizeof; nia).
  destruct (Z.to_nat (sizeof t - 1)) as [|n] eqn:En; [lia|].
  cbn [scan_down]. rewrite table_at_lookup by lia.
  rewrite lookup_ge_None_2 by lia. reflexivity.
Qed.


(** A request of 20 A over a shunt of 5 mOhm is 100 mV: the entry 89 mV at
    index 2 is selected, and 17.8 A is returned. *)
Example setShortCircuitProtection_example :
  setShortCircuitProtection example_thresholds example_delays 5 20000 20
  = Some {| THRESH := 2; DELAY := 2; returned := 17800 |}.
Proof. reflexivity. Qed.

(** *** Cell-voltage thresholds *)

Lemma lor_pow2_small (n y : Z) :
  0 <= n -> 0 <= y < 2 ^ n -> Z.lor (Z.shiftl 1 n) y = 2 ^ n + y.
Proof.
  intros Hn Hy. rewrite Z.shiftl_1_l, <- Z.add_lor_land.
  replace (Z.land (2 ^ n) y) with 0; [lia|]. symmetry.
  apply Z.bits_inj'. intros m Hm.
  rewrite Z.land_spec, Z.bits_0, Z.pow2_bits_eqb by lia.
  destruct (Z.eqb_spec n m) as [<-|]; [|reflexivity]. cbn [andb].
  apply Z.testbit_false; [lia|]. now rewrite Z.div_small.
Qed.

(** The product behind an ADC value in a positive window is positive and
    bounded by it. *)
Lemma limit_adc_bounds (adcGain adcOffset voltage_mV lo hi : Z) :
  0 < adcGain -> 0 < lo ->
  lo <= limit_adc adcGain adcOffset voltage_mV < hi ->
  let product := (voltage_mV - adcOffset) * 1000 in
  limit_adc adcGain adcOffset voltage_mV = product / adcGain /\
  lo * adcGain <= product < hi * adcGain.
Proof.
  intros Hgain Hlo Hraw product. unfold limit_adc in *. fold product in Hraw |- *.
  assert (Hpos : 0 <= product).
  { destruct (Z_lt_le_dec product 0) as [Hneg|]; [|assumption].
    replace product with (- - product) in Hraw by lia.
    rewrite Z.quot_opp_l in Hraw by lia.
    pose proof (Z.quot_pos (- product) adcGain ltac:(lia) Hgain). lia. }
  rewrite Z.quot_div_nonneg in * by lia. split; [reflexivity|].
  pose proof (Z.div_mod product adcGain ltac:(lia)).
  pose proof (Z.mod_pos_bound product adcGain Hgain). nia.
Qed.

Lemma trip_code_in_window (adcGain adcOffset voltage_mV lo hi : Z) :
  0 < adcGain < 2 ^ 16 -> 0 < lo -> hi <= 2 ^ 14 ->
  lo <= limit_adc adcGain adcOffset voltage_mV < hi ->
  trip_code adcGain adcOffset voltage_mV
  = Some ((limit_adc adcGain adcOffset voltage_mV / 16) mod 256).
Proof.
  intros Hgain Hlo Hhi Hraw.
  destruct (limit_adc_bounds adcGain adcOffset voltage_mV lo hi) as [_ Hp];
    [lia..|].
  unfold trip_code, checked, in_long.
  destruct (Z.leb_spec (- 2 ^ 31) ((voltage_mV - adcOffset) * 1000)); [|nia].
  destruct (Z.ltb_spec ((voltage_mV - adcOffset) * 1000) (2 ^ 31)); [|nia].
  cbn. destruct (Z.eqb_spec adcGain 0); [lia|].
  fold (limit_adc adcGain adcOffset voltage_mV).
  rewrite Z.shiftr_div_pow2 by lia.
  change 255 with (Z.ones 8). now rewrite Z.land_ones by lia.
Qed.

Lemma trip_voltage_small (adcGain adcOffset bit trip : Z) :
  0 < adcGain < 2 ^ 16 -> 12 <= bit <= 13 -> 0 <= trip < 256 ->
  trip_voltage adcGain adcOffset bit trip
  = Some ((2 ^ bit + 16 * trip) * adcGain / 1000 + adcOffset).
Proof.
  intros Hgain Hbit Htrip. unfold trip_voltage, checked, in_long.
  rewrite (Z.shiftl_mul_pow2 trip 4) by lia. change (2 ^ 4) with 16.
  assert (H12 : 2 ^ 12 <= 2 ^ bit) by (apply Z.pow_le_mono_r; lia).
  assert (H13 : 2 ^ bit <= 2 ^ 13) by (apply Z.pow_le_mono_r; lia).
  rewrite lor_pow2_small by lia.
  replace (trip * 16) with (16 * trip) by lia.
  destruct (Z.leb_spec (- 2 ^ 31) ((2 ^ bit + 16 * trip) * adcGain)); [|nia].
  destruct (Z.ltb_spec ((2 ^ bit + 16 * trip) * adcGain) (2 ^ 31)); [|nia].
  cbn. now rewrite Z.quot_div_nonneg by nia.
Qed.

(** C3 as the code has it.  For a calibration with a gain between 1 and
    65535 uV/LSB, and on delay tables the scan can be run on:
    - a requested undervoltage limit whose ADC value lies in the window
      [4096, 8176) yields the code [(adc >> 4) mod 256 + 1] and an
      achieved threshold not below the request;
    - a requested overvoltage limit whose ADC value lies in the window
      [8192, 12288) yields the code [(adc >> 4) mod 256] and an achieved
      threshold not above the request. *)
Theorem cell_protection_within_window
    (UV_delay_setting OV_delay_setting : table)
    (adcGain adcOffset uv_mV ov_mV delay_s : Z) :
  well_formed UV_delay_setting -> well_formed OV_delay_setting ->
  0 < adcGain < 2 ^ 16 ->
  4096 <= limit_adc adcGain adcOffset uv_mV < 8176 ->
  8192 <= limit_adc adcGain adcOffset ov_mV < 12288 ->
  (exists r,
     setCellUndervoltageProtection UV_delay_setting adcGain adcOffset uv_mV delay_s
     = Some r /\
     THRESH r = (limit_adc adcGain adcOffset uv_mV / 16) mod 256 + 1 /\
     uv_mV <= returned r) /\
  (exists r,
     setCellOvervoltageProtection OV_delay_setting adcGain adcOffset ov_mV delay_s
     = Some r /\
     THRESH r = (limit_adc adcGain adcOffset ov_mV / 16) mod 256 /\
     returned r <= ov_mV).
Proof.
  intros Huv Hov Hgain Wuv Wov. split.
  - destruct (select_delay_selected UV_delay_setting delay_s Huv) as (code & E & _).
    unfold setCellUndervoltageProtection.
    rewrite (trip_code_in_window adcGain adcOffset uv_mV 4096 8176) by lia.
    cbn. rewrite E. cbn.
    set (adc := limit_adc adcGain adcOffset uv_mV) in *.
    assert (Hq : (adc / 16) mod 256 = adc / 16 - 256)
      by (Z.div_mod_to_equations; lia).
    rewrite trip_voltage_small by (rewrite ?Hq; Z.div_mod_to_equations; lia).
    cbn. eexists. split; [reflexivity|]. cbn [THRESH returned].
    split; [reflexivity|]. rewrite Hq.
    destruct (limit_adc_bounds adcGain adcOffset uv_mV adc (adc + 1)) as [_ Hp];
      [lia..|]. cbv zeta in Hp.
    assert (Hup : adc + 1 <= 2 ^ 12 + 16 * (adc / 16 - 256 + 1))
      by (Z.div_mod_to_equations; lia).
    assert (Hle : 1000 * (uv_mV - adcOffset)
                  <= (2 ^ 12 + 16 * (adc / 16 - 256 + 1)) * adcGain) by nia.
    apply Z.div_le_lower_bound in Hle; lia.
  - destruct (select_delay_selected OV_delay_setting delay_s Hov) as (code & E & _).
    unfold setCellOvervoltageProtection.
    rewrite (trip_code_in_window adcGain adcOffset ov_mV 8192 12288) by lia.
    cbn. rewrite E. cbn.
    set (adc := limit_adc adcGain adcOffset ov_mV) in *.
    assert (Hq : (adc / 16) mod 256 = adc / 16 - 512)
      by (Z.div_mod_to_equations; lia).
    rewrite trip_voltage_small by (rewrite ?Hq; Z.div_mod_to_equations; lia).
    cbn. eexists. split; [reflexivity|]. cbn [THRESH returned].
    split; [reflexivity|]. rewrite Hq.
    destruct (limit_adc_bounds adcGain adcOffset ov_mV adc (adc + 1)) as [_ Hp];
      [lia..|]. cbv zeta in Hp.
    assert (Hup : 2 ^ 13 + 16 * (adc / 16 - 512) <= adc)
      by (Z.div_mod_to_equations; lia).
    assert (Hle : (2 ^ 13 + 16 * (adc / 16 - 512)) * adcGain
                  <= 1000 * (ov_mV - adcOffset)) by nia.
    assert (Hdiv : (2 ^ 13 + 16 * (adc / 16 - 512)) * adcGain / 1000
                   < ov_mV - adcOffset + 1)
      by (apply Z.div_lt_upper_bound; lia).
    lia.
Qed.

Lemma cell_protection_within_window_witness :
  (exists r,
     setCellUndervoltageProtection example_uv_delays 380 0 3000 4 = Some r /\
     THRESH r = (limit_adc 380 0 3000 / 16) mod 256 + 1 /\
     3000 <= returned r) /\
  (exists r,
     setCellOvervoltageProtection example_ov_delays 380 0 4200 4 = Some r /\
     THRESH r = (limit_adc 380 0 4200 / 16) mod 256 /\
     returned r <= 4200).
Proof.
  apply cell_protection_within_window;
    try (apply well_formed_check; [reflexivity|discriminate|reflexivity]);
    vm_compute; split; congruence.
Defined.

(** On a gain of 380 uV/LSB and no offset, 3000 mV as undervoltage limit
    gives 3003 mV and 4200 mV as overvoltage limit gives 4195 mV. *)
Example cell_protection_example :
  setCellUndervoltageProtection example_uv_delays 380 0 3000 4
  = Some {| THRESH := 238; DELAY := 1; returned := 3003 |} /\
  setCellOvervoltageProtection example_ov_delays 380 0 4200 2
  = Some {| THRESH := 178; DELAY := 1; returned := 4195 |}.
Proof. split; reflexivity. Qed.

(** C3 as stated fails.  With a gain of 365 uV/LSB the request of 3000 mV
    is above what the undervoltage code can express, and the achieved
    threshold is 1506 mV; with a gain of 380 uV/LSB the request of
    3107 mV takes the code from 255 to 256 and the achieved threshold is
    1556 mV; and 3000 mV as overvoltage limit, below what that code can
    express, comes back as 4553 mV. *)
Lemma cell_protection_outside_window :
  (exists r, setCellUndervoltageProtection example_uv_delays 365 0 3000 4 = Some r /\
             returned r = 1506 /\ returned r < 3000) /\
  (exists r, setCellUndervoltageProtection example_uv_delays 380 0 3107 4 = Some r /\
             returned r = 1556 /\ returned r < 3107) /\
  (exists r, setCellOvervoltageProtection example_ov_delays 380 0 3000 2 = Some r /\
             returned r = 4553 /\ 3000 < returned r).
Proof. repeat split; eexists; (split; [reflexivity|split; [reflexivity|reflexivity]]). Qed.

(** ** Temperature *)



(** 21.5 degrees Celsius are 70.7 degrees Fahrenheit. *)
Example getTemperature_example :
  exists c f,
    getTemperatureDegC 1 idle_device = Ok c idle_device /\ (c == 215 # 10)%Q /\
    getTemperatureDegF 1 idle_device = Ok f idle_device /\ (f == 707 # 10)%Q.
Proof. do 2 eexists. repeat split. Qed.

(** ** State of charge *)

(** Truncating an integer over a hundred is the integer division of C. *)
Lemma Qtrunc_percent (x : Z) : Qtrunc (inject_Z x / 100)%Q = Z.quot x 100.
Proof.
  unfold Qtrunc, Qle_bool, Qceiling, Qfloor. cbn.
  rewrite !Z.mul_1_r. change (Z.pos (1 * 100)) with 100. rewrite Z.mul_0_l.
  destruct (Z.leb_spec 0 x) as [H|H].
  - now rewrite Z.quot_div_nonneg by lia.
  - replace x with (- - x) at 2 by lia.
    rewrite Z.quot_opp_l, Z.quot_div_nonneg by lia. reflexivity.
Qed.

Lemma getSOC_value (s : bq769x0) :
  getSOC s
  = Ok (inject_Z (coulombCounter s) / inject_Z (nominalCapacity s) * 100)%Q s.
Proof. reflexivity. Qed.

(** [resetSOC] with a percentage from 0 to 100 whose product with the
    capacity fits a [long]. *)
Lemma resetSOC_percent_value (s : bq769x0) (percent : Z) :
  0 <= percent <= 100 ->
  in_long (nominalCapacity s * percent) = true ->
  resetSOC percent s
  = Ok tt (set_coulombCounter (Z.quot (nominalCapacity s * percent) 100) s).
Proof.
  intros Hp Hfit. unfold resetSOC.
  destruct (Z.leb_spec percent 100); [|lia].
  destruct (Z.leb_spec 0 percent); [|lia]. cbn [andb].
  unfold bind, get, long_mul, modify. rewrite Hfit.
  now rewrite Qtrunc_percent.
Qed.

(** A counter of [n * percent / 100] reads back as [percent] when the
    division is exact. *)
Lemma soc_exact (n k percent : Z) :
  n = k * 100 -> n <> 0 ->
  (inject_Z (Z.quot (n * percent) 100) / inject_Z n * 100 == inject_Z percent)%Q.
Proof.
  intros Hk Hnz.
  replace (Z.quot (n * percent) 100) with (k * percent).
  2:{ rewrite Hk. replace (k * 100 * percent) with (k * percent * 100) by lia.
      now rewrite Z.quot_mul by lia. }
  rewrite Hk. rewrite !inject_Z_mult.
  assert (Hk0 : ~ (inject_Z k == 0)%Q).
  { intros E. unfold Qeq in E. cbn in E. lia. }
  field. exact Hk0.
Qed.

(** C9 as the code has it.  When [nominalCapacity] is a nonzero multiple
    of 100 and its product with the percentage fits a [long], [resetSOC]
    with a percentage from 0 to 100 followed by [getSOC] gives back the
    percentage. *)
Theorem soc_round_trip (s : bq769x0) (percent : Z) :
  nominalCapacity s <> 0 ->
  (100 | nominalCapacity s) ->
  0 <= percent <= 100 ->
  in_long (nominalCapacity s * percent) = true ->
  exists s' soc,
    resetSOC percent s = Ok tt s' /\
    getSOC s' = Ok soc s' /\
    (soc == inject_Z percent)%Q.
Proof.
  intros Hnz [k Hk] Hp Hfit.
  do 2 eexists. split; [now apply resetSOC_percent_value|].
  split; [apply getSOC_value|].
  cbn [coulombCounter nominalCapacity set_coulombCounter].
  now apply (soc_exact _ k).
Qed.

Lemma soc_round_trip_witness :
  let s := set_nominalCapacity (2500 * 3600) idle_device in
  exists s' soc,
    resetSOC 50 s = Ok tt s' /\
    getSOC s' = Ok soc s' /\
    (soc == inject_Z 50)%Q.
Proof.
  apply soc_round_trip.
  - discriminate.
  - exists 90000. reflexivity.
  - lia.
  - reflexivity.
Defined.

(** X17.  A capacity stored by [setBatteryCapacity] is a multiple of 100,
    so the percentage is read back for every pack it can describe:
    [setBatteryCapacity], then [resetSOC] with a percentage from 0 to 100,
    then [getSOC] gives that percentage, as long as the products fit a
    [long]. *)
Lemma setBatteryCapacity_round_trip (s : bq769x0) (capacity_mAh percent : Z) :
  capacity_mAh <> 0 -> 0 <= percent <= 100 ->
  in_long (capacity_mAh * 3600) = true ->
  in_long (capacity_mAh * 3600 * percent) = true ->
  exists s' soc,
    (setBatteryCapacity capacity_mAh ;; resetSOC percent) s = Ok tt s' /\
    getSOC s' = Ok soc s' /\
    (soc == inject_Z percent)%Q.
Proof.
  intros Hc Hp Hfit Hfit'. unfold bind at 1.
  unfold setBatteryCapacity, bind, long_mul, modify. rewrite Hfit.
  do 2 eexists. split; [now apply resetSOC_percent_value|].
  split; [apply getSOC_value|].
  cbn [coulombCounter nominalCapacity set_coulombCounter set_nominalCapacity].
  apply (soc_exact _ (capacity_mAh * 36)); lia.
Qed.

(** C9 as stated fails.  The coulomb counter holds whole mAs: with a
    nominal capacity of 1 mAs, [resetSOC(50)] stores 0 and [getSOC] gives
    0.  And the product of capacity and percentage is formed in a [long]:
    for a pack of 10 Ah, [resetSOC(100)] asks for 3 600 000 000, which a
    [long] of 32 bits does not hold. *)
Lemma soc_round_trip_fails :
  (exists s' soc,
     resetSOC 50 (set_nominalCapacity 1 idle_device) = Ok tt s' /\
     getSOC s' = Ok soc s' /\ (soc == 0)%Q /\ ~ (soc == inject_Z 50)%Q) /\
  (setBatteryCapacity 10000 ;; resetSOC 100) idle_device = Stop Overflow.
Proof.
  split; [|reflexivity].
  do 2 eexists. split; [reflexivity|]. split; [reflexivity|].
  split; [reflexivity|discriminate].
Qed.

(** *** Reset from the open-circuit voltage *)



















(** On the table 4200, 3900, 3700, 3500, 3000 mV a highest cell at
    3600 mV gives 37.5 percent and one at 3800 mV gives 62.5 percent. *)
Example resetSOC_ocv_example :
  exists s1' s2' soc1 soc2,
    resetSOC (-1) (ocv_example 3600) = Ok tt s1' /\
    resetSOC (-1) (ocv_example 3800) = Ok tt s2' /\
    getSOC s1' = Ok soc1 s1' /\ (soc1 == 375 # 10)%Q /\
    getSOC s2' = Ok soc2 s2' /\ (soc2 == 625 # 10)%Q.
Proof.
  do 4 eexists.
  split; [vm_compute; reflexivity|]. split; [vm_compute; reflexivity|].
  split; [reflexivity|]. split; [reflexivity|]. split; reflexivity.
Qed.

(** * Further properties *)

(** ** CRC-8 and the frames of the transport *)

(** A test that holds for each byte value holds for every byte. *)
Lemma byte_cases (P : Z -> bool) :
  forallb P all_bytes = true -> forall x, is_byte x -> P x = true.
Proof.
  intros H x Hx. rewrite forallb_forall in H. apply H.
  unfold all_bytes. apply in_map_iff. exists (Z.to_nat x). split.
  - apply Z2Nat.id. unfold is_byte in Hx. lia.
  - apply in_seq. unfold is_byte in Hx. lia.
Qed.

Lemma byte_cases2 (P : Z -> Z -> bool) :
  forallb (fun x => forallb (P x) all_bytes) all_bytes = true ->
  forall x y, is_byte x -> is_byte y -> P x y = true.
Proof.
  intros H x y Hx Hy.
  apply (byte_cases (P x)); [|exact Hy].
  apply (byte_cases (fun x => forallb (P x) all_bytes)); [exact H|exact Hx].
Qed.

Lemma uint8_is_byte (x : Z) : is_byte (uint8 x).
Proof. unfold is_byte, uint8. apply Z.mod_pos_bound. lia. Qed.

Lemma uint8_byte (x : Z) : is_byte x -> uint8 x = x.
Proof. unfold is_byte, uint8. intros H. apply Z.mod_small. exact H. Qed.

Lemma lxor_is_byte (x y : Z) : is_byte x -> is_byte y -> is_byte (Z.lxor x y).
Proof.
  intros Hx Hy.
  assert (C : forallb (fun x => forallb
              (fun y => (0 <=? Z.lxor x y) && (Z.lxor x y <? 256)) all_bytes)
            all_bytes = true) by (vm_compute; reflexivity).
  assert (H := byte_cases2 _ C x y Hx Hy).
  unfold is_byte. cbv beta in H. lia.
Qed.

Lemma crc8_rounds_is_byte (x : Z) : is_byte x -> is_byte (Transport.crc8_rounds 8 x).
Proof.
  intros Hx.
  assert (C : forallb
              (fun x => (0 <=? Transport.crc8_rounds 8 x)
                        && (Transport.crc8_rounds 8 x <? 256))
              all_bytes = true) by (vm_compute; reflexivity).
  assert (H := byte_cases _ C x Hx).
  unfold is_byte. cbv beta in H. lia.
Qed.

Lemma crc8_rounds_injective (x y : Z) :
  is_byte x -> is_byte y ->
  Transport.crc8_rounds 8 x = Transport.crc8_rounds 8 y -> x = y.
Proof.
  intros Hx Hy E.
  assert (C : forallb (fun x => forallb
              (fun y => implb (Transport.crc8_rounds 8 x =? Transport.crc8_rounds 8 y)
                              (x =? y)) all_bytes)
            all_bytes = true) by (vm_compute; reflexivity).
  assert (H := byte_cases2 _ C x y Hx Hy).
  cbv beta in H. rewrite E, Z.eqb_refl in H. cbn in H. lia.
Qed.

Lemma crc8_update_is_byte (crc data : Z) :
  is_byte (Transport._crc8_ccitt_update crc data).
Proof.
  unfold Transport._crc8_ccitt_update.
  apply crc8_rounds_is_byte, lxor_is_byte; apply uint8_is_byte.
Qed.

Lemma crc8_is_byte (bytes : list Z) : is_byte (Transport.crc8 bytes).
Proof.
  induction bytes as [|b bytes IH] using rev_ind.
  - unfold is_byte. cbn. lia.
  - rewrite crc8_snoc. apply crc8_update_is_byte.
Qed.

Lemma crc8_update_uint8 (crc data : Z) :
  Transport._crc8_ccitt_update crc (uint8 data)
  = Transport._crc8_ccitt_update crc data.
Proof.
  unfold Transport._crc8_ccitt_update, uint8. rewrite Z.mod_mod by lia. reflexivity.
Qed.

Lemma crc8_update_same (crc : Z) : Transport._crc8_ccitt_update crc crc = 0.
Proof.
  unfold Transport._crc8_ccitt_update. rewrite Z.lxor_nilpotent. reflexivity.
Qed.

(** X1.  A byte sequence followed by its own CRC-8 has CRC-8 zero, for every
    sequence: the check a receiver makes on a frame closed by
    [_crc8_ccitt_update]'s result comes out right. *)
Theorem crc8_appended_is_zero (bytes : list Z) :
  Transport.crc8 (bytes ++ [Transport.crc8 bytes]) = 0.
Proof. rewrite crc8_snoc. apply crc8_update_same. Qed.

Lemma crc8_app (pre post : list Z) :
  Transport.crc8 (pre ++ post)
  = fold_left Transport._crc8_ccitt_update post (Transport.crc8 pre).
Proof. unfold Transport.crc8. apply fold_left_app. Qed.

Lemma crc8_update_injective_crc (c1 c2 data : Z) :
  is_byte c1 -> is_byte c2 ->
  Transport._crc8_ccitt_update c1 data = Transport._crc8_ccitt_update c2 data ->
  c1 = c2.
Proof.
  unfold Transport._crc8_ccitt_update. intros H1 H2 E.
  apply crc8_rounds_injective in E;
    [|apply lxor_is_byte; apply uint8_is_byte ..].
  rewrite !(uint8_byte c1), !(uint8_byte c2) in E by assumption.
  apply (f_equal (fun z => Z.lxor z (uint8 data))) in E.
  rewrite !Z.lxor_assoc, Z.lxor_nilpotent, !Z.lxor_0_r in E. exact E.
Qed.

Lemma crc8_update_injective_data (crc d1 d2 : Z) :
  is_byte d1 -> is_byte d2 ->
  Transport._crc8_ccitt_update crc d1 = Transport._crc8_ccitt_update crc d2 ->
  d1 = d2.
Proof.
  unfold Transport._crc8_ccitt_update. intros H1 H2 E.
  apply crc8_rounds_injective in E;
    [|apply lxor_is_byte; apply uint8_is_byte ..].
  rewrite !(uint8_byte d1), !(uint8_byte d2) in E by assumption.
  apply (f_equal (Z.lxor (uint8 crc))) in E.
  rewrite <- !Z.lxor_assoc, Z.lxor_nilpotent, !Z.lxor_0_l in E. exact E.
Qed.

Lemma crc8_fold_injective (post : list Z) : forall c1 c2,
  is_byte c1 -> is_byte c2 ->
  fold_left Transport._crc8_ccitt_update post c1
  = fold_left Transport._crc8_ccitt_update post c2 ->
  c1 = c2.
Proof.
  induction post as [|d post IH]; intros c1 c2 H1 H2 E; [exact E|].
  cbn [fold_left] in E. apply IH in E; try apply crc8_update_is_byte.
  exact (crc8_update_injective_crc _ _ _ H1 H2 E).
Qed.

(** X2.  The CRC-8 tells apart any two byte sequences that differ in one
    byte only: a corruption confined to a single byte of a frame never
    goes unnoticed. *)
Theorem crc8_detects_single_byte (pre post : list Z) (a b : Z) :
  is_byte a -> is_byte b -> a <> b ->
  Transport.crc8 (pre ++ a :: post) <> Transport.crc8 (pre ++ b :: post).
Proof.
  intros Ha Hb Hab E. rewrite !crc8_app in E. cbn [fold_left] in E.
  apply crc8_fold_injective in E; try apply crc8_update_is_byte.
  apply crc8_update_injective_data in E; auto.
Qed.

Lemma crc8_detects_single_byte_witness :
  Transport.crc8 ([0x10] ++ 0x0B :: [0x19]) <> Transport.crc8 ([0x10] ++ 0x0A :: [0x19]).
Proof.
  apply (crc8_detects_single_byte [0x10] [0x19] 0x0B 0x0A);
    unfold is_byte; lia.
Defined.

(** X3.  The frame [writeRegister] sends holds bytes only: the register
    address and the data, each cut to eight bits, and with CRC enabled a
    third byte that is the CRC-8 of the write address and of the two bytes
    on the wire, so that the CRC-8 over the whole transfer is zero. *)
Theorem writeRegister_frame (I2CAddress address data : Z) :
  Transport.writeRegister false I2CAddress address data
  = [address mod 256; data mod 256] /\
  Transport.writeRegister true I2CAddress address data
  = [address mod 256; data mod 256;
     Transport.crc8 [Z.shiftl I2CAddress 1 mod 256; address mod 256; data mod 256]] /\
  Transport.crc8 (Z.shiftl I2CAddress 1 mod 256
                  :: Transport.writeRegister true I2CAddress address data) = 0.
Proof.
  assert (E : Transport.writeRegister true I2CAddress address data
    = [address mod 256; data mod 256;
       Transport.crc8 [Z.shiftl I2CAddress 1 mod 256; address mod 256; data mod 256]]).
  { unfold Transport.writeRegister, Transport.crc8. cbn [fold_left].
    rewrite Z.lor_0_r.
    fold (uint8 (Z.shiftl I2CAddress 1)). fold (uint8 address). fold (uint8 data).
    rewrite !crc8_update_uint8.
    rewrite (uint8_byte (Transport._crc8_ccitt_update _ data))
      by apply crc8_update_is_byte.
    reflexivity. }
  split; [reflexivity|]. split; [exact E|].
  rewrite E.
  change (Z.shiftl I2CAddress 1 mod 256 :: [address mod 256; data mod 256;
     Transport.crc8 [Z.shiftl I2CAddress 1 mod 256; address mod 256; data mod 256]])
    with ([Z.shiftl I2CAddress 1 mod 256; address mod 256; data mod 256]
          ++ [Transport.crc8 [Z.shiftl I2CAddress 1 mod 256; address mod 256; data mod 256]]).
  rewrite crc8_snoc. apply crc8_update_same.
Qed.

Lemma crc_input_snoc (I2CAddress : Z) (seen : list (Z * Z)) (f : Z * Z) :
  Transport.crc8 (crc_input I2CAddress (seen ++ [f]))
  = Transport._crc8_ccitt_update
      (Transport._crc8_ccitt_update (Transport.crc8 (crc_input I2CAddress seen))
         (Z.lor (Z.shiftl I2CAddress 1) 1))
      (fst f).
Proof.
  unfold crc_input. rewrite flat_map_app. cbn [flat_map].
  rewrite app_nil_r.
  change [Z.lor (Z.shiftl I2CAddress 1) 1; fst f]
    with ([Z.lor (Z.shiftl I2CAddress 1) 1] ++ [fst f]).
  rewrite app_assoc, !crc8_snoc. reflexivity.
Qed.

Lemma do_while_first_match (I2CAddress : Z) (rx : list (Z * Z)) : forall seen data,
  Transport.do_while (Transport.readRegister_body I2CAddress)
    (Transport.crc8 (crc_input I2CAddress seen)) rx = Some data <->
  exists before crcSlave after,
    rx = before ++ (data, crcSlave) :: after /\
    chained_match I2CAddress (seen ++ before) (data, crcSlave) /\
    forall p g q, before = p ++ g :: q -> ~ chained_match I2CAddress (seen ++ p) g.
Proof.
  induction rx as [|[d c] rx IH]; intros seen data.
  - split; [discriminate|]. intros (before & c & after & E & _).
    now destruct before.
  - cbn [Transport.do_while]. unfold Transport.readRegister_body at 1.
    cbn [fst snd].
    pose proof (crc_input_snoc I2CAddress seen (d, c)) as Hs. cbn [fst] in Hs.
    rewrite <- Hs. clear Hs.
    destruct (Z.eqb_spec (Transport.crc8 (crc_input I2CAddress (seen ++ [(d, c)]))) c)
      as [E|E]; cbn [negb].
    + split.
      * intros [= <-]. exists [], c, rx. split; [reflexivity|]. split.
        -- unfold chained_match. cbn [snd]. now rewrite app_nil_r.
        -- intros p g q Hp. now destruct p.
      * intros (before & c' & after & Hrx & Hm & Hno).
        destruct before as [|g before].
        -- cbn in Hrx. now injection Hrx as -> _ _.
        -- cbn in Hrx. injection Hrx as <- _.
           exfalso. apply (Hno [] (d, c) before eq_refl).
           unfold chained_match. cbn [snd]. now rewrite app_nil_r.
    + rewrite IH. split.
      * intros (before & c' & after & -> & Hm & Hno).
        exists ((d, c) :: before), c', after. split; [reflexivity|]. split.
        -- now rewrite <- app_assoc in Hm.
        -- intros p g q Hp. destruct p as [|g' p].
           ++ cbn in Hp. injection Hp as <- _. rewrite app_nil_r.
              unfold chained_match. cbn [snd]. congruence.
           ++ cbn in Hp. injection Hp as <- Hp.
              specialize (Hno p g q Hp). now rewrite <- app_assoc in Hno.
      * intros (before & c' & after & Hrx & Hm & Hno).
        destruct before as [|g before].
        -- cbn in Hrx. injection Hrx as <- <- _. exfalso. apply E.
           unfold chained_match in Hm. cbn [snd] in Hm.
           rewrite app_nil_r in Hm. congruence.
        -- cbn in Hrx. injection Hrx as <- ->.
           exists before, c', after. split; [reflexivity|]. split.
           ++ now rewrite <- app_assoc.
           ++ intros p g q Hp. rewrite <- app_assoc.
              apply (Hno ((d, c) :: p) g q). now rewrite Hp.
Qed.

Lemma do_while_no_match (I2CAddress : Z) (rx : list (Z * Z)) : forall seen,
  Transport.do_while (Transport.readRegister_body I2CAddress)
    (Transport.crc8 (crc_input I2CAddress seen)) rx = None <->
  forall p g q, rx = p ++ g :: q -> ~ chained_match I2CAddress (seen ++ p) g.
Proof.
  induction rx as [|[d c] rx IH]; intros seen.
  - split; [|reflexivity]. intros _ p g q Hp. now destruct p.
  - cbn [Transport.do_while]. unfold Transport.readRegister_body at 1.
    cbn [fst snd].
    pose proof (crc_input_snoc I2CAddress seen (d, c)) as Hs. cbn [fst] in Hs.
    rewrite <- Hs. clear Hs.
    destruct (Z.eqb_spec (Transport.crc8 (crc_input I2CAddress (seen ++ [(d, c)]))) c)
      as [E|E]; cbn [negb].
    + split; [discriminate|]. intros Hno. exfalso.
      apply (Hno [] (d, c) rx eq_refl).
      unfold chained_match. cbn [snd]. now rewrite app_nil_r.
    + rewrite IH. split.
      * intros Hno p g q Hp. destruct p as [|g' p].
        -- cbn in Hp. injection Hp as <- _. rewrite app_nil_r.
           unfold chained_match. cbn [snd]. congruence.
        -- cbn in Hp. injection Hp as <- Hp.
           specialize (Hno p g q Hp). now rewrite <- app_assoc in Hno.
      * intros Hno p g q Hp. rewrite <- app_assoc.
        apply (Hno ((d, c) :: p) g q). now rewrite Hp.
Qed.

(** X4.  With CRC enabled, [readRegister] returns a data byte exactly when
    it belongs to the first answer whose CRC byte equals the CRC-8 of all
    the bytes fed to [_crc8_ccitt_update] since the call began (the read
    address and the data byte of that answer and of every answer before
    it); it returns nothing while no answer is such a match. *)
Theorem readRegister_first_chained_match (I2CAddress : Z) (rx : list (Z * Z)) :
  (forall data,
     Transport.readRegister I2CAddress rx = Some data <->
     exists before crcSlave after,
       rx = before ++ (data, crcSlave) :: after /\
       chained_match I2CAddress before (data, crcSlave) /\
       no_chained_match I2CAddress before) /\
  (Transport.readRegister I2CAddress rx = None <->
   no_chained_match I2CAddress rx).
Proof.
  split.
  - intros data. apply (do_while_first_match I2CAddress rx [] data).
  - apply (do_while_no_match I2CAddress rx []).
Qed.

(** ** The debug helper *)

Lemma land_byte_mask (x z : Z) :
  is_byte z -> Z.land x z = Z.land (x mod 256) z.
Proof.
  intros Hz. change 256 with (2 ^ 8). rewrite <- Z.land_ones by lia.
  rewrite <- Z.land_assoc, (Z.land_comm (Z.ones 8)), Z.land_ones by lia.
  unfold is_byte in Hz. now rewrite (Z.mod_small z) by (cbn; lia).
Qed.

Lemma byte2char_loop_low_bits (x : Z) (rounds : nat) : forall z b,
  is_byte z ->
  byte2char_loop rounds z x b = byte2char_loop rounds z (x mod 256) b.
Proof.
  induction rounds as [|rounds IH]; intros z b Hz; [reflexivity|].
  cbn [byte2char_loop]. rewrite <- (land_byte_mask x z Hz).
  destruct (0 <? z); [|reflexivity].
  apply IH. unfold is_byte in *. rewrite Z.shiftr_div_pow2 by lia.
  change (2 ^ 1) with 2. split; [apply Z.div_pos; lia|].
  apply Z.div_lt_upper_bound; lia.
Qed.

Lemma byte2char_low_bits (x : Z) : byte2char x = byte2char (x mod 256).
Proof. apply byte2char_loop_low_bits. unfold is_byte. lia. Qed.

(** X5.  [byte2char] writes eight binary digits, most significant first,
    and they spell the low eight bits of its argument: read back as a
    binary number the string gives [x mod 256], for every [x]. *)
Theorem byte2char_round_trip (x : Z) :
  length (byte2char x) = 8%nat /\ binary (byte2char x) = x mod 256.
Proof.
  rewrite byte2char_low_bits.
  assert (Hb : is_byte (x mod 256)) by apply uint8_is_byte.
  assert (C : forallb
            (fun y => (Nat.eqb (length (byte2char y)) 8) && (binary (byte2char y) =? y))
            all_bytes = true) by (vm_compute; reflexivity).
  assert (H := byte_cases _ C _ Hb). cbv beta in H.
  apply andb_prop in H as [H1 H2].
  apply Nat.eqb_eq in H1. apply Z.eqb_eq in H2. now split.
Qed.

(** ** Frames *)

Lemma bind_Ok {A C : Type} (m : M A) (k : A -> M C) (s s' : bq769x0) (c : C) :
  bind m k s = Ok c s' -> exists a s1, m s = Ok a s1 /\ k a s1 = Ok c s'.
Proof.
  unfold bind. destruct (m s) as [a s1|f]; [|discriminate].
  intros H. now exists a, s1.
Qed.

Section Keeps.

Variable R : bq769x0 -> bq769x0 -> Prop.
Hypothesis R_refl : forall s, R s s.
Hypothesis R_trans : forall s1 s2 s3, R s1 s2 -> R s2 s3 -> R s1 s3.

Lemma keeps_ret {A : Type} (a : A) : keeps R (ret a).
Proof. intros s a' s' [= _ <-]. apply R_refl. Qed.

Lemma keeps_get {A : Type} (field : bq769x0 -> A) : keeps R (get field).
Proof. intros s a' s' [= _ <-]. apply R_refl. Qed.

Lemma keeps_readRegister (address : register) : keeps R (readRegister address).
Proof. intros s a' s' [= _ <-]. apply R_refl. Qed.

Lemma keeps_read_ms : keeps R read_ms.
Proof. apply keeps_get. Qed.

Lemma keeps_long_mul (x y : Z) : keeps R (long_mul x y).
Proof.
  intros s a s'. unfold long_mul. destruct (in_long (x * y)); [|discriminate].
  intros [= _ <-]. apply R_refl.
Qed.

Lemma keeps_cellVoltages_at (i : Z) : keeps R (cellVoltages_at i).
Proof.
  intros s a s'. unfold cellVoltages_at.
  destruct (if 0 <=? i then cellVoltages s !! Z.to_nat i else None);
    [|discriminate].
  intros [= _ <-]. apply R_refl.
Qed.

Lemma keeps_bind {A C : Type} (m : M A) (k : A -> M C) :
  keeps R m -> (forall a, keeps R (k a)) -> keeps R (bind m k).
Proof.
  intros Hm Hk s c s' H. apply bind_Ok in H as (a & s1 & H1 & H2).
  exact (R_trans _ _ _ (Hm _ _ _ H1) (Hk a _ _ _ H2)).
Qed.

Lemma keeps_when (b : bool) (m : M unit) :
  (b = true -> keeps R m) -> keeps R (when b m).
Proof.
  destruct b; cbn [when]; intros H; [now apply H|apply keeps_ret].
Qed.

Lemma keeps_if {A : Type} (b : bool) (m1 m2 : M A) :
  (b = true -> keeps R m1) -> (b = false -> keeps R m2) ->
  keeps R (if b then m1 else m2).
Proof. destruct b; intros H1 H2; [now apply H1|now apply H2]. Qed.

Lemma keeps_for (n : nat) (body : Z -> M unit) : forall from,
  (forall i, keeps R (body i)) -> keeps R (for_ n from body).
Proof.
  induction n as [|n IH]; intros from Hb; cbn [for_].
  - apply keeps_ret.
  - apply keeps_bind; [apply Hb|]. intros _. now apply IH.
Qed.

Lemma keeps_for_acc {A : Type} (n : nat) (body : Z -> A -> M A) :
  forall from acc,
  (forall i a, keeps R (body i a)) -> keeps R (for_acc n from body acc).
Proof.
  induction n as [|n IH]; intros from acc Hb; cbn [for_acc].
  - apply keeps_ret.
  - apply keeps_bind; [apply Hb|]. intros acc'. now apply IH.
Qed.

Lemma keeps_modify (f : bq769x0 -> bq769x0) :
  (forall s, R s (f s)) -> keeps R (modify f).
Proof. intros H s a s' [= _ <-]. apply H. Qed.

Lemma keeps_cellVoltages_store (i v : Z) :
  (forall s l, length l = length (cellVoltages s) -> R s (set_cellVoltages l s)) ->
  keeps R (cellVoltages_store i v).
Proof.
  intros H s a s'. unfold cellVoltages_store.
  destruct ((0 <=? i) && (i <? Z.of_nat (length (cellVoltages s))));
    [|discriminate].
  intros [= _ <-]. apply H. apply length_insert.
Qed.

End Keeps.

(** Takes a goal [keeps R m] apart along the structure of [m]; what is
    left are the assignments and register writes. *)
Ltac keeps_step refl trans :=
  lazymatch goal with
  | |- keeps _ (bind _ _) => apply (keeps_bind _ trans); [|intros ?]
  | |- keeps _ (ret _) => apply (keeps_ret _ refl)
  | |- keeps _ (get _) => apply (keeps_get _ refl)
  | |- keeps _ read_ms => apply (keeps_read_ms _ refl)
  | |- keeps _ (readRegister _) => apply (keeps_readRegister _ refl)
  | |- keeps _ (long_mul _ _) => apply (keeps_long_mul _ refl)
  | |- keeps _ (cellVoltages_at _) => apply (keeps_cellVoltages_at _ refl)
  | |- keeps _ (when _ _) => apply (keeps_when _ refl); intros ?
  | |- keeps _ (if _ then _ else _) => apply keeps_if; intros ?
  | |- keeps _ (for_ _ _ _) => apply (keeps_for _ refl trans); intros ?
  | |- keeps _ (for_acc _ _ _ _) => apply (keeps_for_acc _ refl trans); intros ? ?
  | |- keeps _ (modify _) => apply keeps_modify; intros ?
  | |- keeps _ (cellVoltages_store _ _) => apply keeps_cellVoltages_store; intros ? ? ?
  end.

Ltac keeps_all refl trans := cbv zeta; repeat (keeps_step refl trans; cbv zeta).

Lemma same_but_voltages_refl (s : bq769x0) : same_but_voltages s s.
Proof. unfold same_but_voltages. repeat split. Qed.

Lemma same_but_voltages_trans (s1 s2 s3 : bq769x0) :
  same_but_voltages s1 s2 -> same_but_voltages s2 s3 -> same_but_voltages s1 s3.
Proof. unfold same_but_voltages. intuition congruence. Qed.

Lemma updateVoltages_keeps : keeps same_but_voltages updateVoltages.
Proof.
  unfold updateVoltages, updateVoltages_cell.
  keeps_all same_but_voltages_refl same_but_voltages_trans;
    unfold same_but_voltages; cbn; repeat split; assumption.
Qed.

Lemma updateVoltages_frame_bus (s s' : bq769x0) :
  updateVoltages s = Ok tt s' -> _i2c s' = _i2c s.
Proof. intros H. now apply updateVoltages_keeps in H as [E _]. Qed.

(** X6.  [updateVoltages] issues no register write and changes nothing but
    the pack voltage, the stored cell voltages and the indices of the
    highest and lowest cell; the number of stored cell voltages stays. *)
Theorem updateVoltages_frame (s s' : bq769x0) :
  updateVoltages s = Ok tt s' -> same_but_voltages s s'.
Proof. apply updateVoltages_keeps. Qed.

Lemma updateVoltages_frame_witness :
  exists s', updateVoltages dead_first_cell = Ok tt s' /\
             same_but_voltages dead_first_cell s'.
Proof.
  eexists. split; [vm_compute; reflexivity|].
  apply updateVoltages_frame. vm_compute. reflexivity.
Defined.

(** *** Register writes *)

Lemma writes_only_refl (P : register * Z -> Prop) (s : bq769x0) :
  writes_only P s s.
Proof. exists []. split; [reflexivity|constructor]. Qed.

Lemma writes_only_trans (P : register * Z -> Prop) (s1 s2 s3 : bq769x0) :
  writes_only P s1 s2 -> writes_only P s2 s3 -> writes_only P s1 s3.
Proof.
  intros (l1 & E1 & F1) (l2 & E2 & F2). exists (l2 ++ l1). split.
  - now rewrite E2, E1, app_assoc.
  - apply Forall_app. now split.
Qed.

Lemma writes_only_same_bus (P : register * Z -> Prop) (s s' : bq769x0) :
  _i2c s' = _i2c s -> writes_only P s s'.
Proof. intros E. exists []. split; [now rewrite E|constructor]. Qed.

Lemma writeRegister_writes_only (P : register * Z -> Prop)
    (address : register) (data : Z) :
  P (address, data) -> keeps (writes_only P) (writeRegister address data).
Proof.
  intros HP s a s' [= _ <-]. exists [(address, data)]. split; [reflexivity|].
  now constructor.
Qed.

Lemma updateVoltages_writes_only (P : register * Z -> Prop) :
  keeps (writes_only P) updateVoltages.
Proof.
  intros s a s' H. apply writes_only_same_bus.
  destruct a. now apply updateVoltages_frame_bus in H.
Qed.

(** ** The fault state machine *)

Lemma testbit_7_shown (sys_stat : Z) :
  Z.testbit sys_stat 7 = true -> Z.land sys_stat 0x80 <> 0.
Proof.
  intros H E. apply (f_equal (fun z => Z.testbit z 7)) in E.
  rewrite Z.land_spec, H in E. discriminate.
Qed.

(** Closes a goal [clears_shown_flag sys_stat (SYS_STAT, mask)] from the
    guard under which the write stands. *)
Ltac shown_flag :=
  split; [reflexivity|]; split;
  [ apply list_elem_of_In; cbn; tauto
  | cbn [snd];
    first
      [ apply testbit_7_shown; assumption
      | match goal with
        | H : negb (Z.land ?st ?m =? 0) = true |- Z.land ?st ?m <> 0 =>
            destruct (Z.eqb_spec (Z.land st m) 0); [discriminate H|assumption]
        end ] ].

Lemma updateCurrent_writes_only (sys_stat : Z) :
  Z.testbit sys_stat 7 = true ->
  keeps (writes_only (clears_shown_flag sys_stat)) updateCurrent.
Proof.
  intros H7. unfold updateCurrent.
  keeps_all (writes_only_refl (clears_shown_flag sys_stat))
            (writes_only_trans (clears_shown_flag sys_stat));
    try (apply writes_only_same_bus; reflexivity).
  apply writeRegister_writes_only. shown_flag.
Qed.

Lemma get_Ok {A : Type} (field : bq769x0 -> A) (s s' : bq769x0) (a : A) :
  get field s = Ok a s' -> a = field s /\ s' = s.
Proof. now intros [= <- <-]. Qed.

(** The two ways through [checkStatus]: the quick return, or the body run
    on the status byte read from the chip. *)
Lemma checkStatus_Ok (s s' : bq769x0) (status : Z) :
  checkStatus s = Ok status s' ->
  (negb (alertInterruptFlag s) && (errorStatus s =? 0) = true
   /\ status = 0 /\ s' = s) \/
  (negb (alertInterruptFlag s) && (errorStatus s =? 0) = false /\
   let sys_stat := chip (_i2c s) SYS_STAT in
   (when (Z.testbit sys_stat 7) updateCurrent ;;
    (if negb (Z.land sys_stat 0x3F =? 0) then
       flag <- get alertInterruptFlag ;;
       when flag (modify (set_secSinceErrorCounter 0)) ;;
       modify (set_errorStatus sys_stat) ;;
       now <- read_ms ;;
       stamp <- get interruptTimestamp ;;
       let secSinceInterrupt := uint32 (now - stamp) / 1000 in
       counter <- get secSinceErrorCounter ;;
       when (2 <? Z.abs (to_long (secSinceInterrupt - counter)))
            (modify (set_secSinceErrorCounter secSinceInterrupt)) ;;
       counter <- get secSinceErrorCounter ;;
       when (counter <=? secSinceInterrupt) (
         clear_periodically sys_stat 0x20 3 ;;
         clear_periodically sys_stat 0x10 10 ;;
         when (negb (Z.land sys_stat 0x08 =? 0)) (
           updateVoltages ;;
           idMin <- get idCellMinVoltage ;;
           vmin <- cellVoltages_at idMin ;;
           limit <- get minCellVoltage ;;
           when (limit <? vmin) (writeRegister SYS_STAT 0x08)) ;;
         when (negb (Z.land sys_stat 0x04 =? 0)) (
           updateVoltages ;;
           idMax <- get idCellMaxVoltage ;;
           vmax <- cellVoltages_at idMax ;;
           limit <- get maxCellVoltage ;;
           when (vmax <? limit) (writeRegister SYS_STAT 0x04)) ;;
         clear_periodically sys_stat 0x02 60 ;;
         clear_periodically sys_stat 0x01 60 ;;
         counter <- get secSinceErrorCounter ;;
         modify (set_secSinceErrorCounter (uint32 (counter + 1))))
     else
       modify (set_errorStatus 0)) ;;
    get errorStatus) s = Ok status s').
Proof.
  unfold checkStatus. intros H.
  apply bind_Ok in H as (flag & s1 & H1 & H). apply get_Ok in H1 as [-> ->].
  apply bind_Ok in H as (st & s1 & H1 & H). apply get_Ok in H1 as [-> ->].
  destruct (negb (alertInterruptFlag s) && (errorStatus s =? 0)).
  - left. now injection H as <- <-.
  - right. split; [reflexivity|].
    apply bind_Ok in H as (sys_stat & s1 & H1 & H).
    injection H1 as <- <-. exact H.
Qed.

Lemma checkStatus_writes (s s' : bq769x0) (status : Z) :
  checkStatus s = Ok status s' ->
  writes_only (clears_shown_flag (chip (_i2c s) SYS_STAT)) s s'.
Proof.
  intros H. apply checkStatus_Ok in H as [[_ [_ ->]]|[_ H]].
  - apply writes_only_refl.
  - cbv zeta in H. set (sys_stat := chip (_i2c s) SYS_STAT) in *.
    match type of H with
    | ?m s = _ =>
        assert (K : keeps (writes_only (clears_shown_flag sys_stat)) m)
    end.
    2:{ exact (K _ _ _ H). }
    unfold clear_periodically.
    keeps_all (writes_only_refl (clears_shown_flag sys_stat))
              (writes_only_trans (clears_shown_flag sys_stat));
      try (apply writes_only_same_bus; reflexivity);
      try apply updateVoltages_writes_only;
      try (apply updateCurrent_writes_only; assumption);
      try (apply writeRegister_writes_only; shown_flag).
Qed.

(** X7.  Whatever [checkStatus] writes, it writes to [SYS_STAT], and each
    write clears one flag that the status byte it has read shows: the
    CC_READY flag or a fault flag.  It never writes to another register and
    never clears a flag that is not up. *)
Theorem checkStatus_clears_only_shown_flags (s s' : bq769x0) (status : Z) :
  checkStatus s = Ok status s' ->
  writes_only (clears_shown_flag (chip (_i2c s) SYS_STAT)) s s'.
Proof. apply checkStatus_writes. Qed.

Lemma checkStatus_clears_only_shown_flags_witness :
  exists s',
    checkStatus (set_alertInterruptFlag true scd_chip) = Ok 0x02 s' /\
    writes_only
      (clears_shown_flag (chip (_i2c (set_alertInterruptFlag true scd_chip)) SYS_STAT))
      (set_alertInterruptFlag true scd_chip) s'.
Proof.
  eexists. split; [vm_compute; reflexivity|].
  apply (checkStatus_clears_only_shown_flags _ _ 0x02). vm_compute. reflexivity.
Defined.

Lemma modify_Ok (f : bq769x0 -> bq769x0) (s s' : bq769x0) (u : unit) :
  modify f s = Ok u s' -> s' = f s.
Proof. now intros [= <-]. Qed.

Lemma when_modify_Ok (b : bool) (f : bq769x0 -> bq769x0) (s s' : bq769x0) (u : unit) :
  when b (modify f) s = Ok u s' -> s' = if b then f s else s.
Proof. rewrite when_modify. now intros [= <-]. Qed.

Lemma checkStatus_value (s s' : bq769x0) (status : Z) :
  checkStatus s = Ok status s' ->
  status = errorStatus s' /\
  (alertInterruptFlag s = false /\ errorStatus s = 0 -> status = 0 /\ s' = s) /\
  (alertInterruptFlag s = true \/ errorStatus s <> 0 ->
   status = if Z.land (chip (_i2c s) SYS_STAT) 0x3F =? 0 then 0
            else chip (_i2c s) SYS_STAT).
Proof.
  intros H. apply checkStatus_Ok in H as [(Hq & -> & ->)|[Hq H]].
  - apply andb_prop in Hq as [Hf He]. apply Z.eqb_eq in He.
    apply negb_true_iff in Hf. split; [now rewrite He|]. split; [easy|].
    intros [Hf'|He']; congruence.
  - assert (Hslow : alertInterruptFlag s = true \/ errorStatus s <> 0).
    { apply andb_false_iff in Hq as [Hf|He].
      - left. now apply negb_false_iff in Hf.
      - right. now apply Z.eqb_neq in He. }
    cbv zeta in H. set (sys_stat := chip (_i2c s) SYS_STAT) in *.
    apply bind_Ok in H as (u1 & s1 & _ & H).
    apply bind_Ok in H as (u2 & s2 & H2 & H).
    apply get_Ok in H as [-> ->].
    assert (E : errorStatus s2 = if Z.land sys_stat 0x3F =? 0 then 0 else sys_stat).
    { destruct (Z.land sys_stat 0x3F =? 0); cbn [negb] in H2.
      - apply modify_Ok in H2. now subst s2.
      - apply bind_Ok in H2 as (flag & s3 & H3 & H2). apply get_Ok in H3 as [-> ->].
        apply bind_Ok in H2 as (u3 & s3 & _ & H2).
        apply bind_Ok in H2 as (u4 & s4 & H4 & H2).
        apply modify_Ok in H4.
        match type of H2 with
        | ?m s4 = _ =>
            assert (K : keeps (fun t t' => errorStatus t' = errorStatus t) m)
        end.
        { unfold clear_periodically, writeRegister.
          keeps_all (fun t => @eq_refl Z (errorStatus t))
                    (fun t1 t2 t3 (E1 : errorStatus t2 = errorStatus t1)
                         (E2 : errorStatus t3 = errorStatus t2) =>
                       eq_trans E2 E1);
            try reflexivity.
          all: intros t [] t' Hu; apply updateVoltages_keeps in Hu; apply Hu. }
        rewrite (K _ _ _ H2), H4. reflexivity. }
    split; [reflexivity|]. split; [|intros _; exact E].
    intros [Hf He]. destruct Hslow; congruence.
Qed.

(** X8.  The value [checkStatus] returns is the value it leaves in
    [errorStatus].  With no alert pending and no fault recorded it is 0 and
    nothing has changed; otherwise it is the status byte just read from the
    chip if that byte shows a fault flag, and 0 if it does not. *)
Theorem checkStatus_reports (s s' : bq769x0) (status : Z) :
  checkStatus s = Ok status s' ->
  status = errorStatus s' /\
  (alertInterruptFlag s = false /\ errorStatus s = 0 -> status = 0 /\ s' = s) /\
  (alertInterruptFlag s = true \/ errorStatus s <> 0 ->
   status = if Z.land (chip (_i2c s) SYS_STAT) 0x3F =? 0 then 0
            else chip (_i2c s) SYS_STAT).
Proof. apply checkStatus_value. Qed.

Lemma checkStatus_reports_witness :
  exists s',
    checkStatus (set_alertInterruptFlag true scd_chip) = Ok 0x02 s' /\
    0x02 = errorStatus s' /\
    (alertInterruptFlag (set_alertInterruptFlag true scd_chip) = false /\
     errorStatus (set_alertInterruptFlag true scd_chip) = 0 ->
     0x02 = 0 /\ s' = set_alertInterruptFlag true scd_chip) /\
    (alertInterruptFlag (set_alertInterruptFlag true scd_chip) = true \/
     errorStatus (set_alertInterruptFlag true scd_chip) <> 0 ->
     0x02 = if Z.land (chip (_i2c (set_alertInterruptFlag true scd_chip)) SYS_STAT) 0x3F
               =? 0
            then 0
            else chip (_i2c (set_alertInterruptFlag true scd_chip)) SYS_STAT).
Proof.
  eexists. split; [vm_compute; reflexivity|].
  apply (checkStatus_reports _ _ 0x02). vm_compute. reflexivity.
Defined.

(** ** Current measurement *)

Lemma updateCurrent_run (s : bq769x0) :
  (Z.testbit (chip (_i2c s) SYS_STAT) 7 = false -> updateCurrent s = Ok tt s) /\
  (Z.testbit (chip (_i2c s) SYS_STAT) 7 = true ->
   exists s',
     updateCurrent s = Ok tt s' /\
     written (_i2c s') = (SYS_STAT, 0x80) :: written (_i2c s) /\
     coulombCounter s' = coulombCounter s + Z.quot (current_reading s) 4 /\
     batCurrent s' = (if Z.abs (current_reading s) <? 10 then 0
                      else current_reading s) /\
     idleTimestamp s' = (if idleCurrentThreshold s <? Z.abs (batCurrent s')
                         then _timer s else idleTimestamp s) /\
     alertInterruptFlag s' = (if Z.land (chip (_i2c s) SYS_STAT) 0x3F =? 0
                              then false else alertInterruptFlag s) /\
     errorStatus s' = errorStatus s /\ cellVoltages s' = cellVoltages s).
Proof.
  unfold updateCurrent. run. split; intros H7; rewrite H7; cbn [when].
  - reflexivity.
  - run. unfold modify at 1 2. cbn beta iota.
    fold (current_reading s).
    rewrite !when_modify. cbn beta iota.
    cbn [batCurrent coulombCounter set_batCurrent set_coulombCounter].
    replace ((-10 <? current_reading s) && (current_reading s <? 10))
      with (Z.abs (current_reading s) <? 10) by lia.
    eexists. split; [reflexivity|].
    destruct (Z.abs (current_reading s) <? 10) eqn:Ed;
      cbn [batCurrent idleCurrentThreshold _timer set_batCurrent set_coulombCounter];
      destruct (Z.land (chip (_i2c s) SYS_STAT) 63 =? 0);
      match goal with
      | |- context [if ?c <? ?d then set_idleTimestamp _ _ else _] =>
          destruct (c <? d) eqn:Ei
      end;
      repeat split; cbn; rewrite ?Ei; reflexivity.
Qed.



Example updateCurrent_example :
  exists s',
    updateCurrent current_ready = Ok tt s' /\
    batCurrent s' = 8440 /\ coulombCounter s' = 2110 /\
    alertInterruptFlag s' = false /\
    written (_i2c s') = [(SYS_STAT, 0x80)].
Proof. eexists. split; [vm_compute; reflexivity|]. now vm_compute. Qed.

(** ** Balancing *)

(** [updateBalancingSwitches] is the evaluation of the condition followed
    by one of its two branches. *)
Lemma updateBalancingSwitches_by_gate (s : bq769x0) :
  updateBalancingSwitches s
  = (allowed <- balancing_gate ;;
     if allowed then
       modify (set_balancingStatus 0) ;;
       for_ (Z.to_nat (Z.quot (numberOfCells s) 5)) 0 balancing_section
     else
       status <- get balancingStatus ;;
       when (0 <? status) (
         for_ (Z.to_nat (Z.quot (numberOfCells s) 5)) 0
              (fun section => writeRegister (CELLBAL1_plus section) 0x0) ;;
         modify (set_balancingStatus 0))) s.
Proof.
  unfold updateBalancingSwitches, balancing_gate.
  unfold bind, read_ms, get. cbn beta iota.
  destruct (Z.quot (_timer s - idleTimestamp s) 1000 <? 0); reflexivity.
Qed.

(** The loop that clears the balancing registers. *)
Lemma clear_loop (n : nat) : forall (from : Z) (s : bq769x0),
  exists s',
    for_ n from (fun section => writeRegister (CELLBAL1_plus section) 0x0) s
    = Ok tt s' /\
    written (_i2c s') = section_writes from (replicate n 0) ++ written (_i2c s) /\
    balancingStatus s' = balancingStatus s /\ cellVoltages s' = cellVoltages s.
Proof.
  induction n as [|n IH]; intros from s; cbn [for_ replicate section_writes].
  - exists s. repeat split.
  - unfold bind at 1. unfold writeRegister at 1, modify at 1. cbn beta iota.
    destruct (IH (from + 1) (set_i2c
      {| chip := chip (_i2c s); burst := burst (_i2c s);
         written := (CELLBAL1_plus from, 0) :: written (_i2c s) |} s))
      as (s' & E & Hw & Hb & Hc).
    exists s'. split; [exact E|]. split; [|now split].
    rewrite Hw. cbn [_i2c set_i2c written]. now rewrite <- app_assoc.
Qed.

Lemma updateBalancingSwitches_refused_run (s s1 : bq769x0) :
  balancing_gate s = Ok false s1 ->
  exists s',
    updateBalancingSwitches s = Ok tt s' /\
    written (_i2c s')
    = (if 0 <? balancingStatus s1
       then section_writes 0 (replicate (Z.to_nat (Z.quot (numberOfCells s) 5)) 0)
       else []) ++ written (_i2c s1) /\
    balancingStatus s' = Z.min 0 (balancingStatus s1) /\
    cellVoltages s' = cellVoltages s1.
Proof.
  intros Hgate. rewrite updateBalancingSwitches_by_gate.
  unfold bind at 1. rewrite Hgate. unfold bind at 1, get at 1. cbn beta iota.
  destruct (Z.ltb_spec 0 (balancingStatus s1)) as [Hb|Hb]; cbn [when].
  - destruct (clear_loop (Z.to_nat (Z.quot (numberOfCells s) 5)) 0 s1)
      as (s2 & E & Hw & _ & Hc).
    unfold bind at 1. rewrite E. unfold modify.
    eexists. split; [reflexivity|]. cbn. split; [exact Hw|]. split; [lia|exact Hc].
  - exists s1. split; [reflexivity|]. split; [reflexivity|]. split; [lia|reflexivity].
Qed.

(** X10.  When [updateBalancingSwitches] finds balancing not allowed, it
    switches all balancing off: if [balancingStatus] was positive it writes
    0 to the balancing register of every section and sets
    [balancingStatus] to 0, otherwise it writes nothing.  [s1] is the
    device as the evaluation of the condition leaves it. *)
Theorem updateBalancingSwitches_refused (s s1 : bq769x0) :
  balancing_gate s = Ok false s1 ->
  exists s',
    updateBalancingSwitches s = Ok tt s' /\
    written (_i2c s')
    = (if 0 <? balancingStatus s1
       then section_writes 0 (replicate (Z.to_nat (Z.quot (numberOfCells s) 5)) 0)
       else []) ++ written (_i2c s1) /\
    balancingStatus s' = Z.min 0 (balancingStatus s1) /\
    cellVoltages s' = cellVoltages s1.
Proof. apply updateBalancingSwitches_refused_run. Qed.

Lemma updateBalancingSwitches_refused_witness :
  exists s',
    updateBalancingSwitches (set_balancingStatus 10 idle_device) = Ok tt s' /\
    written (_i2c s')
    = (if 0 <? balancingStatus (set_balancingStatus 10 idle_device)
       then section_writes 0
              (replicate
                 (Z.to_nat (Z.quot (numberOfCells (set_balancingStatus 10 idle_device)) 5))
                 0)
       else []) ++ written (_i2c (set_balancingStatus 10 idle_device)) /\
    balancingStatus s' = Z.min 0 (balancingStatus (set_balancingStatus 10 idle_device)) /\
    cellVoltages s' = cellVoltages (set_balancingStatus 10 idle_device).
Proof.
  apply (updateBalancingSwitches_refused (set_balancingStatus 10 idle_device)
           (set_balancingStatus 10 idle_device)).
  vm_compute. reflexivity.
Defined.

Lemma section_writes_zero (n : nat) : forall from w,
  w ∈ section_writes from (replicate n 0) -> snd w = 0.
Proof.
  induction n as [|n IH]; intros from w; cbn [replicate section_writes].
  - intros H. now apply elem_of_nil in H.
  - rewrite elem_of_app. intros [H|H]; [now apply (IH (from + 1))|].
    apply list_elem_of_singleton in H. now subst w.
Qed.

(** The condition comes out false, with nothing touched, on a device with
    no alert pending and no fault recorded that has not been idle for
    [balancingMinIdleTime_s]. *)
Lemma balancing_gate_not_idle (s : bq769x0) :
  alertInterruptFlag s = false -> errorStatus s = 0 ->
  0 <= _timer s - idleTimestamp s < 1000 * balancingMinIdleTime_s s ->
  balancing_gate s = Ok false s.
Proof.
  intros Hf He Ht. unfold balancing_gate, read_ms. run.
  assert (Hq : 0 <= Z.quot (_timer s - idleTimestamp s) 1000 < balancingMinIdleTime_s s).
  { rewrite Z.quot_div_nonneg by lia. split; [apply Z.div_pos; lia|].
    apply Z.div_lt_upper_bound; lia. }
  destruct (Z.ltb_spec (Z.quot (_timer s - idleTimestamp s) 1000) 0); [lia|].
  unfold ret. unfold balancing_allowed, checkStatus. run.
  rewrite Hf, He. cbn. unfold get. cbn beta iota.
  destruct (Z.leb_spec (balancingMinIdleTime_s s)
              (Z.quot (_timer s - idleTimestamp s) 1000)); [lia|].
  reflexivity.
Qed.

Lemma setBalancingThresholds_value (s : bq769x0)
    (idleTime_min absVoltage_mV voltageDifference_mV : Z) :
  in_long (idleTime_min * 60) = true ->
  setBalancingThresholds idleTime_min absVoltage_mV voltageDifference_mV s
  = Ok tt (set_balancingMaxVoltageDifference_mV voltageDifference_mV
             (set_balancingMinCellVoltage_mV absVoltage_mV
                (set_balancingMinIdleTime_s (idleTime_min * 60) s))).
Proof.
  intros Hl. unfold setBalancingThresholds, bind, long_mul, modify.
  now rewrite Hl.
Qed.

(** X11.  After [setBalancingThresholds (idleTime_min, ...)], on a device
    with no alert pending and no fault recorded, [updateBalancingSwitches]
    starts no balancing while less than [idleTime_min] minutes have passed
    since [idleTimestamp]: whatever it writes is 0, and [balancingStatus]
    is not positive afterwards. *)
Theorem balancing_waits_for_idle_time (s : bq769x0)
    (idleTime_min absVoltage_mV voltageDifference_mV : Z) :
  alertInterruptFlag s = false -> errorStatus s = 0 ->
  in_long (idleTime_min * 60) = true ->
  0 <= _timer s - idleTimestamp s < 60000 * idleTime_min ->
  exists s' l,
    (setBalancingThresholds idleTime_min absVoltage_mV voltageDifference_mV ;;
     updateBalancingSwitches) s = Ok tt s' /\
    written (_i2c s') = l ++ written (_i2c s) /\
    (forall w, w ∈ l -> snd w = 0) /\
    balancingStatus s' <= 0.
Proof.
  intros Hf He Hl Ht.
  unfold bind at 1.
  rewrite (setBalancingThresholds_value s _ _ _ Hl).
  set (t := set_balancingMaxVoltageDifference_mV _ _).
  destruct (updateBalancingSwitches_refused_run t t) as (s' & E & Hw & Hb & _).
  { apply balancing_gate_not_idle; unfold t; cbn; try assumption. lia. }
  exists s'. eexists. split; [exact E|]. split; [exact Hw|]. split; [|lia].
  intros w. destruct (0 <? balancingStatus t).
  - apply section_writes_zero.
  - intros H. now apply elem_of_nil in H.
Qed.

Lemma balancing_waits_for_idle_time_witness :
  exists s' l,
    (setBalancingThresholds 30 3300 20 ;; updateBalancingSwitches)
      (set_timer 1000000 (set_balancingStatus 10 idle_device)) = Ok tt s' /\
    written (_i2c s')
    = l ++ written (_i2c (set_timer 1000000 (set_balancingStatus 10 idle_device))) /\
    (forall w, w ∈ l -> snd w = 0) /\
    balancingStatus s' <= 0.
Proof.
  apply (balancing_waits_for_idle_time
           (set_timer 1000000 (set_balancingStatus 10 idle_device)) 30 3300 20).
  - reflexivity.
  - reflexivity.
  - reflexivity.
  - vm_compute. split; [discriminate|reflexivity].
Defined.

(** *** The inner loop, step by step *)

(** One step of the inner loop on flags below bit [i], for the five cells
    of a section: what the collision test amounts to, and what the new
    flag set is.  Checked on every case. *)
Lemma balancing_step_facts (i flags : Z) :
  0 <= i < 5 -> flags_below i flags ->
  let target := Z.lor flags (Z.shiftl 1 i) in
  let collision :=
    negb (Z.land (Z.shiftl target 1) flags =? 0)
    || negb (Z.land (Z.shiftl flags 1) target =? 0) in
  collision = Z.testbit flags (i - 1) /\
  flags_below (i + 1) flags /\
  (collision = false -> flags_below (i + 1) target) /\
  Z.testbit target i = true /\
  (forall j, 0 <= j < 5 -> Z.testbit flags j = true -> Z.testbit target j = true).
Proof.
  intros Hi [Hf Hn].
  assert (C : forallb (fun i => forallb (fun flags =>
            implb ((i <? 5) && (flags <? 2 ^ i)
                   && (Z.land flags (Z.shiftl flags 1) =? 0))
              (let target := Z.lor flags (Z.shiftl 1 i) in
               let collision :=
                 negb (Z.land (Z.shiftl target 1) flags =? 0)
                 || negb (Z.land (Z.shiftl flags 1) target =? 0) in
               Bool.eqb collision (Z.testbit flags (i - 1))
               && (flags <? 2 ^ (i + 1))
               && (collision
                   || (0 <=? target) && (target <? 2 ^ (i + 1))
                      && (Z.land target (Z.shiftl target 1) =? 0))
               && Z.testbit target i
               && forallb (fun j => implb (Z.testbit flags j) (Z.testbit target j))
                    [0; 1; 2; 3; 4]))
            all_bytes) all_bytes = true) by (vm_compute; reflexivity).
  assert (Hp : 2 ^ i <= 16).
  { change 16 with (2 ^ 4). apply Z.pow_le_mono_r; lia. }
  assert (H := byte_cases2 _ C i flags).
  cbv beta in H.
  assert (Hc : (i <? 5) && (flags <? 2 ^ i)
               && (Z.land flags (Z.shiftl flags 1) =? 0) = true).
  { rewrite Hn. cbn [Z.eqb]. rewrite andb_true_r.
    apply andb_true_intro. split; lia. }
  rewrite Hc in H. cbn [implb] in H. cbv zeta in *.
  specialize (H ltac:(unfold is_byte; lia) ltac:(unfold is_byte; lia)).
  apply andb_prop in H as [H H5]. apply andb_prop in H as [H H4].
  apply andb_prop in H as [H H3]. apply andb_prop in H as [H1 H2].
  apply eqb_prop in H1.
  split; [exact H1|]. split; [split; [lia|exact Hn]|]. split; [|split].
  - intros Hcoll. rewrite Hcoll in H3. cbn [orb] in H3.
    apply andb_prop in H3 as [H3 H3c]. apply andb_prop in H3 as [H3a H3b].
    split; [lia|]. now apply Z.eqb_eq in H3c.
  - exact H4.
  - intros j Hj Hbit. rewrite forallb_forall in H5.
    specialize (H5 j ltac:(cbn; lia)). now rewrite Hbit in H5.
Qed.

Lemma flags_below_fit (i flags : Z) :
  0 <= i <= 5 -> flags_below i flags -> no_adjacent flags /\ 0 <= flags < 32.
Proof.
  intros Hi [Hf Hn]. split.
  - intros j Hj [H1 H2].
    apply (f_equal (fun z => Z.testbit z (j + 1))) in Hn.
    rewrite Z.land_spec, testbit_shiftl_1, H1, H2, Z.bits_0 in Hn by lia.
    discriminate.
  - assert (2 ^ i <= 2 ^ 5) by (apply Z.pow_le_mono_r; lia).
    change (2 ^ 5) with 32 in *. lia.
Qed.

Lemma cellVoltages_at_value (s s' : bq769x0) (i v : Z) :
  cellVoltages_at i s = Ok v s' ->
  s' = s /\ 0 <= i /\ cellVoltages s !! Z.to_nat i = Some v.
Proof.
  unfold cellVoltages_at. destruct (Z.leb_spec 0 i); [|discriminate].
  destruct (cellVoltages s !! Z.to_nat i) as [v'|]; [|discriminate].
  intros [= <- <-]. now repeat split.
Qed.

(** The value of one round of the inner loop, when it returns. *)
Lemma balancing_cell_Ok (s s' : bq769x0) (section i flags flags' : Z) :
  balancing_cell section i flags s = Ok flags' s' ->
  s' = s /\
  exists v vmin,
    cellVoltages s !! Z.to_nat (section * 5 + i) = Some v /\
    0 <= section * 5 + i /\
    cellVoltages s !! Z.to_nat (idCellMinVoltage s) = Some vmin /\
    0 <= idCellMinVoltage s /\
    flags' =
      if balancingMaxVoltageDifference_mV s <? v - vmin then
        if negb (negb (Z.land (Z.shiftl (Z.lor flags (Z.shiftl 1 i)) 1) flags =? 0)
                 || negb (Z.land (Z.shiftl flags 1) (Z.lor flags (Z.shiftl 1 i)) =? 0))
        then Z.lor flags (Z.shiftl 1 i) else flags
      else flags.
Proof.
  unfold balancing_cell. intros H.
  apply bind_Ok in H as (v & s1 & H1 & H).
  apply cellVoltages_at_value in H1 as (-> & Hv0 & Hv).
  apply bind_Ok in H as (idMin & s1 & H1 & H). apply get_Ok in H1 as [-> ->].
  apply bind_Ok in H as (vmin & s1 & H1 & H).
  apply cellVoltages_at_value in H1 as (-> & Hm0 & Hm).
  apply bind_Ok in H as (d & s1 & H1 & H). apply get_Ok in H1 as [-> ->].
  cbv zeta in H.
  assert (E : s' = s /\ flags' =
      if balancingMaxVoltageDifference_mV s <? v - vmin then
        if negb (negb (Z.land (Z.shiftl (Z.lor flags (Z.shiftl 1 i)) 1) flags =? 0)
                 || negb (Z.land (Z.shiftl flags 1) (Z.lor flags (Z.shiftl 1 i)) =? 0))
        then Z.lor flags (Z.shiftl 1 i) else flags
      else flags).
  { destruct (balancingMaxVoltageDifference_mV s <? v - vmin).
    - destruct (negb _); now injection H as <- <-.
    - now injection H as <- <-. }
  destruct E as [-> ->]. split; [reflexivity|].
  exists v, vmin. now repeat split.
Qed.

Lemma for_acc_Ok {A : Type} (P : Z -> A -> bq769x0 -> Prop)
    (body : Z -> A -> M A) (n : nat) :
  forall (i : Z) (acc acc' : A) (s s' : bq769x0),
  P i acc s ->
  (forall j a t a' t', i <= j < i + Z.of_nat n -> P j a t ->
     body j a t = Ok a' t' -> P (j + 1) a' t') ->
  for_acc n i body acc s = Ok acc' s' -> P (i + Z.of_nat n) acc' s'.
Proof.
  induction n as [|n IH]; intros i acc acc' s s' HP Hstep H; cbn [for_acc] in H.
  - injection H as <- <-. now replace (i + Z.of_nat 0) with i by lia.
  - apply bind_Ok in H as (a & s1 & H1 & H).
    replace (i + Z.of_nat (S n)) with (i + 1 + Z.of_nat n) by lia.
    apply (IH (i + 1) a acc' s1 s'); [| |exact H].
    + apply (Hstep i acc s a s1); [lia|exact HP|exact H1].
    + intros j b t b' t' Hj. apply Hstep. lia.
Qed.

Lemma balancing_cell_below (s s' : bq769x0) (section i flags flags' : Z) :
  0 <= i < 5 -> flags_below i flags ->
  balancing_cell section i flags s = Ok flags' s' ->
  flags_below (i + 1) flags'.
Proof.
  intros Hi Hb H. apply balancing_cell_Ok in H as (_ & v & vmin & _ & _ & _ & _ & ->).
  destruct (balancing_step_facts i flags Hi Hb) as (_ & Hsame & Htarget & _).
  destruct (_ <? _); [|exact Hsame].
  destruct (negb _ || negb _) eqn:Ec; cbn [negb]; [exact Hsame|].
  now apply Htarget.
Qed.

Lemma balancing_section_safe :
  forall section, keeps (writes_only safe_balancing_write) (balancing_section section).
Proof.
  intros section s [] s' H. unfold balancing_section in H.
  apply bind_Ok in H as (flags & s1 & H1 & H).
  assert (Hb : flags_below (0 + Z.of_nat 5) flags).
  { apply (for_acc_Ok (fun i f _ => flags_below i f)
             (balancing_cell section) 5 0 0 flags s s1); [| |exact H1].
    - split; [cbn; lia|reflexivity].
    - intros j a t a' t' Hj. apply balancing_cell_below. lia. }
  apply flags_below_fit in Hb; [|lia].
  assert (K : keeps (writes_only safe_balancing_write)
                (for_acc 5 0 (balancing_cell section) 0)).
  { unfold balancing_cell.
    keeps_all (writes_only_refl safe_balancing_write)
              (writes_only_trans safe_balancing_write). }
  apply (writes_only_trans _ _ _ _ (K _ _ _ H1)).
  match type of H with
  | ?m s1 = _ => assert (K' : keeps (writes_only safe_balancing_write) m)
  end.
  { keeps_all (writes_only_refl safe_balancing_write)
              (writes_only_trans safe_balancing_write).
    - apply writes_only_same_bus. reflexivity.
    - apply writeRegister_writes_only. exact Hb. }
  exact (K' _ _ _ H).
Qed.

(** What the write of [balancing_section] carries. *)
Lemma balancing_section_complete (s s' : bq769x0) (section : Z) :
  balancing_section section s = Ok tt s' ->
  exists flags,
    written (_i2c s') = (CELLBAL1_plus section, flags) :: written (_i2c s) /\
    flags_complete s section flags.
Proof.
  intros H. unfold balancing_section in H.
  apply bind_Ok in H as (flags & s1 & H1 & H).
  assert (Hc : s1 = s /\ flags_below (0 + Z.of_nat 5) flags /\
               forall j, 0 <= j < 0 + Z.of_nat 5 -> cell_over s section j ->
                 Z.testbit flags j = true \/ (0 < j /\ Z.testbit flags (j - 1) = true)).
  { apply (for_acc_Ok
             (fun i f t => t = s /\ flags_below i f /\
                forall j, 0 <= j < i -> cell_over s section j ->
                  Z.testbit f j = true \/ (0 < j /\ Z.testbit f (j - 1) = true))
             (balancing_cell section) 5 0 0 flags s s1); [| |exact H1].
    - split; [reflexivity|]. split; [split; [cbn; lia|reflexivity]|]. lia.
    - intros i f t f' t' Hi (-> & Hb & Hdone) Hcell.
      assert (Hi5 : 0 <= i < 5) by lia.
      split; [now apply balancing_cell_Ok in Hcell|].
      split; [exact (balancing_cell_below _ _ _ _ _ _ Hi5 Hb Hcell)|].
      apply balancing_cell_Ok in Hcell
        as (_ & v & vmin & Hv & Hv0 & Hm & Hm0 & ->).
      destruct (balancing_step_facts i f Hi5 Hb)
        as (Hcoll & _ & _ & Hset & Hkeep).
      cbv zeta in *.
      intros j Hj Hover.
      assert (Hold : j < i ->
                Z.testbit f j = true \/ (0 < j /\ Z.testbit f (j - 1) = true)).
      { intros Hlt. apply Hdone; [lia|exact Hover]. }
      destruct (Z.eq_dec j i) as [->|Hne].
      + destruct Hover as (v' & vmin' & Hv' & Hm' & Hd).
        assert (v' = v) by congruence. assert (vmin' = vmin) by congruence.
        subst v' vmin'.
        destruct (Z.ltb_spec (balancingMaxVoltageDifference_mV s) (v - vmin));
          [|lia].
        destruct (negb _ || negb _) eqn:Ec; cbn [negb].
        * right. symmetry in Hcoll. split; [|exact Hcoll].
          destruct (Z.eq_dec i 0) as [->|]; [|lia].
          cbn in Hcoll. rewrite Z.testbit_neg_r in Hcoll by lia. discriminate.
        * left. exact Hset.
      + destruct (_ <? _); [|apply Hold; lia].
        destruct (negb (negb _ || negb _)); [|apply Hold; lia].
        destruct Hold as [Hbit|[Hj0 Hbit]]; [lia| |].
        * left. apply Hkeep; [lia|exact Hbit].
        * right. split; [exact Hj0|]. apply Hkeep; [lia|exact Hbit]. }
  destruct Hc as (-> & _ & Hc).
  apply bind_Ok in H as (status & s1 & H2 & H). apply get_Ok in H2 as [-> ->].
  apply bind_Ok in H as (u & s1 & H2 & H). apply modify_Ok in H2. subst s1.
  injection H as <-. exists flags. split; [reflexivity|].
  intros j Hj. apply Hc. lia.
Qed.

Lemma flags_complete_same (s s' : bq769x0) (section flags : Z) :
  same_cells s s' -> flags_complete s' section flags ->
  flags_complete s section flags.
Proof.
  intros (C & I & D) H i Hi (v & vmin & Hv & Hm & Hd). apply H; [exact Hi|].
  exists v, vmin. rewrite C, I, D. now repeat split.
Qed.

Lemma checkStatus_safe : keeps (writes_only safe_balancing_write) checkStatus.
Proof.
  intros s status s' H. apply checkStatus_writes in H as (l & E & F).
  exists l. split; [exact E|]. eapply Forall_impl; [exact F|].
  intros [r d] [Hr _]. cbn in Hr. subst r. exact I.
Qed.

Lemma updateBalancingSwitches_safe :
  keeps (writes_only safe_balancing_write) updateBalancingSwitches.
Proof.
  unfold updateBalancingSwitches, balancing_allowed.
  keeps_all (writes_only_refl safe_balancing_write)
            (writes_only_trans safe_balancing_write);
    try (apply writes_only_same_bus; reflexivity);
    try apply checkStatus_safe;
    try apply balancing_section_safe.
  apply writeRegister_writes_only. split; [apply no_adjacent_0|cbn; lia].
Qed.

(** X12.  On every path through [updateBalancingSwitches] -- balancing
    allowed or not, faults being handled or not -- a balancing register is
    only ever given a flag set that fits the five cells of a section and
    has no two neighbouring bits set; the only other register written is
    [SYS_STAT]. *)
Theorem updateBalancingSwitches_safe_writes (s s' : bq769x0) :
  updateBalancingSwitches s = Ok tt s' ->
  writes_only safe_balancing_write s s'.
Proof. apply updateBalancingSwitches_safe. Qed.

Lemma updateBalancingSwitches_safe_writes_witness :
  exists s',
    updateBalancingSwitches balancing_example = Ok tt s' /\
    writes_only safe_balancing_write balancing_example s'.
Proof.
  eexists. split; [vm_compute; reflexivity|].
  apply updateBalancingSwitches_safe_writes. vm_compute. reflexivity.
Defined.

(** X13.  When balancing is allowed, the flag set written for a section
    leaves out a cell that reads more than the differential threshold
    above the lowest cell only if the cell below it in the section is
    flagged: the cells are taken first come, first served, from the lowest
    of the section upward.  [s1] is the device as the evaluation of the
    condition leaves it; the store is to hold the cells of all sections. *)
Theorem updateBalancingSwitches_complete (s s1 : bq769x0) :
  balancing_gate s = Ok true s1 ->
  5 * Z.quot (numberOfCells s) 5 <= Z.of_nat (length (cellVoltages s1)) ->
  exists s' flags,
    updateBalancingSwitches s = Ok tt s' /\
    Z.of_nat (length flags) = Z.max 0 (Z.quot (numberOfCells s) 5) /\
    written (_i2c s') = section_writes 0 flags ++ written (_i2c s1) /\
    forall k f, flags !! k = Some f -> flags_complete s1 (Z.of_nat k) f.
Proof.
  intros Hgate Hstore. rewrite updateBalancingSwitches_by_gate.
  unfold bind at 1. rewrite Hgate. unfold bind at 1, modify at 1.
  cbn beta iota.
  assert (Hmin : in_store s1 (idCellMinVoltage s1)).
  { unfold balancing_gate in Hgate.
    apply bind_Ok in Hgate as (now & t & _ & Hgate).
    apply bind_Ok in Hgate as (stamp & t1 & _ & Hgate).
    apply bind_Ok in Hgate as (idle & t2 & _ & Hgate).
    now apply balancing_allowed_true in Hgate. }
  set (t0 := set_balancingStatus 0 s1).
  set (n := Z.quot (numberOfCells s) 5) in *.
  destruct (for_invariant
    (fun k t => same_cells s1 t /\
       exists flags, Z.of_nat (length flags) = k /\
         written (_i2c t) = section_writes 0 flags ++ written (_i2c s1) /\
         forall j f, flags !! j = Some f -> flags_complete s1 (Z.of_nat j) f)
    balancing_section (Z.to_nat n) 0 t0) as (s' & E & _ & flags & Hlen & Hw & Hok).
  - split; [now repeat split|]. exists []. split; [reflexivity|].
    split; [reflexivity|]. intros j f Hj. now rewrite lookup_nil in Hj.
  - intros k t Hk ((C & I & D) & flags & Hlen & Hw & Hok).
    destruct (balancing_section_step t k) as (f & t' & E & _ & Hw' & (C' & I' & D')).
    { intros i Hi. unfold in_store. rewrite C. lia. }
    { unfold in_store in *. now rewrite C, I. }
    destruct (balancing_section_complete t t' k E) as (f' & Hw'' & Hf').
    assert (f' = f) by congruence. subst f'.
    exists t'. split; [exact E|]. split; [repeat split; congruence|].
    exists (flags ++ [f]). split; [rewrite length_app; cbn; lia|]. split.
    + rewrite Hw', Hw, section_writes_snoc. cbn [app]. do 3 f_equal. lia.
    + intros j g Hj. apply lookup_app_Some in Hj as [Hj|[Hge Hj]]; [now apply Hok|].
      apply list_lookup_singleton_Some in Hj as [Hj <-].
      replace (Z.of_nat j) with k by lia.
      now apply (flags_complete_same s1 t).
  - exists s', flags. split; [exact E|]. split; [lia|]. split; [exact Hw|exact Hok].
Qed.

Lemma updateBalancingSwitches_complete_witness :
  exists s' flags,
    updateBalancingSwitches balancing_example = Ok tt s' /\
    Z.of_nat (length flags) = Z.max 0 (Z.quot (numberOfCells balancing_example) 5) /\
    written (_i2c s') = section_writes 0 flags ++ written (_i2c balancing_example) /\
    forall k f, flags !! k = Some f ->
      flags_complete balancing_example (Z.of_nat k) f.
Proof.
  apply (updateBalancingSwitches_complete balancing_example balancing_example).
  - vm_compute. reflexivity.
  - vm_compute. discriminate.
Defined.

(** ** Threshold configurator *)

Lemma current_setter_sound (thresholds delays : table)
    (shunt current_mA delay : Z) (r : setting) :
  0 < shunt -> 0 <= current_mA ->
  current_setting_ok thresholds delays shunt current_mA delay r ->
  current_setting_sound thresholds shunt current_mA r.
Proof.
  intros Hs Hc ((Hfirst & Hsome & Hnone) & _ & e & He & Hr).
  assert (Hq : Z.quot (current_mA * shunt) 1000 = current_mA * shunt / 1000)
    by (apply Z.quot_div_nonneg; nia).
  split.
  - intros Hex. destruct (Hsome Hex) as (e' & He' & Hle & _).
    assert (e' = e) by congruence. subst e'. rewrite Hr.
    rewrite Hq in Hle.
    assert (e * 1000 <= current_mA * shunt).
    { assert (1000 * (current_mA * shunt / 1000) <= current_mA * shunt)
        by (apply Z.mul_div_le; lia).
      lia. }
    destruct (Z.le_gt_cases 0 e) as [He0|He0].
    + rewrite Z.quot_div_nonneg by lia.
      apply Z.div_le_upper_bound; lia.
    + assert (Z.quot (e * 1000) shunt <= 0); [|lia].
      rewrite <- (Z.opp_involutive (e * 1000)), Z.quot_opp_l by lia.
      assert (0 <= Z.quot (- (e * 1000)) shunt) by (apply Z.quot_pos; lia).
      lia.
  - intros Hall. specialize (Hnone Hall). split; [exact Hnone|].
    rewrite Hr. rewrite Hnone in He.
    assert (Hlt : Z.quot (current_mA * shunt) 1000 < e)
      by (apply Hall; apply list_elem_of_lookup; eauto).
    rewrite Hq in Hlt.
    assert (current_mA * shunt < 1000 * (current_mA * shunt / 1000 + 1)).
    { assert (H := Z.mod_pos_bound (current_mA * shunt) 1000 ltac:(lia)).
      rewrite Z.mod_eq in H by lia. lia. }
    assert (0 <= current_mA * shunt) by nia.
    rewrite Z.quot_div_nonneg by lia.
    apply Z.div_le_lower_bound; lia.
Qed.

(** X14.  For a non-negative request and a positive shunt resistance, on
    tables that ascend and whose entries take one byte,
    [setShortCircuitProtection] and [setOvercurrentDischargeProtection]
    return a current threshold that is not above the requested current
    whenever some table entry is within the normalised request; when every
    entry is beyond it they fall back to code 0, and the threshold they
    return is then not below the request. *)
Theorem current_protection_not_above_request
    (SCD_threshold_setting SCD_delay_setting : table)
    (OCD_threshold_setting OCD_delay_setting : table)
    (shuntResistorValue_mOhm current_mA delay : Z) :
  well_formed SCD_threshold_setting -> denormalizable SCD_threshold_setting ->
  well_formed SCD_delay_setting ->
  well_formed OCD_threshold_setting -> denormalizable OCD_threshold_setting ->
  well_formed OCD_delay_setting ->
  0 < shuntResistorValue_mOhm -> 0 <= current_mA ->
  in_long (current_mA * shuntResistorValue_mOhm) = true ->
  (exists r,
     setShortCircuitProtection SCD_threshold_setting SCD_delay_setting
       shuntResistorValue_mOhm current_mA delay = Some r /\
     current_setting_sound SCD_threshold_setting
       shuntResistorValue_mOhm current_mA r) /\
  (exists r,
     setOvercurrentDischargeProtection OCD_threshold_setting OCD_delay_setting
       shuntResistorValue_mOhm current_mA delay = Some r /\
     current_setting_sound OCD_threshold_setting
       shuntResistorValue_mOhm current_mA r).
Proof.
  intros Hst Hsd Hsdel Hot Hod Hodel Hshunt Hcur Hfit. split.
  - destruct (current_setter_ok SCD_threshold_setting SCD_delay_setting
                shuntResistorValue_mOhm current_mA delay)
      as (thresh & code & e & E1 & E2 & E3 & Hok); try assumption; [lia|].
    eexists. split.
    + unfold setShortCircuitProtection. rewrite E1. cbn. rewrite E2. cbn.
      now rewrite E3.
    + now apply (current_setter_sound _ SCD_delay_setting _ _ delay).
  - destruct (current_setter_ok OCD_threshold_setting OCD_delay_setting
                shuntResistorValue_mOhm current_mA delay)
      as (thresh & code & e & E1 & E2 & E3 & Hok); try assumption; [lia|].
    eexists. split.
    + unfold setOvercurrentDischargeProtection. rewrite E1. cbn. rewrite E2. cbn.
      now rewrite E3.
    + now apply (current_setter_sound _ OCD_delay_setting _ _ delay).
Qed.

Lemma example_tables_well_formed :
  well_formed example_thresholds /\ denormalizable example_thresholds /\
  well_formed example_delays.
Proof.
  split; [|split].
  - apply well_formed_check; [reflexivity|discriminate|reflexivity].
  - apply denormalizable_check. reflexivity.
  - apply well_formed_check; [reflexivity|discriminate|reflexivity].
Defined.

Lemma current_protection_not_above_request_witness :
  (exists r,
     setShortCircuitProtection example_thresholds example_delays 5 20000 20
     = Some r /\
     current_setting_sound example_thresholds 5 20000 r) /\
  (exists r,
     setOvercurrentDischargeProtection example_thresholds example_delays 5 20000 20
     = Some r /\
     current_setting_sound example_thresholds 5 20000 r).
Proof.
  apply (current_protection_not_above_request
           example_thresholds example_delays example_thresholds example_delays
           5 20000 20);
    try apply example_tables_well_formed; try lia; reflexivity.
Defined.







(** X16.  The scan loops start at index [sizeof(table) - 1].  On a table
    whose entries take more than one byte that index is past the last
    entry: the first comparison of every scan then reads outside the
    table, for every request (no result in the model). *)
Theorem table_scan_wide_entries (t : table) (request shunt : Z) :
  1 < entry_bytes t -> entries t <> [] ->
  in_long (request * shunt) = true ->
  select_delay t request = None /\ select_threshold t request shunt = None.
Proof.
  intros Hbytes Hne Hl. split; [now apply select_delay_wide_entries|].
  unfold select_threshold.
  assert (Hlen : (0 < length (entries t))%nat)
    by (destruct (entries t); [congruence|cbn; lia]).
  assert (Hsize : Z.of_nat (length (entries t)) <= sizeof t - 1)
    by (unfold sizeof; nia).
  destruct (Z.to_nat (sizeof t - 1)) as [|n] eqn:En; [lia|].
  cbn [scan_down]. unfold checked. rewrite Hl. cbn.
  rewrite table_at_lookup by lia.
  rewrite lookup_ge_None_2 by lia. reflexivity.
Qed.

Lemma table_scan_wide_entries_witness :
  select_delay {| entries := [70; 100; 200; 400]; entry_bytes := 4 |} 100 = None /\
  select_threshold {| entries := [70; 100; 200; 400]; entry_bytes := 4 |} 100 5 = None.
Proof.
  apply (table_scan_wide_entries
           {| entries := [70; 100; 200; 400]; entry_bytes := 4 |} 100 5).
  - cbn. lia.
  - discriminate.
  - reflexivity.
Defined.

(** ** State of charge *)






Lemma setBatteryCapacity_round_trip_witness :
  exists s' soc,
    (setBatteryCapacity 2500 ;; resetSOC 50) idle_device = Ok tt s' /\
    getSOC s' = Ok soc s' /\
    (soc == inject_Z 50)%Q.
Proof.
  apply (setBatteryCapacity_round_trip idle_device 2500 50).
  - discriminate.
  - lia.
  - reflexivity.
  - reflexivity.
Defined.

(** ** Readings *)

Lemma cellVoltages_at_lookup (s : bq769x0) (i v : Z) :
  0 <= i -> cellVoltages s !! Z.to_nat i = Some v -> cellVoltages_at i s = Ok v s.
Proof.
  intros Hi Hv. unfold cellVoltages_at.
  destruct (Z.leb_spec 0 i); [|lia]. now rewrite Hv.
Qed.

(** X19.  After [updateVoltages] on a store that holds all cells,
    [getCellVoltage (k)] returns the reading of channel [k - 1] for
    [k = 1 .. numberOfCells], [getMaxCellVoltage] the reading of the first
    channel with the highest reading, and [getMinCellVoltage] the reading
    of the first channel with the lowest reading above 500 mV provided
    channel 0 reads above 500 mV; if channel 0 does not, it is the reading
    of channel 0 that [getMinCellVoltage] returns.  [getCellVoltage (0)]
    reads in front of the array. *)
Theorem updateVoltages_getters (s : bq769x0) :
  0 < numberOfCells s <= Z.of_nat (length (cellVoltages s)) ->
  exists s',
    updateVoltages s = Ok tt s' /\
    (forall idCell, 1 <= idCell <= numberOfCells s ->
       getCellVoltage idCell s' = Ok (cell_reading s (idCell - 1)) s') /\
    (exists k, first_max (cell_reading s) (numberOfCells s) k /\
               getMaxCellVoltage s' = Ok (cell_reading s k) s') /\
    (500 < cell_reading s 0 ->
     exists k, first_min_above 500 (cell_reading s) (numberOfCells s) k /\
               getMinCellVoltage s' = Ok (cell_reading s k) s') /\
    (cell_reading s 0 <= 500 ->
     getMinCellVoltage s' = Ok (cell_reading s 0) s') /\
    getCellVoltage 0 s' = Stop (OutOfBounds (-1)).
Proof.
  intros Hn.
  destruct (updateVoltages_reads s Hn) as (s' & E & Hread & Hmax & Hmin & Hdead).
  exists s'. split; [exact E|]. split; [|split; [|split; [|split]]].
  - intros idCell Hid. unfold getCellVoltage.
    apply cellVoltages_at_lookup; [lia|]. apply Hread. lia.
  - exists (idCellMaxVoltage s'). split; [exact Hmax|].
    unfold getMaxCellVoltage. run. destruct Hmax as (Hk & _).
    apply cellVoltages_at_lookup; [lia|]. apply Hread. lia.
  - intros H0. specialize (Hmin H0).
    exists (idCellMinVoltage s'). split; [exact Hmin|].
    unfold getMinCellVoltage. run. destruct Hmin as (Hk & _).
    apply cellVoltages_at_lookup; [lia|]. apply Hread. lia.
  - intros H0. unfold getMinCellVoltage. run. rewrite (Hdead H0).
    apply cellVoltages_at_lookup; [lia|]. apply Hread. lia.
  - reflexivity.
Qed.

Lemma updateVoltages_getters_witness :
  exists s',
    updateVoltages dead_first_cell = Ok tt s' /\
    (forall idCell, 1 <= idCell <= numberOfCells dead_first_cell ->
       getCellVoltage idCell s' = Ok (cell_reading dead_first_cell (idCell - 1)) s') /\
    (exists k, first_max (cell_reading dead_first_cell)
                 (numberOfCells dead_first_cell) k /\
               getMaxCellVoltage s' = Ok (cell_reading dead_first_cell k) s') /\
    (500 < cell_reading dead_first_cell 0 ->
     exists k, first_min_above 500 (cell_reading dead_first_cell)
                 (numberOfCells dead_first_cell) k /\
               getMinCellVoltage s' = Ok (cell_reading dead_first_cell k) s') /\
    (cell_reading dead_first_cell 0 <= 500 ->
     getMinCellVoltage s' = Ok (cell_reading dead_first_cell 0) s') /\
    getCellVoltage 0 s' = Stop (OutOfBounds (-1)).
Proof.
  apply (updateVoltages_getters dead_first_cell).
  vm_compute. split; [reflexivity|discriminate].
Defined.

Lemma adc14_range (hi lo : Z) :
  is_byte lo -> 0 <= Z.lor (Z.shiftl (Z.land hi 0x3F) 8) lo <= 16383.
Proof.
  intros Hlo.
  assert (Hh : is_byte (Z.land hi 0x3F)).
  { change 0x3F with (Z.ones 6). rewrite Z.land_ones by lia.
    assert (H := Z.mod_pos_bound hi (2 ^ 6) ltac:(lia)).
    unfold is_byte. change (2 ^ 6) with 64 in *. lia. }
  assert (Hm : Z.land (Z.land hi 0x3F) 0x3F = Z.land hi 0x3F)
    by (rewrite <- Z.land_assoc; reflexivity).
  rewrite <- Hm.
  assert (C : forallb (fun h => forallb (fun l =>
            let adc := Z.lor (Z.shiftl (Z.land h 0x3F) 8) l in
            (0 <=? adc) && (adc <=? 16383)) all_bytes) all_bytes = true)
    by (vm_compute; reflexivity).
  assert (H := byte_cases2 _ C _ _ Hh Hlo). cbv beta zeta in H. lia.
Qed.

(** X20.  The conversion in [updateVoltages] keeps 14 bits of the two
    bytes of a cell: with a non-negative gain, the millivolt value it
    stores for a channel lies between [adcOffset] and
    [16383 * adcGain / 1000 + adcOffset], whatever the high byte holds. *)
Theorem cell_reading_range (s : bq769x0) (i : Z) :
  0 <= adcGain s ->
  is_byte (buf_at (burst (_i2c s) i) (if crcEnabled s then 2 else 1)) ->
  adcOffset s <= cell_reading s i <= Z.quot (16383 * adcGain s) 1000 + adcOffset s.
Proof.
  intros Hg Hlo. unfold cell_reading.
  set (buf := burst (_i2c s) i) in *.
  set (adc := if crcEnabled s then _ else _).
  assert (Ha : 0 <= adc <= 16383).
  { unfold adc. destruct (crcEnabled s); now apply adc14_range. }
  split.
  - assert (0 <= Z.quot (adc * adcGain s) 1000) by (apply Z.quot_pos; nia). lia.
  - apply Z.add_le_mono_r. apply Z.quot_le_mono; [lia|nia].
Qed.

Lemma cell_reading_range_witness :
  adcOffset dead_first_cell <= cell_reading dead_first_cell 4
  <= Z.quot (16383 * adcGain dead_first_cell) 1000 + adcOffset dead_first_cell.
Proof.
  apply (cell_reading_range dead_first_cell 4).
  - vm_compute. discriminate.
  - vm_compute. split; [discriminate|reflexivity].
Defined.

(** ** Construction and the FET switches *)

Lemma bind_b_Done {A C : Type} (m : B A) (k : A -> B C) (b b' : board) (c : C) :
  bind_b m k b = Done c b' -> exists a b1, m b = Done a b1 /\ k a b1 = Done c b'.
Proof.
  unfold bind_b. destruct (m b) as [a b1|f]; [|discriminate].
  intros H. now exists a, b1.
Qed.

Lemma on_bms_Done {A : Type} (m : M A) (b b' : board) (a : A) :
  on_bms m b = Done a b' ->
  exists s', m (bms b) = Ok a s' /\ b' = set_bms s' b.
Proof.
  unfold on_bms. destruct (m (bms b)) as [a' s'|f]; [|discriminate].
  intros [= <- <-]. now exists s'.
Qed.

Lemma gain_of_range (ADCGAIN1_byte ADCGAIN2_byte : Z) :
  365 <= gain_of ADCGAIN1_byte ADCGAIN2_byte <= 396.
Proof.
  unfold gain_of.
  rewrite (land_byte_mask ADCGAIN1_byte 0x0C), (land_byte_mask ADCGAIN2_byte 0xE0)
    by (unfold is_byte; lia).
  assert (C : forallb (fun a => forallb (fun b =>
            let g := 365 + Z.lor (Z.shiftl (Z.land a 0x0C) 1)
                                 (Z.shiftr (Z.land b 0xE0) 5) in
            (365 <=? g) && (g <=? 396)) all_bytes) all_bytes = true)
    by (vm_compute; reflexivity).
  assert (H := byte_cases2 _ C _ _ (uint8_is_byte ADCGAIN1_byte)
                 (uint8_is_byte ADCGAIN2_byte)).
  unfold uint8 in H. cbv beta zeta in H. lia.
Qed.

Lemma init_cellVoltages_keeps : keeps same_but_voltages init_cellVoltages.
Proof.
  unfold init_cellVoltages.
  keeps_all same_but_voltages_refl same_but_voltages_trans;
    unfold same_but_voltages; cbn; repeat split; assumption.
Qed.

Lemma init_cellVoltages_runs (s : bq769x0) :
  numberOfCells s - 1 <= Z.of_nat (length (cellVoltages s)) ->
  exists s', init_cellVoltages s = Ok tt s' /\ same_but_voltages s s'.
Proof.
  intros Hlen. unfold init_cellVoltages. unfold bind, get.
  destruct (init_loop_clears (Z.to_nat (numberOfCells s - 1)) 0 s)
    as (s' & E & _); [lia|lia|].
  exists s'. split; [exact E|].
  apply (init_cellVoltages_keeps s tt s').
  unfold init_cellVoltages, bind, get. exact E.
Qed.

(** X21.  The constructor sets the number of cells by the chip type (5, 10
    or 15), the CRC switch, and the defaults (30 minutes of idle time, 30
    mA idle current), and writes 0x19 to [CC_CFG].  If the chip answers
    0x19 it switches ADC and coulomb counter on and takes the calibration:
    [adcOffset] is the byte of [ADCOFFSET] as read, and [adcGain] lies
    between 365 and 396 whatever the gain registers hold.  If the chip
    answers anything else, nothing more is written and [adcGain] and
    [adcOffset] stay as they were. *)
Theorem construct_calibrates (type : bqType) (crc : bool) (b : board) :
  cells_of_type type - 1 <= Z.of_nat (length (cellVoltages (bms b))) ->
  exists b',
    construct type crc b = Done tt b' /\
    numberOfCells (bms b') = cells_of_type type /\
    crcEnabled (bms b') = crc /\
    balancingMinIdleTime_s (bms b') = 1800 /\
    idleCurrentThreshold (bms b') = 30 /\
    if control b CC_CFG =? 0x19 then
      control_written b'
      = [(SYS_CTRL2, 0x40); (SYS_CTRL1, 0x18); (CC_CFG, 0x19)] ++ control_written b /\
      adcOffset (bms b') = control b ADCOFFSET /\
      adcGain (bms b') = gain_of (control b ADCGAIN1) (control b ADCGAIN2) /\
      365 <= adcGain (bms b') <= 396
    else
      control_written b' = (CC_CFG, 0x19) :: control_written b /\
      adcOffset (bms b') = adcOffset (bms b) /\
      adcGain (bms b') = adcGain (bms b).
Proof.
  intros Hlen.
  set (s0 := set_numberOfCells (cells_of_type type)
               (set_idleCurrentThreshold 30
                  (set_balancingMinIdleTime_s 1800 (set_crcEnabled crc (bms b))))).
  destruct (init_cellVoltages_runs s0) as (s1 & E1 & F1); [exact Hlen|].
  unfold construct, bind_b, on_bms, modify, write_control, read_control, get_b.
  cbn [bms set_bms control set_control_written control_written].
  fold s0. rewrite E1.
  cbn [bms set_bms control set_control_written control_written].
  unfold same_but_voltages in F1.
  destruct F1 as (_ & _ & Fcrc & Fn & Fg & Fo & _ & Fi & _ & _ & _ & _ & _ & _
                  & _ & _ & _ & _ & _ & _ & _ & Fb & _).
  destruct (control b CC_CFG =? 25); eexists; (split; [reflexivity|]); cbn;
    rewrite ?Fcrc, ?Fn, ?Fg, ?Fo, ?Fi, ?Fb; repeat split; try reflexivity;
    apply gain_of_range.
Qed.

Lemma construct_calibrates_witness :
  exists b',
    construct bq76920 true example_board = Done tt b' /\
    numberOfCells (bms b') = cells_of_type bq76920 /\
    crcEnabled (bms b') = true /\
    balancingMinIdleTime_s (bms b') = 1800 /\
    idleCurrentThreshold (bms b') = 30 /\
    if control example_board CC_CFG =? 0x19 then
      control_written b'
      = [(SYS_CTRL2, 0x40); (SYS_CTRL1, 0x18); (CC_CFG, 0x19)]
        ++ control_written example_board /\
      adcOffset (bms b') = control example_board ADCOFFSET /\
      adcGain (bms b')
      = gain_of (control example_board ADCGAIN1) (control example_board ADCGAIN2) /\
      365 <= adcGain (bms b') <= 396
    else
      control_written b' = (CC_CFG, 0x19) :: control_written example_board /\
      adcOffset (bms b') = adcOffset (bms example_board) /\
      adcGain (bms b') = adcGain (bms example_board).
Proof.
  apply (construct_calibrates bq76920 true example_board).
  vm_compute. discriminate.
Defined.

Lemma temperatures_at_value (s s' : bq769x0) (i v : Z) :
  temperatures_at i s = Ok v s' ->
  s' = s /\ 0 <= i /\ temperatures s !! Z.to_nat i = Some v.
Proof.
  unfold temperatures_at. destruct (Z.leb_spec 0 i); [|discriminate].
  destruct (temperatures s !! Z.to_nat i) as [v'|]; [|discriminate].
  intros [= <- <-]. now repeat split.
Qed.

(** Take a run of a board method apart: a step that runs a method of the
    device object, and a step that reads a field of the board. *)
Ltac board_bms H a s1 H1 :=
  let b1 := fresh "b" in
  apply bind_b_Done in H as (a & b1 & H1 & H);
  apply on_bms_Done in H1 as (s1 & H1 & ->).

Ltac board_get H :=
  let a := fresh "a" in let b1 := fresh "b" in let H1 := fresh "H" in
  apply bind_b_Done in H as (a & b1 & H1 & H);
  injection H1 as <- <-.

(** The common shape of the two conditions. *)
Lemma switch_allowed_Done (idCell : bq769x0 -> Z) (limit : bq769x0 -> Z)
    (in_limit : Z -> Z -> bool) (minTemp maxTemp : board -> Z)
    (b b' : board) (r : bool) :
  (status <~ on_bms checkStatus ;~
   if negb (status =? 0) then ret_b false else
   id <~ on_bms (get idCell) ;~
   v <~ on_bms (cellVoltages_at id) ;~
   lim <~ on_bms (get limit) ;~
   if negb (in_limit v lim) then ret_b false else
   t <~ on_bms (temperatures_at 0) ;~
   maxT <~ get_b maxTemp ;~
   if negb (t <? maxT) then ret_b false else
   t <~ on_bms (temperatures_at 0) ;~
   minT <~ get_b minTemp ;~
   ret_b (minT <? t)) b = Done r b' ->
  exists s' status,
    checkStatus (bms b) = Ok status s' /\
    b' = set_bms s' b /\
    (r = true ->
     status = 0 /\
     exists v t,
       cellVoltages s' !! Z.to_nat (idCell s') = Some v /\
       in_limit v (limit s') = true /\
       temperatures s' !! 0%nat = Some t /\
       minTemp (set_bms s' b) < t < maxTemp (set_bms s' b)).
Proof.
  intros H. board_bms H status s H0. exists s, status.
  split; [exact H0|].
  destruct (Z.eqb_spec status 0) as [->|Hne]; cbn [negb] in H.
  2:{ injection H as <- <-. now split. }
  board_bms H idc s1 H1. apply get_Ok in H1 as [-> ->].
  board_bms H v s1 H1. apply cellVoltages_at_value in H1 as (-> & Hid & Hv).
  board_bms H lim s1 H1. apply get_Ok in H1 as [-> ->].
  cbn [bms set_bms] in *.
  destruct (in_limit v (limit s)) eqn:El; cbn [negb] in H.
  2:{ injection H as <- <-. now split. }
  board_bms H t s1 H1. apply temperatures_at_value in H1 as (-> & _ & Ht).
  board_get H. cbn [bms set_bms] in *.
  match type of H with
  | (if negb (t <? ?m) then _ else _) _ = _ =>
      change m with (maxTemp (set_bms s b)) in H;
      destruct (Z.ltb_spec t (maxTemp (set_bms s b))) as [Hmax|Hmax];
      cbn [negb] in H
  end.
  2:{ injection H as <- <-. now split. }
  board_bms H t' s1 H1. apply temperatures_at_value in H1 as (-> & _ & Ht').
  board_get H. cbn [bms set_bms] in *. injection H as <- <-.
  split; [reflexivity|].
  intros Hr. apply Z.ltb_lt in Hr. split; [reflexivity|].
  exists v, t. repeat split; try assumption.
  assert (t' = t) by congruence. subst t'. exact Hr.
Qed.

Lemma fault_shown_nonzero (s s' : bq769x0) (status : Z) :
  checkStatus s = Ok status s' ->
  alertInterruptFlag s = true \/ errorStatus s <> 0 ->
  Z.land (chip (_i2c s) SYS_STAT) 0x3F <> 0 ->
  status <> 0.
Proof.
  intros H Hslow Hfault. apply checkStatus_value in H as (_ & _ & Hv).
  rewrite (Hv Hslow). destruct (Z.eqb_spec (Z.land (chip (_i2c s) SYS_STAT) 63) 0);
    [contradiction|].
  intros E. rewrite E in Hfault. now rewrite Z.land_0_l in Hfault.
Qed.

(** X22.  [enableCharging] writes to [SYS_CTRL2] only when it returns
    true, and then once: the byte read from [SYS_CTRL2] with the CHG bit
    set and the other bits as read.  It returns true only if, as the call
    leaves the device, no fault is recorded, the highest cell is below
    [maxCellVoltage] and the first thermistor reads strictly between
    [minCellTempCharge] and [maxCellTempCharge].  With an alert pending or
    a fault recorded, and a fault flag up in the status byte, it returns
    false. *)
Theorem enableCharging_sound (b b' : board) (r : bool) :
  enableCharging b = Done r b' ->
  (if r then
     control_written b'
     = (SYS_CTRL2, Z.lor (control b SYS_CTRL2) 0x01) :: control_written b /\
     switch_on_conditions (bms b') (idCellMaxVoltage (bms b'))
       (fun v => v <? maxCellVoltage (bms b'))
       (minCellTempCharge b') (maxCellTempCharge b')
   else control_written b' = control_written b) /\
  (alertInterruptFlag (bms b) = true \/ errorStatus (bms b) <> 0 ->
   Z.land (chip (_i2c (bms b)) SYS_STAT) 0x3F <> 0 -> r = false).
Proof.
  intros H. unfold enableCharging in H.
  apply bind_b_Done in H as (allowed & b1 & Ha & H).
  unfold charging_allowed in Ha.
  apply (switch_allowed_Done idCellMaxVoltage maxCellVoltage Z.ltb
           minCellTempCharge maxCellTempCharge) in Ha
    as (s' & status & Hc & -> & Hon).
  destruct allowed.
  - destruct (Hon eq_refl) as (-> & v & t & Hv & Hl & Ht & Hw).
    board_get H. apply bind_b_Done in H as ([] & b1 & H1 & H).
    injection H1 as <-. injection H as <- <-. split.
    + split; [reflexivity|]. split.
      * apply checkStatus_value in Hc as (Hc & _). cbn. now symmetry.
      * exists v, t. now repeat split.
    + intros Hslow Hfault.
      now destruct (fault_shown_nonzero _ _ _ Hc Hslow Hfault).
  - injection H as <- <-. split; [reflexivity|]. intros _ _. reflexivity.
Qed.

Lemma enableCharging_sound_witness :
  exists b',
    enableCharging example_board = Done true b' /\
    (control_written b'
     = (SYS_CTRL2, Z.lor (control example_board SYS_CTRL2) 0x01)
       :: control_written example_board /\
     switch_on_conditions (bms b') (idCellMaxVoltage (bms b'))
       (fun v => v <? maxCellVoltage (bms b'))
       (minCellTempCharge b') (maxCellTempCharge b')) /\
    (alertInterruptFlag (bms example_board) = true
     \/ errorStatus (bms example_board) <> 0 ->
     Z.land (chip (_i2c (bms example_board)) SYS_STAT) 0x3F <> 0 -> true = false).
Proof.
  eexists. split; [vm_compute; reflexivity|].
  apply (enableCharging_sound example_board _ true). vm_compute. reflexivity.
Defined.

(** X23.  [enableDischarging] writes to [SYS_CTRL2] only when it returns
    true, and then once: the byte read from [SYS_CTRL2] with the DSG bit
    set and the other bits as read.  It returns true only if, as the call
    leaves the device, no fault is recorded, the lowest cell is above
    [minCellVoltage] and the first thermistor reads strictly between
    [minCellTempDischarge] and [maxCellTempDischarge].  With an alert
    pending or a fault recorded, and a fault flag up in the status byte,
    it returns false. *)
Theorem enableDischarging_sound (b b' : board) (r : bool) :
  enableDischarging b = Done r b' ->
  (if r then
     control_written b'
     = (SYS_CTRL2, Z.lor (control b SYS_CTRL2) 0x02) :: control_written b /\
     switch_on_conditions (bms b') (idCellMinVoltage (bms b'))
       (fun v => minCellVoltage (bms b') <? v)
       (minCellTempDischarge b') (maxCellTempDischarge b')
   else control_written b' = control_written b) /\
  (alertInterruptFlag (bms b) = true \/ errorStatus (bms b) <> 0 ->
   Z.land (chip (_i2c (bms b)) SYS_STAT) 0x3F <> 0 -> r = false).
Proof.
  intros H. unfold enableDischarging in H.
  apply bind_b_Done in H as (allowed & b1 & Ha & H).
  unfold discharging_allowed in Ha.
  apply (switch_allowed_Done idCellMinVoltage minCellVoltage
           (fun v lim => lim <? v)
           minCellTempDischarge maxCellTempDischarge) in Ha
    as (s' & status & Hc & -> & Hon).
  destruct allowed.
  - destruct (Hon eq_refl) as (-> & v & t & Hv & Hl & Ht & Hw).
    board_get H. apply bind_b_Done in H as ([] & b1 & H1 & H).
    injection H1 as <-. injection H as <- <-. split.
    + split; [reflexivity|]. split.
      * apply checkStatus_value in Hc as (Hc & _). cbn. now symmetry.
      * exists v, t. now repeat split.
    + intros Hslow Hfault.
      now destruct (fault_shown_nonzero _ _ _ Hc Hslow Hfault).
  - injection H as <- <-. split; [reflexivity|]. intros _ _. reflexivity.
Qed.

Lemma enableDischarging_sound_witness :
  exists b',
    enableDischarging example_board = Done true b' /\
    (control_written b'
     = (SYS_CTRL2, Z.lor (control example_board SYS_CTRL2) 0x02)
       :: control_written example_board /\
     switch_on_conditions (bms b') (idCellMinVoltage (bms b'))
       (fun v => minCellVoltage (bms b') <? v)
       (minCellTempDischarge b') (maxCellTempDischarge b')) /\
    (alertInterruptFlag (bms example_board) = true
     \/ errorStatus (bms example_board) <> 0 ->
     Z.land (chip (_i2c (bms example_board)) SYS_STAT) 0x3F <> 0 -> true = false).
Proof.
  eexists. split; [vm_compute; reflexivity|].
  apply (enableDischarging_sound example_board _ true). vm_compute. reflexivity.
Defined.

Lemma checkStatus_quick (s : bq769x0) :
  alertInterruptFlag s = false -> errorStatus s = 0 -> checkStatus s = Ok 0 s.
Proof.
  intros Hf He. unfold checkStatus. run. now rewrite Hf, He.
Qed.

(** X24.  After [setTemperatureLimits], on a device with no alert pending
    and no fault recorded whose highest cell is below [maxCellVoltage],
    [enableCharging] switches the CHG FET on exactly when the first
    thermistor (in tenths of a degree) reads strictly between ten times
    [minCharge_degC] and ten times [maxCharge_degC]; at either limit
    itself it refuses and writes nothing. *)
Theorem charging_temperature_window (b : board)
    (minDischarge_degC maxDischarge_degC minCharge_degC maxCharge_degC : Z)
    (vmax t : Z) :
  alertInterruptFlag (bms b) = false -> errorStatus (bms b) = 0 ->
  0 <= idCellMaxVoltage (bms b) ->
  cellVoltages (bms b) !! Z.to_nat (idCellMaxVoltage (bms b)) = Some vmax ->
  vmax < maxCellVoltage (bms b) ->
  temperatures (bms b) !! 0%nat = Some t ->
  in_long (minDischarge_degC * 10) = true ->
  in_long (maxDischarge_degC * 10) = true ->
  in_long (minCharge_degC * 10) = true ->
  in_long (maxCharge_degC * 10) = true ->
  exists b',
    (setTemperatureLimits minDischarge_degC maxDischarge_degC
       minCharge_degC maxCharge_degC ;~
     enableCharging) b
    = Done ((minCharge_degC * 10 <? t) && (t <? maxCharge_degC * 10)) b' /\
    control_written b'
    = if (minCharge_degC * 10 <? t) && (t <? maxCharge_degC * 10)
      then (SYS_CTRL2, Z.lor (control b SYS_CTRL2) 0x01) :: control_written b
      else control_written b.
Proof.
  intros Hf He Hid Hv Hlim Ht L1 L2 L3 L4.
  unfold setTemperatureLimits, enableCharging, charging_allowed.
  unfold bind_b, on_bms, long_mul, get_b, read_control, write_control, ret_b, get.
  rewrite L1, L2, L3, L4. cbn [bms set_bms].
  rewrite (checkStatus_quick _ Hf He). cbn [Z.eqb negb bms set_bms].
  rewrite (cellVoltages_at_lookup _ _ _ Hid Hv). cbn [bms set_bms].
  destruct (Z.ltb_spec vmax (maxCellVoltage (bms b))); [|lia]. cbn [negb].
  assert (Et : forall s, temperatures s = temperatures (bms b) ->
                         temperatures_at 0 s = Ok t s).
  { intros s Es. unfold temperatures_at. change (0 <=? 0) with true.
    cbn beta iota. change (Z.to_nat 0) with 0%nat. now rewrite Es, Ht. }
  rewrite Et by reflexivity.
  cbn [bms control control_written minCellTempCharge maxCellTempCharge
       set_bms set_control_written].
  destruct (t <? maxCharge_degC * 10); cbn [negb].
  - rewrite Et by reflexivity.
    cbn [bms control control_written minCellTempCharge maxCellTempCharge
         set_bms set_control_written].
    rewrite andb_true_r.
    destruct (minCharge_degC * 10 <? t); eexists; split; reflexivity.
  - rewrite andb_false_r. eexists. split; reflexivity.
Qed.

Lemma charging_temperature_window_witness :
  exists b',
    (setTemperatureLimits (-20) 45 0 45 ;~ enableCharging) example_board
    = Done ((0 * 10 <? 215) && (215 <? 45 * 10)) b' /\
    control_written b'
    = if (0 * 10 <? 215) && (215 <? 45 * 10)
      then (SYS_CTRL2, Z.lor (control example_board SYS_CTRL2) 0x01)
           :: control_written example_board
      else control_written example_board.
Proof.
  apply (charging_temperature_window example_board (-20) 45 0 45 3400 215);
    try reflexivity.
  vm_compute. discriminate.
Defined.

(** ** Alerts *)



(** X26.  While the status byte shows a fault flag, [checkStatus] never
    takes the alert flag down: called with the alert flag up, it returns
    the status byte (not 0) and leaves the flag up, so that the next call
    sets [secSinceErrorCounter] back to 0 again. *)
Theorem checkStatus_keeps_alert_on_fault (s s' : bq769x0) (status : Z) :
  checkStatus s = Ok status s' ->
  alertInterruptFlag s = true ->
  Z.land (chip (_i2c s) SYS_STAT) 0x3F <> 0 ->
  alertInterruptFlag s' = true /\ status = chip (_i2c s) SYS_STAT /\ status <> 0.
Proof.
  intros H Hflag Hfault.
  assert (Hs : status = chip (_i2c s) SYS_STAT /\ status <> 0).
  { split.
    - destruct (checkStatus_value _ _ _ H) as (_ & _ & Hv).
      rewrite (Hv (or_introl Hflag)).
      now destruct (Z.eqb_spec (Z.land (chip (_i2c s) SYS_STAT) 63) 0).
    - apply (fault_shown_nonzero s s'); auto. }
  split; [|exact Hs].
  apply checkStatus_Ok in H as [(Hq & _)|[_ H]].
  { rewrite Hflag in Hq. discriminate. }
  cbv zeta in H. set (sys_stat := chip (_i2c s) SYS_STAT) in *.
  apply bind_Ok in H as (u1 & s1 & H1 & H).
  assert (F1 : alertInterruptFlag s1 = true).
  { destruct (updateCurrent_run s) as [Hn Hr]. fold sys_stat in Hn, Hr.
    destruct (Z.testbit sys_stat 7); cbn [when] in H1.
    - destruct (Hr eq_refl) as (s2 & E & _ & _ & _ & _ & Hf & _).
      rewrite E in H1. assert (s1 = s2) by congruence. subst s1. rewrite Hf.
      now destruct (Z.eqb_spec (Z.land sys_stat 63) 0).
    - assert (s1 = s) by (unfold ret in H1; congruence). now subst s1. }
  match type of H with
  | ?m s1 = _ =>
      assert (K : keeps (fun t t' => alertInterruptFlag t' = alertInterruptFlag t) m)
  end.
  { unfold clear_periodically, writeRegister.
    keeps_all (fun t => @eq_refl bool (alertInterruptFlag t))
              (fun t1 t2 t3 (E1 : alertInterruptFlag t2 = alertInterruptFlag t1)
                   (E2 : alertInterruptFlag t3 = alertInterruptFlag t2) =>
                 eq_trans E2 E1);
      try reflexivity.
    all: intros t [] t' Hu; apply updateVoltages_keeps in Hu; apply Hu. }
  now rewrite (K _ _ _ H).
Qed.

Lemma checkStatus_keeps_alert_on_fault_witness :
  exists s',
    checkStatus (set_alertInterruptFlag true scd_chip) = Ok 0x02 s' /\
    alertInterruptFlag s' = true /\
    0x02 = chip (_i2c (set_alertInterruptFlag true scd_chip)) SYS_STAT /\
    0x02 <> 0.
Proof.
  eexists. split; [vm_compute; reflexivity|].
  apply (checkStatus_keeps_alert_on_fault (set_alertInterruptFlag true scd_chip) _ 0x02).
  - vm_compute. reflexivity.
  - reflexivity.
  - vm_compute. discriminate.
Defined.

(** ** The balancing status *)

Lemma status_of_flags_snoc (flags : list Z) (f : Z) : forall from,
  status_of_flags from (flags ++ [f])
  = Z.lor (status_of_flags from flags)
          (Z.shiftl f (from + Z.of_nat (length flags))).
Proof.
  induction flags as [|g flags IH]; intros from; cbn [status_of_flags app length].
  - now rewrite Z.lor_0_r, Z.lor_0_l, Z.add_0_r.
  - rewrite IH, Z.lor_assoc. do 2 f_equal. lia.
Qed.

Lemma balancing_section_status (s s' : bq769x0) (section flags : Z) :
  balancing_section section s = Ok tt s' ->
  written (_i2c s') = (CELLBAL1_plus section, flags) :: written (_i2c s) ->
  balancingStatus s' = Z.lor (balancingStatus s) (Z.shiftl flags section).
Proof.
  intros H Hw. unfold balancing_section in H.
  apply bind_Ok in H as (f & s1 & H1 & H).
  assert (s1 = s).
  { apply (for_acc_Ok (fun _ _ t => t = s) (balancing_cell section) 5 0 0 f s s1);
      [reflexivity| |exact H1].
    intros j a t a' t' _ -> Hc. now apply balancing_cell_Ok in Hc. }
  subst s1.
  apply bind_Ok in H as (status & s1 & H2 & H). apply get_Ok in H2 as [-> ->].
  apply bind_Ok in H as (u & s1 & H2 & H). apply modify_Ok in H2. subst s1.
  injection H as <-. cbn in Hw. injection Hw as ->. reflexivity.
Qed.

(** X27.  When balancing is allowed, [updateBalancingSwitches] leaves in
    [balancingStatus], and [getBalancingStatus] returns, the flag sets it
    has written, each shifted left by the number of its section -- not by
    five times that number -- and or-ed together.  [s1] is the device as
    the evaluation of the condition leaves it; the store is to hold the
    cells of all sections. *)
Theorem updateBalancingSwitches_status (s s1 : bq769x0) :
  balancing_gate s = Ok true s1 ->
  5 * Z.quot (numberOfCells s) 5 <= Z.of_nat (length (cellVoltages s1)) ->
  exists s' flags,
    updateBalancingSwitches s = Ok tt s' /\
    Z.of_nat (length flags) = Z.max 0 (Z.quot (numberOfCells s) 5) /\
    written (_i2c s') = section_writes 0 flags ++ written (_i2c s1) /\
    balancingStatus s' = status_of_flags 0 flags /\
    getBalancingStatus s' = Ok (status_of_flags 0 flags) s'.
Proof.
  intros Hgate Hstore. rewrite updateBalancingSwitches_by_gate.
  unfold bind at 1. rewrite Hgate. unfold bind at 1, modify at 1.
  cbn beta iota.
  assert (Hmin : in_store s1 (idCellMinVoltage s1)).
  { unfold balancing_gate in Hgate.
    apply bind_Ok in Hgate as (now & t & _ & Hgate).
    apply bind_Ok in Hgate as (stamp & t1 & _ & Hgate).
    apply bind_Ok in Hgate as (idle & t2 & _ & Hgate).
    now apply balancing_allowed_true in Hgate. }
  set (t0 := set_balancingStatus 0 s1).
  set (n := Z.quot (numberOfCells s) 5) in *.
  destruct (for_invariant
    (fun k t => same_cells s1 t /\
       exists flags, Z.of_nat (length flags) = k /\
         written (_i2c t) = section_writes 0 flags ++ written (_i2c s1) /\
         balancingStatus t = status_of_flags 0 flags)
    balancing_section (Z.to_nat n) 0 t0) as (s' & E & _ & flags & Hlen & Hw & Hst).
  - split; [now repeat split|]. exists []. now repeat split.
  - intros k t Hk ((C & I & D) & flags & Hlen & Hw & Hst).
    destruct (balancing_section_step t k) as (f & t' & E & _ & Hw' & (C' & I' & D')).
    { intros i Hi. unfold in_store. rewrite C. lia. }
    { unfold in_store in *. now rewrite C, I. }
    exists t'. split; [exact E|]. split; [repeat split; congruence|].
    exists (flags ++ [f]). split; [rewrite length_app; cbn; lia|]. split.
    + rewrite Hw', Hw, section_writes_snoc. cbn [app]. do 3 f_equal. lia.
    + rewrite (balancing_section_status t t' k f E Hw'), Hst, status_of_flags_snoc.
      do 2 f_equal. lia.
  - exists s', flags. split; [exact E|]. split; [lia|]. split; [exact Hw|].
    split; [exact Hst|]. unfold getBalancingStatus, get. now rewrite Hst.
Qed.

Lemma updateBalancingSwitches_status_witness :
  exists s' flags,
    updateBalancingSwitches balancing_example = Ok tt s' /\
    Z.of_nat (length flags) = Z.max 0 (Z.quot (numberOfCells balancing_example) 5) /\
    written (_i2c s') = section_writes 0 flags ++ written (_i2c balancing_example) /\
    balancingStatus s' = status_of_flags 0 flags /\
    getBalancingStatus s' = Ok (status_of_flags 0 flags) s'.
Proof.
  apply (updateBalancingSwitches_status balancing_example balancing_example).
  - vm_compute. reflexivity.
  - vm_compute. discriminate.
Defined.

(** With more than one section the status does not tell the cells apart:
    cell 2 of the first section and cell 1 of the second fall on the same
    bit. *)
Example status_of_flags_overlap :
  status_of_flags 0 [2; 0] = 2 /\ status_of_flags 0 [0; 1] = 2.
Proof. split; reflexivity. Qed.
